(** * Price-feed normalisation and cross-chain merge of budget-manager

    A shallow embedding of the four Python scripts under [scripts/]
    ([fetch_all_chains.py], [scrape_simple.py], [import_kaggle.py] and
    [scrape_prices.py]) and the properties of their record normaliser,
    field extractor, barcode-keyed merge and persistence projection.

    Conventions of the embedding:
    - a Python [str] is a Rocq [string]; its characters are read as the code
      points below 256;
    - a Python [float] is a [pyfloat]: a finite value is the exact rational
      it denotes, every operation that produces a float rounds to binary64
      explicitly ([b64_round]);
    - a Python [dict] used as a map is a [gmap]; a dict used as a record is a
      Rocq [Record];
    - a Python exception is the left injection of the [M] monad. *)

From Stdlib Require Import Ascii String QArith Sorted.
From stdpp Require Import gmap strings list fin_maps.

Local Open Scope Z_scope.

(** ** Python text *)

Module Py.

(** [str.isspace] on the code points below 256. *)
Definition is_space (c : ascii) : bool :=
  let n := Z.of_nat (nat_of_ascii c) in
  ((9 <=? n) && (n <=? 13)) || ((28 <=? n) && (n <=? 32))
  || (n =? 133) || (n =? 160).

(** Drop the leading, respectively trailing, characters that [space]
    accepts. *)
Fixpoint lstrip_by (space : ascii -> bool) (l : list ascii) : list ascii :=
  match l with
  | c :: r => if space c then lstrip_by space r else l
  | [] => []
  end.

Definition rstrip_by (space : ascii -> bool) (l : list ascii) : list ascii :=
  rev (lstrip_by space (rev l)).

(** [s.strip()] *)
Definition strip (s : string) : string :=
  string_of_list_ascii
    (rstrip_by is_space (lstrip_by is_space (list_ascii_of_string s))).

(** [s.replace(',', '.')] *)
Definition replace_comma (s : string) : string :=
  string_of_list_ascii
    (map (fun c => if Ascii.eqb c "," then "."%char else c)
         (list_ascii_of_string s)).

(** Truth value of a [str]: the empty string is false. *)
Definition truthy (s : string) : bool :=
  match s with EmptyString => false | _ => true end.

(** [s[lo:hi]] for non-negative bounds, [hi = None] for an open end. *)
Definition slice (s : string) (lo : nat) (hi : option nat) : string :=
  let n := String.length s in
  let stop := match hi with Some h => Nat.min h n | None => n end in
  substring lo (stop - lo) s.

(** *** Exceptions *)

Inductive exn := ValueError | AttributeError | ImportError | OtherError.

Definition M (A : Type) : Type := exn + A.
Definition ret {A} (a : A) : M A := inr a.
Definition raise {A} (e : exn) : M A := inl e.
Definition bind {A B} (m : M A) (k : A -> M B) : M B :=
  match m with inl e => inl e | inr a => k a end.

(** [try: body except <classes>: handler], [catches] telling which
    exceptions the clause names. *)
Definition try_except {A} (body : M A) (catches : exn -> bool)
    (handler : M A) : M A :=
  match body with
  | inl e => if catches e then handler else inl e
  | inr a => inr a
  end.

Definition only_ValueError (e : exn) : bool :=
  match e with ValueError => true | _ => false end.
Definition ValueError_or_AttributeError (e : exn) : bool :=
  match e with ValueError | AttributeError => true | _ => false end.
Definition any_Exception (e : exn) : bool := true.

(** *** Floats *)

Inductive pyfloat :=
| Fin (q : Q)          (* a finite double, as the rational it denotes *)
| Inf (negative : bool)
| NaN.

(** Nearest integer to [n / d], ties to even, for [0 <= n] and [0 < d]. *)
Definition div_half_even (n d : Z) : Z :=
  let q := n / d in
  let r := n mod d in
  if 2 * r <? d then q
  else if d <? 2 * r then q + 1
  else if Z.even q then q else q + 1.

(** The value [m * 2^k] as a reduced fraction. *)
Definition dyadic (m k : Z) : Q :=
  if 0 <=? k then inject_Z (m * 2 ^ k)
  else Qred (m # Z.to_pos (2 ^ (- k))).

(** Round the positive rational [n / d] to the nearest binary64 value
    (53-bit significand, least exponent -1074, round-half-even);
    [2^1024] and above overflow to infinity. *)
Definition b64_round_pos (n d : Z) : pyfloat :=
  let e0 := Z.log2 n - Z.log2 d in
  let above :=
    if 0 <=? e0 then 2 ^ e0 * d <=? n else d <=? n * 2 ^ (- e0) in
  let e := if above then e0 else e0 - 1 in
  let k := Z.max (e - 52) (-1074) in
  let m :=
    if 0 <=? k then div_half_even n (d * 2 ^ k)
    else div_half_even (n * 2 ^ (- k)) d in
  if (971 <? k) || ((k =? 971) && (m =? 2 ^ 53)) then Inf false
  else Fin (dyadic m k).

Definition fneg (x : pyfloat) : pyfloat :=
  match x with
  | Fin q => Fin (Qred (- q))
  | Inf s => Inf (negb s)
  | NaN => NaN
  end.

Definition b64_round (q : Q) : pyfloat :=
  match Qnum q with
  | Z0 => Fin 0
  | Zpos n => b64_round_pos (Zpos n) (Zpos (Qden q))
  | Zneg n => fneg (b64_round_pos (Zpos n) (Zpos (Qden q)))
  end.

(** [x < y], [x > 0], [x <= 0] and [bool(x)] on floats. *)
Definition flt (x y : pyfloat) : bool :=
  match x, y with
  | NaN, _ | _, NaN => false
  | Fin a, Fin b => negb (Qle_bool b a)
  | Fin _, Inf s => negb s
  | Inf s, Fin _ => s
  | Inf a, Inf b => a && negb b
  end.

Definition fle (x y : pyfloat) : bool :=
  match x, y with
  | NaN, _ | _, NaN => false
  | Fin a, Fin b => Qle_bool a b
  | Fin _, Inf s => negb s
  | Inf s, Fin _ => s
  | Inf a, Inf b => a || negb b
  end.

Definition gt0 (x : pyfloat) : bool := flt (Fin 0) x.
Definition le0 (x : pyfloat) : bool := fle x (Fin 0).

Definition ftruthy (x : pyfloat) : bool :=
  match x with
  | Fin q => negb (Qeq_bool q 0)
  | _ => true
  end.

Definition is_nan (x : pyfloat) : bool :=
  match x with NaN => true | _ => false end.

(** [round(x, 2)]: the exact value of [x] is rounded half-even to two
    decimals and the result converted back to binary64; infinities and
    NaN round to themselves. *)
Definition round2 (x : pyfloat) : pyfloat :=
  match x with
  | Fin q =>
      let n := Qnum q * 100 in
      let d := Zpos (Qden q) in
      let c := if 0 <=? n then div_half_even n d
               else - div_half_even (- n) d in
      b64_round (c # 100)
  | other => other
  end.

(** *** [float(str)] *)

Definition digit_val (c : ascii) : option Z :=
  let n := Z.of_nat (nat_of_ascii c) in
  if (48 <=? n) && (n <=? 57) then Some (n - 48) else None.

Definition is_digit (c : ascii) : bool :=
  match digit_val c with Some _ => true | None => false end.

(** Underscores are allowed between two digits only; they are checked
    and then removed before the number is read. *)
Fixpoint underscores_ok (prev : option ascii) (l : list ascii) : bool :=
  match l with
  | [] => match prev with
          | Some p => negb (Ascii.eqb p "_")
          | None => true
          end
  | c :: r =>
      (if Ascii.eqb c "_"
       then match prev with Some p => is_digit p | None => false end
       else match prev with
            | Some p => negb (Ascii.eqb p "_") || is_digit c
            | None => true
            end)
      && underscores_ok (Some c) r
  end.

Definition drop_underscores (l : list ascii) : list ascii :=
  List.filter (fun c => negb (Ascii.eqb c "_")) l.

(** The leading run of decimal digits, most significant first, and what
    follows it. *)
Fixpoint span_digits (l : list ascii) : list Z * list ascii :=
  match l with
  | c :: r =>
      match digit_val c with
      | Some v => let '(ds, rest) := span_digits r in (v :: ds, rest)
      | None => ([], l)
      end
  | [] => ([], [])
  end.

Definition digits_value (ds : list Z) : Z :=
  fold_left (fun acc v => 10 * acc + v) ds 0.

Definition take_sign (l : list ascii) : bool * list ascii :=
  match l with
  | c :: r =>
      if Ascii.eqb c "-" then (true, r)
      else if Ascii.eqb c "+" then (false, r)
      else (false, l)
  | [] => (false, [])
  end.

Definition is_e (c : ascii) : bool := Ascii.eqb c "e" || Ascii.eqb c "E".

(** [exponent ::= ("e" | "E") [sign] digitpart], or nothing. *)
Definition parse_exponent (l : list ascii) : option Z :=
  match l with
  | [] => Some 0
  | c :: r =>
      if is_e c then
        let '(neg, r1) := take_sign r in
        match span_digits r1 with
        | ((_ :: _) as ds, []) =>
            Some (if neg then - digits_value ds else digits_value ds)
        | _ => None
        end
      else None
  end.

(** [number ::= [digitpart] "." digitpart | digitpart ["."]] followed by
    the optional exponent: the decimal [mant * 10^ex]. *)
Definition parse_decimal (l : list ascii) : option (Z * Z) :=
  let '(ip, r1) := span_digits l in
  let '(fp, r2) :=
    match r1 with
    | c :: r => if Ascii.eqb c "." then span_digits r else ([], r1)
    | [] => ([], [])
    end in
  match ip ++ fp with
  | [] => None
  | ds =>
      match parse_exponent r2 with
      | Some ex => Some (digits_value ds, ex - Z.of_nat (length fp))
      | None => None
      end
  end.

Definition decimal_to_Q (mant ex : Z) : Q :=
  if 0 <=? ex then inject_Z (mant * 10 ^ ex)
  else mant # Z.to_pos (10 ^ (- ex)).

Definition lower_ascii (c : ascii) : ascii :=
  let n := nat_of_ascii c in
  if (65 <=? n)%nat && (n <=? 90)%nat then ascii_of_nat (n + 32) else c.

Definition lower (l : list ascii) : string :=
  string_of_list_ascii (map lower_ascii l).

(** [s.lower()] on the code points below 256. *)
Definition str_lower (s : string) : string :=
  string_of_list_ascii
    (map (fun c =>
            let n := nat_of_ascii c in
            if ((65 <=? n) && (n <=? 90)
                || (192 <=? n) && (n <=? 222) && negb (n =? 215))%nat
            then ascii_of_nat (n + 32) else c)
         (list_ascii_of_string s)).

(** The white space that [float] itself skips at both ends: unlike
    [str.strip] it keeps the separators 28 to 31. *)
Definition is_float_space (c : ascii) : bool :=
  let n := Z.of_nat (nat_of_ascii c) in
  ((9 <=? n) && (n <=? 13)) || (n =? 32) || (n =? 133) || (n =? 160).

(** [float(s)] for a [str] argument: [None] is [ValueError]. *)
Definition float_of_string (s : string) : option pyfloat :=
  let l := rstrip_by is_float_space
             (lstrip_by is_float_space (list_ascii_of_string s)) in
  if underscores_ok None l then
    let '(neg, body) := take_sign (drop_underscores l) in
    let signed x := if neg then fneg x else x in
    let word := lower body in
    if String.eqb word "inf" || String.eqb word "infinity"
    then Some (signed (Inf false))
    else if String.eqb word "nan" then Some NaN
    else match parse_decimal body with
         | Some (mant, ex) => Some (signed (b64_round (decimal_to_Q mant ex)))
         | None => None
         end
  else None.

Definition float (s : string) : M pyfloat :=
  match float_of_string s with
  | Some x => ret x
  | None => raise ValueError
  end.

(** *** More of [str] and [list] *)

(** [kw in s] for two [str]: [kw] occurs in [s]. *)
Fixpoint contains (kw s : string) : bool :=
  String.prefix kw s
  || match s with
     | EmptyString => false
     | String _ s' => contains kw s'
     end.

(** [s.endswith(suffix)] *)
Definition endswith (s suffix : string) : bool :=
  let n := String.length s in
  let k := String.length suffix in
  (k <=? n)%nat && String.eqb (substring (n - k) k s) suffix.

(** [l.index(x)], [None] for [ValueError]. *)
Fixpoint index (x : string) (l : list string) : option nat :=
  match l with
  | [] => None
  | y :: rest =>
      if String.eqb y x then Some 0%nat else option_map S (index x rest)
  end.

End Py.

(** ** Parsed feed records *)

Module Xml.

(** A child element of an item node: its tag and its [.text], which is
    [None] for an element without text. *)
Record element := { tag : string; text : option string }.

(** A child element with text. *)
Definition child (tag text : string) : element :=
  {| tag := tag; text := Some text |}.

(** [item.find(name)]: the first direct child with that tag. *)
Fixpoint find (children : list element) (name : string) : option element :=
  match children with
  | [] => None
  | el :: rest => if String.eqb (tag el) name then Some el else find rest name
  end.

(** The text of [item.find(name)] when [el is not None and el.text]. *)
Definition find_text (children : list element) (name : string)
  : option string :=
  match find children name with
  | Some el =>
      match text el with
      | Some t => if Py.truthy t then Some t else None
      | None => None
      end
  | None => None
  end.

End Xml.

(** ** Definitions shared by the scripts *)

Module Catalog.

(** One entry of a merged product's [prices] list. *)
Record PriceEntry := {
  chain : string;
  chainName : string;
  price : Py.pyfloat
}.

(** [any(pr['chain'] == c for pr in prices)] *)
Definition any_chain (c : string) (prices : list PriceEntry) : bool :=
  existsb (fun pr => String.eqb (chain pr) c) prices.

Definition image_prefix : string :=
  "https://images.openfoodfacts.org/images/products/".
Definition image_suffix : string := "/front_he.400.jpg".

(** The f-string of the image URL. *)
Definition image_path (a b c d : string) : string :=
  (image_prefix ++ a ++ "/" ++ b ++ "/" ++ c ++ "/" ++ d ++ image_suffix)
  %string.

(** [image = None; if len(barcode) >= 12: image = f"..."] *)
Definition image_url (barcode : string) : option string :=
  if (12 <=? String.length barcode)%nat then
    Some (image_path (Py.slice barcode 0 (Some 3%nat))
                     (Py.slice barcode 3 (Some 6%nat))
                     (Py.slice barcode 6 (Some 9%nat))
                     (Py.slice barcode 9 None))
  else None.

(** [min(prices, key=lambda p: p['price'])] on a non-empty list whose
    first element is [best]: a later element replaces the running
    minimum only when its key is strictly smaller. *)
Fixpoint min_by_price (best : PriceEntry) (rest : list PriceEntry)
  : PriceEntry :=
  match rest with
  | [] => best
  | p :: rest' =>
      if Py.flt (price p) (price best) then min_by_price p rest'
      else min_by_price best rest'
  end.

(** [cheapest = min(...) if prices else {'price': 0, 'chainName': ''}],
    read at ['price'] and ['chainName']. *)
Definition cheapest (prices : list PriceEntry) : Py.pyfloat * string :=
  match prices with
  | [] => (Py.Fin 0, ""%string)
  | p :: rest =>
      let c := min_by_price p rest in (price c, chainName c)
  end.

(** A [for] loop that appends accepted records to [products] and is left
    by the first exception, which keeps what was appended before it. *)
Fixpoint collect {I P : Type} (normalize : I -> Py.M (option P))
    (items : list I) (products : list P) : list P * option Py.exn :=
  match items with
  | [] => (products, None)
  | it :: rest =>
      match normalize it with
      | inl e => (products, Some e)
      | inr (Some p) => collect normalize rest (products ++ [p])
      | inr None => collect normalize rest products
      end
  end.

(** The tag loops of [parse_xml_file] and [parse_xml]:
    [for tag in tags: el = item.find(tag); if el is not None and
    el.text: x = el.text.strip(); break], with [x = None] before. *)
Fixpoint tag_loop (item : list Xml.element) (tags : list string)
  : option string :=
  match tags with
  | [] => None
  | tag :: rest =>
      match Xml.find_text item tag with
      | Some t => Some (Py.strip t)
      | None => tag_loop item rest
      end
  end.

(** Their price loop: the first tag with text decides; a [ValueError]
    of [float] is passed over and leaves [price = None]. *)
Fixpoint price_loop (item : list Xml.element) (tags : list string)
  : Py.M (option Py.pyfloat) :=
  match tags with
  | [] => Py.ret None
  | tag :: rest =>
      match Xml.find_text item tag with
      | Some t =>
          Py.try_except
            (Py.bind (Py.float (Py.replace_comma (Py.strip t)))
                     (fun x => Py.ret (Some x)))
            Py.only_ValueError (Py.ret None)
      | None => price_loop item rest
      end
  end.

(** [if barcode and name and price and price > 0] *)
Definition valid (barcode name : option string) (price : option Py.pyfloat)
  : bool :=
  match barcode, name, price with
  | Some b, Some n, Some p =>
      Py.truthy b && Py.truthy n && Py.ftruthy p && Py.gt0 p
  | _, _, _ => false
  end.

(** [categorize] of fetch_all_chains.py and of scrape_simple.py and
    [categorize_product] of import_kaggle.py are the same two loops over
    their own keyword table. The tables and the default label hold
    Hebrew text, outside the code points of this embedding, and are
    parameters: the categories in declaration order, each with its
    keywords in declaration order. *)
Section Categorize.
Variable CATEGORIES : list (string * list string).
Variable default_label : string.

(** Whether [for kw in keywords: if kw in lower: return cat] returns. *)
Fixpoint keyword_loop (keywords : list string) (lower : string) : bool :=
  match keywords with
  | [] => false
  | kw :: rest =>
      if Py.contains kw lower then true else keyword_loop rest lower
  end.

Fixpoint category_loop (table : list (string * list string))
    (lower : string) : string :=
  match table with
  | [] => default_label
  | (cat, keywords) :: rest =>
      if keyword_loop keywords lower then cat else category_loop rest lower
  end.

Definition categorize (name : string) : string :=
  category_loop CATEGORIES (Py.str_lower name).
End Categorize.

(** What [os.walk] yields: the directories in walk order, each with its
    files in order, a file being its name and the outcome of reading it
    and of parsing it into items. *)
Definition Walk : Type :=
  list (list (string * Py.M (list (list Xml.element)))).

End Catalog.

(** ** scripts/fetch_all_chains.py *)

Module fetch_all_chains.

Record Product := {
  barcode : string;
  name : string;
  price : Py.pyfloat;
  chain : string;
  chainName : string;
  manufacturer : string;
  category : string
}.

Record Merged := {
  m_barcode : string;
  m_name : string;
  m_manufacturer : string;
  m_category : string;
  prices : list Catalog.PriceEntry
}.

Definition barcode_tags : list string := ["ItemCode"; "Barcode"; "barcode"].
Definition name_tags : list string :=
  ["ItemName"; "ItemNm"; "ProductName"; "name"].
Definition price_tags : list string := ["ItemPrice"; "Price"; "price"].
Definition manufacturer_tags : list string :=
  ["ManufacturerName"; "Manufacturer"].

Section Parse.
Variable categorize : string -> string.

(** The body of [for item in items] in [parse_xml_file]. *)
Definition normalize (chain_id chain_name : string)
    (item : list Xml.element) : Py.M (option Product) :=
  let barcode := Catalog.tag_loop item barcode_tags in
  let name := Catalog.tag_loop item name_tags in
  Py.bind (Catalog.price_loop item price_tags) (fun price =>
  let manufacturer :=
    default ""%string (Catalog.tag_loop item manufacturer_tags) in
  match barcode, name, price with
  | Some b, Some n, Some p =>
      if Catalog.valid barcode name price then
        Py.ret (Some {| barcode := b; name := n; price := Py.round2 p;
                        chain := chain_id; chainName := chain_name;
                        manufacturer := manufacturer;
                        category := categorize n |})
      else Py.ret None
  | _, _, _ => Py.ret None
  end).

(** [parse_xml_file]: [doc] is the outcome of reading the file and of
    [ET.fromstring] followed by the two [findall]; every exception is
    caught and the products appended so far are returned. *)
Definition parse_xml_file (doc : Py.M (list (list Xml.element)))
    (chain_id chain_name : string) : list Product :=
  match doc with
  | inl _ => []
  | inr items =>
      fst (Catalog.collect (normalize chain_id chain_name) items [])
  end.
End Parse.

(** [fetch_chain]: [known] is [chain_id in CHAINS]; [scraped] is the
    outcome of the [try] body, the products parsed from the downloaded
    files or the exception that left it. *)
Definition fetch_chain (known : bool) (scraped : Py.M (list Product))
    (limit : nat) : list Product :=
  if known then
    match scraped with
    | inr products => take limit products
    | inl _ => []
    end
  else [].

(** Two states of a merged entry that differ in their prices at most. *)
Definition same_ancillary (a b : Merged) : Prop :=
  m_barcode a = m_barcode b /\ m_name a = m_name b
  /\ m_manufacturer a = m_manufacturer b /\ m_category a = m_category b.

(** [{'chain': p['chain'], 'chainName': p['chainName'],
     'price': p['price']}] *)
Definition price_entry (p : Product) : Catalog.PriceEntry :=
  {| Catalog.chain := chain p; Catalog.chainName := chainName p;
     Catalog.price := price p |}.

(** One round of [for p in all_products] in [main]. *)
Definition merge_step (merged : gmap string Merged) (p : Product)
  : gmap string Merged :=
  let merged :=
    match merged !! barcode p with
    | Some _ => merged
    | None =>
        <[barcode p := {| m_barcode := barcode p; m_name := name p;
                          m_manufacturer := manufacturer p;
                          m_category := category p; prices := [] |}]> merged
    end in
  match merged !! barcode p with
  | Some mp =>
      if Catalog.any_chain (chain p) (prices mp) then merged
      else
        <[barcode p :=
            {| m_barcode := m_barcode mp; m_name := m_name mp;
               m_manufacturer := m_manufacturer mp;
               m_category := m_category mp;
               prices := prices mp ++
                 [price_entry p] |}]> merged
  | None => merged
  end.

Definition merge (all_products : list Product) : gmap string Merged :=
  fold_left merge_step all_products ∅.

(** The JSON result of [main]. The listing order of [products]
    (insertion order in Python) is not tracked by the map. *)
Record Result := {
  success : bool;
  totalProducts : nat;
  chainsSummary : gmap string nat;
  products : list Merged
}.

(** [main] after the chains are selected: [runs] pairs each selected
    chain id, which is a key of [CHAINS], with the outcome of the [try]
    body of its [fetch_chain]. *)
Definition main (runs : list (string * Py.M (list Product))) : Result :=
  let fetched :=
    map (fun run => (fst run, fetch_chain true (snd run) 5000)) runs in
  let all_products := concat (map snd fetched) in
  let chains_summary :=
    fold_left (fun s cp => <[fst cp := length (snd cp)]> s) fetched ∅ in
  let merged := merge all_products in
  {| success := true;
     totalProducts := size merged;
     chainsSummary := chains_summary;
     products := map snd (map_to_list merged) |}.

(** The [$set] document of [update_mongodb], without its timestamps. *)
Record Document := {
  d_name : string;
  d_manufacturer : string;
  d_category : string;
  image : option string;
  d_prices : list Catalog.PriceEntry;
  cheapestPrice : Py.pyfloat;
  cheapestChain : string;
  dataSource : string
}.

Definition projection (product : Merged) : Document :=
  let prices := prices product in
  let cheapest := Catalog.cheapest prices in
  {| d_name := m_name product;
     d_manufacturer := m_manufacturer product;
     d_category := m_category product;
     image := Catalog.image_url (m_barcode product);
     d_prices := prices;
     cheapestPrice := fst cheapest;
     cheapestChain := snd cheapest;
     dataSource := "python-scraper" |}.

(** *** [fetch_chain] and the selection of [main] *)

Definition file_types_to_try : list (list string) :=
  [["Price"]; ["PriceFull"]; ["PriceFull"; "Price"]].

(** ['price' in filename.lower() and (filename.endswith('.xml') or
     filename.endswith('.gz'))] *)
Definition is_price_file (filename : string) : bool :=
  Py.contains "price" (Py.str_lower filename)
  && (Py.endswith filename ".xml" || Py.endswith filename ".gz").

Section Fetch.
Variable categorize : string -> string.
Variables chain_id chain_name : string.
Variable limit : nat.

(** [for filename in files], left by [break] once [limit] products are
    there; the test is made after a price file only. *)
Fixpoint filename_loop
    (files : list (string * Py.M (list (list Xml.element))))
    (products : list Product) : list Product :=
  match files with
  | [] => products
  | (filename, doc) :: rest =>
      if is_price_file filename then
        let products :=
          products ++ parse_xml_file categorize doc chain_id chain_name in
        if (limit <=? length products)%nat then products
        else filename_loop rest products
      else filename_loop rest products
  end.

(** [for root, dirs, files in os.walk(output_dir)], with its own
    [break]. *)
Fixpoint walk_loop (dirs : Catalog.Walk) (products : list Product)
  : list Product :=
  match dirs with
  | [] => products
  | files :: rest =>
      let products := filename_loop files products in
      if (limit <=? length products)%nat then products
      else walk_loop rest products
  end.

(** What the scraping task started with the given file types leaves for
    [os.walk], or the exception raised by the task or the walk. *)
Variable scrape : list string -> Py.M Catalog.Walk.

(** [for file_types in file_types_to_try], left once products are
    there. *)
Fixpoint attempt_loop (attempts : list (list string))
    (products : list Product) : Py.M (list Product) :=
  match attempts with
  | [] => Py.ret products
  | file_types :: rest =>
      Py.bind (scrape file_types) (fun dirs =>
      let products := walk_loop dirs products in
      match products with
      | [] => attempt_loop rest products
      | _ => Py.ret products
      end)
  end.

(** The [try] body of [fetch_chain] up to its [return]: the import of
    the scraper library, then the attempts. *)
Definition try_body (library_installed : bool) : Py.M (list Product) :=
  if library_installed then attempt_loop file_types_to_try []
  else Py.raise Py.ImportError.
End Fetch.

(** The keys of [CHAINS], in declaration order, with the scraper name
    of each. *)
Definition CHAINS : list (string * string) :=
  [("shufersal", "SHUFERSAL"); ("rami_levy", "RAMI_LEVY");
   ("victory", "VICTORY"); ("yeinot_bitan", "YAYNO_BITAN");
   ("mega", "MEGA"); ("osher_ad", "OSHER_AD");
   ("hazi_hinam", "HAZI_HINAM"); ("tiv_taam", "TIV_TAAM");
   ("yohananof", "YOHANANOF"); ("good_pharm", "GOOD_PHARM");
   ("freshmarket", "FRESHMARKET"); ("keshet", "KESHET");
   ("bareket", "BAREKET"); ("stop_market", "STOP_MARKET");
   ("politzer", "POLITZER"); ("zol_vbegadol", "ZOL_VBEGADOL");
   ("super_yuda", "SUPER_YUDA")]%string.

(** [a in CHAINS] *)
Definition in_CHAINS (a : string) : bool :=
  existsb (String.eqb a) (map fst CHAINS).

(** [fetch_chain] with its [try] body: [display] gives the display name
    of a chain of the table. *)
Definition fetch_chain_of (categorize display : string -> string)
    (library_installed : bool) (scrape : list string -> Py.M Catalog.Walk)
    (chain_id : string) (limit : nat) : list Product :=
  fetch_chain (in_CHAINS chain_id)
    (try_body categorize chain_id (display chain_id) limit scrape
              library_installed)
    limit.

Definition default_chains : list string :=
  ["shufersal"; "rami_levy"; "victory"; "yeinot_bitan"; "osher_ad"].

(** What [main] does with its arguments: print the chain list, leave
    with [sys.exit(1)], or fetch the selected chains and then either
    update the database or print the result. *)
Inductive Plan :=
| ListChains
| Exit1
| FetchChains (selected : list string) (update_db : bool).

Definition plan (args : list string) : Plan :=
  if existsb (String.eqb "--list") args then ListChains
  else
    let selected :=
      match args with
      | [] => default_chains
      | _ => List.filter in_CHAINS args
      end in
    match selected with
    | [] => Exit1
    | _ => FetchChains selected (existsb (String.eqb "--update-db") args)
    end.

(** What a run of [main] leaves behind: the chain list printed for
    [--list], the exit status of [sys.exit], the list passed to
    [update_mongodb] (no result is printed then), or the JSON result
    printed to stdout. *)
Inductive Outcome :=
| Listed
| Exited (status : nat)
| Updated (products : list Merged)
| Printed (result : Result).

(** [main] from its command line: [script] is [sys.argv[0]], [args] is
    [sys.argv[1:]], and [tried i] is the outcome of the [try] body of
    the [fetch_chain] call for the [i]-th selected chain. The test
    ['--update-db' in sys.argv] reads the whole of [sys.argv]. *)
Definition run_main (script : string) (args : list string)
    (tried : nat -> Py.M (list Product)) : Outcome :=
  match plan args with
  | ListChains => Listed
  | Exit1 => Exited 1
  | FetchChains selected _ =>
      let result :=
        main (imap (fun i chain_id => (chain_id, tried i)) selected) in
      if existsb (String.eqb "--update-db") (script :: args)
      then Updated (products result)
      else Printed result
  end.

End fetch_all_chains.

(** ** scripts/scrape_simple.py *)

Module scrape_simple.

Record Product := {
  barcode : string;
  name : string;
  price : Py.pyfloat;
  chain : string;
  chainName : string;
  category : string
}.

Record Merged := {
  m_barcode : string;
  m_name : string;
  m_category : string;
  prices : list Catalog.PriceEntry
}.

Definition barcode_tags : list string := ["ItemCode"; "Barcode"; "barcode"].
Definition name_tags : list string := ["ItemName"; "ItemNm"; "ProductName"].
Definition price_tags : list string := ["ItemPrice"; "Price"; "price"].

Section Parse.
Variable categorize : string -> string.

(** The body of [for item in items] in [parse_xml]. *)
Definition normalize (chain_id chain_name : string)
    (item : list Xml.element) : Py.M (option Product) :=
  let barcode := Catalog.tag_loop item barcode_tags in
  let name := Catalog.tag_loop item name_tags in
  Py.bind (Catalog.price_loop item price_tags) (fun price =>
  match barcode, name, price with
  | Some b, Some n, Some p =>
      if Catalog.valid barcode name price then
        Py.ret (Some {| barcode := b; name := n; price := Py.round2 p;
                        chain := chain_id; chainName := chain_name;
                        category := categorize n |})
      else Py.ret None
  | _, _, _ => Py.ret None
  end).

Definition parse_xml (doc : Py.M (list (list Xml.element)))
    (chain_id chain_name : string) : list Product :=
  match doc with
  | inl _ => []
  | inr items =>
      fst (Catalog.collect (normalize chain_id chain_name) items [])
  end.
End Parse.

(** Two states of a merged entry that differ in their prices at most. *)
Definition same_ancillary (a b : Merged) : Prop :=
  m_barcode a = m_barcode b /\ m_name a = m_name b
  /\ m_category a = m_category b.

(** [{'chain': p['chain'], 'chainName': p['chainName'],
     'price': p['price']}] *)
Definition price_entry (p : Product) : Catalog.PriceEntry :=
  {| Catalog.chain := chain p; Catalog.chainName := chainName p;
     Catalog.price := price p |}.

(** One round of [for p in products] in [update_mongodb]. *)
Definition merge_step (merged : gmap string Merged) (p : Product)
  : gmap string Merged :=
  let merged :=
    match merged !! barcode p with
    | Some _ => merged
    | None =>
        <[barcode p := {| m_barcode := barcode p; m_name := name p;
                          m_category := category p; prices := [] |}]> merged
    end in
  match merged !! barcode p with
  | Some mp =>
      if Catalog.any_chain (chain p) (prices mp) then merged
      else
        <[barcode p :=
            {| m_barcode := m_barcode mp; m_name := m_name mp;
               m_category := m_category mp;
               prices := prices mp ++
                 [price_entry p] |}]> merged
  | None => merged
  end.

Definition merge (products : list Product) : gmap string Merged :=
  fold_left merge_step products ∅.

Record Document := {
  d_name : string;
  d_category : string;
  image : option string;
  d_prices : list Catalog.PriceEntry;
  cheapestPrice : Py.pyfloat;
  cheapestChain : string;
  dataSource : string
}.

Definition projection (product : Merged) : Document :=
  let prices := prices product in
  let cheapest := Catalog.cheapest prices in
  {| d_name := m_name product;
     d_category := m_category product;
     image := Catalog.image_url (m_barcode product);
     d_prices := prices;
     cheapestPrice := fst cheapest;
     cheapestChain := snd cheapest;
     dataSource := "python-scraper" |}.

(** *** [scrape_chain] and the selection of [main] *)

(** [filename.endswith(('.xml', '.gz', '.XML', '.GZ'))] *)
Definition is_data_file (filename : string) : bool :=
  Py.endswith filename ".xml" || Py.endswith filename ".gz"
  || Py.endswith filename ".XML" || Py.endswith filename ".GZ".

Section Scrape.
Variable categorize : string -> string.
Variables chain_id chain_name : string.

(** [for filename in files], left by [break] once 5000 products are
    there. *)
Fixpoint filename_loop
    (files : list (string * Py.M (list (list Xml.element))))
    (products : list Product) : list Product :=
  match files with
  | [] => products
  | (filename, doc) :: rest =>
      if is_data_file filename then
        let products :=
          products ++ parse_xml categorize doc chain_id chain_name in
        if (5000 <=? length products)%nat then products
        else filename_loop rest products
      else filename_loop rest products
  end.

(** [for root, dirs, files in os.walk(chain_dir)]: this loop has no
    [break] of its own. *)
Fixpoint walk_loop (dirs : Catalog.Walk) (products : list Product)
  : list Product :=
  match dirs with
  | [] => products
  | files :: rest => walk_loop rest (filename_loop files products)
  end.
End Scrape.

(** [scrape_chain]: [walk] is what the imports and the scraping task
    leave for [os.walk], or the exception that left the [try]. *)
Definition scrape_chain (categorize : string -> string)
    (chain_name scraper_id : string) (walk : Py.M Catalog.Walk)
  : list Product :=
  match walk with
  | inl _ => []
  | inr dirs =>
      take 5000 (walk_loop categorize (Py.str_lower scraper_id) chain_name
                           dirs [])
  end.

(** The keys of [chains] in [main], in declaration order, with the
    scraper name of each. *)
Definition chains : list (string * string) :=
  [("victory", "VICTORY"); ("rami_levy", "RAMI_LEVY");
   ("yeinot_bitan", "YAYNO_BITAN"); ("mega", "MEGA");
   ("osher_ad", "OSHER_AD"); ("hazi_hinam", "HAZI_HINAM");
   ("tiv_taam", "TIV_TAAM"); ("keshet", "KESHET");
   ("bareket", "BAREKET"); ("stop_market", "STOP_MARKET");
   ("freshmarket", "FRESHMARKET")]%string.

(** What [main] does with its arguments: print the chain list and
    return, or scrape the selected chains. *)
Inductive Plan :=
| ListChains
| ScrapeChains (selected : list string).

(** [if '--list' in args: ...; return], then
    [selected = [a for a in args if a in chains]], replaced by all the
    keys when empty. *)
Definition plan (args : list string) : Plan :=
  if existsb (String.eqb "--list") args then ListChains
  else
    ScrapeChains
      match List.filter (fun a => existsb (String.eqb a) (map fst chains))
                        args
      with
      | [] => map fst chains
      | selected => selected
      end.

End scrape_simple.

(** ** scripts/import_kaggle.py *)

Module import_kaggle.

Record Product := {
  barcode : string;
  name : string;
  price : Py.pyfloat;
  chain : string;
  chainName : string;
  manufacturer : string;
  unitQty : string;
  unitMeasure : string;
  category : string
}.

Record Merged := {
  m_barcode : string;
  m_name : string;
  m_manufacturer : string;
  m_category : string;
  m_unitQty : string;
  m_unitMeasure : string;
  prices : list Catalog.PriceEntry;
  image : option string
}.

(** [row.get(k1) or row.get(k2) or ... or last]: a row of
    [csv.DictReader] maps a column name to its cell. *)
Fixpoint or_chain (row : gmap string string) (keys : list string)
    (last : string) : string :=
  match keys with
  | [] => last
  | k :: rest =>
      match row !! k with
      | Some v => if Py.truthy v then v else or_chain row rest last
      | None => or_chain row rest last
      end
  end.

Definition barcode_keys : list string :=
  ["ItemCode"; "item_code"; "Barcode"; "barcode"].
Definition name_keys : list string :=
  ["ItemName"; "item_name"; "ProductName"; "product_name"].
Definition price_keys : list string :=
  ["ItemPrice"; "item_price"; "Price"; "price"].
Definition manufacturer_keys : list string :=
  ["ManufacturerName"; "manufacturer_name"; "Manufacturer"].
Definition unit_qty_keys : list string := ["UnitQty"; "unit_qty"; "Quantity"].
Definition unit_measure_keys : list string :=
  ["UnitOfMeasure"; "unit_of_measure"; "UOM"].

(** [try: price = float(price_str.replace(',', '.'))
     except (ValueError, AttributeError): price = 0] *)
Definition parse_price (price_str : string) : Py.M Py.pyfloat :=
  Py.try_except (Py.float (Py.replace_comma price_str))
                Py.ValueError_or_AttributeError (Py.ret (Py.Fin 0)).

Section Parse.
Variable categorize_product : string -> string.

(** The body of [for row in reader] in [parse_price_csv], with its own
    [try ... except Exception: continue]. *)
Definition normalize (chain_id chain_name : string)
    (row : gmap string string) : Py.M (option Product) :=
  Py.try_except
    (let barcode := Py.strip (or_chain row barcode_keys "") in
     let name := Py.strip (or_chain row name_keys "") in
     let price_str := Py.strip (or_chain row price_keys "0") in
     let manufacturer := Py.strip (or_chain row manufacturer_keys "") in
     let unit_qty := Py.strip (or_chain row unit_qty_keys "") in
     let unit_measure := Py.strip (or_chain row unit_measure_keys "") in
     Py.bind (parse_price price_str) (fun price =>
     if negb (Py.truthy barcode) || negb (Py.truthy name) || Py.le0 price
     then Py.ret None
     else
       Py.ret (Some {| barcode := barcode; name := name;
                       price := Py.round2 price;
                       chain := chain_id; chainName := chain_name;
                       manufacturer := manufacturer;
                       unitQty := unit_qty; unitMeasure := unit_measure;
                       category := categorize_product name |})))
    Py.any_Exception (Py.ret None).

(** [parse_price_csv]: [doc] is the outcome of opening the file and
    reading its rows; [chain_id] and [chain_name] are the two fields of
    [chain_info]. *)
Definition parse_price_csv (doc : Py.M (list (gmap string string)))
    (chain_id chain_name : string) : list Product :=
  match doc with
  | inl _ => []
  | inr rows =>
      fst (Catalog.collect (normalize chain_id chain_name) rows [])
  end.
End Parse.

(** Two states of a merged entry that differ in their prices at most. *)
Definition same_ancillary (a b : Merged) : Prop :=
  m_barcode a = m_barcode b /\ m_name a = m_name b
  /\ m_manufacturer a = m_manufacturer b /\ m_category a = m_category b
  /\ m_unitQty a = m_unitQty b /\ m_unitMeasure a = m_unitMeasure b
  /\ image a = image b.

(** [{'chain': p['chain'], 'chainName': p['chainName'],
     'price': p['price']}] *)
Definition price_entry (p : Product) : Catalog.PriceEntry :=
  {| Catalog.chain := chain p; Catalog.chainName := chainName p;
     Catalog.price := price p |}.

(** One round of [for product in products] in
    [merge_products_by_barcode]. *)
Definition merge_step (merged : gmap string Merged) (product : Product)
  : gmap string Merged :=
  let merged :=
    match merged !! barcode product with
    | Some _ => merged
    | None =>
        <[barcode product :=
            {| m_barcode := barcode product; m_name := name product;
               m_manufacturer := manufacturer product;
               m_category := category product;
               m_unitQty := unitQty product;
               m_unitMeasure := unitMeasure product;
               prices := [];
               image := Catalog.image_url (barcode product) |}]> merged
    end in
  match merged !! barcode product with
  | Some mp =>
      <[barcode product :=
          {| m_barcode := m_barcode mp; m_name := m_name mp;
             m_manufacturer := m_manufacturer mp;
             m_category := m_category mp;
             m_unitQty := m_unitQty mp; m_unitMeasure := m_unitMeasure mp;
             prices := prices mp ++
               [price_entry product];
             image := image mp |}]> merged
  | None => merged
  end.

(** The records in the order the two nested loops visit them:
    [chain_products.items()] in insertion order, then each list. *)
Definition processing_order (chain_products : list (string * list Product))
  : list Product :=
  concat (map snd chain_products).

(** [merge_products_by_barcode], before the final conversion of the
    map's values to a list sorted by the number of prices. *)
Definition merge_products_by_barcode
    (chain_products : list (string * list Product)) : gmap string Merged :=
  fold_left (fun merged cp => fold_left merge_step (snd cp) merged)
            chain_products ∅.

(** *** [find_and_parse_csvs], the sorted result and [main] *)

(** ['price' in filename.lower() and filename.endswith('.csv')] *)
Definition is_price_csv (filename : string) : bool :=
  Py.contains "price" (Py.str_lower filename) && Py.endswith filename ".csv".

(** A file met by [os.walk]: its name, the ['id'] and ['name'] of the
    [CHAIN_MAPPING] entry whose key was found in its path ([None] when
    no key was found), and the outcome of opening it and reading its
    rows. *)
Record PriceFile := {
  filename : string;
  chain_info : option (string * string);
  doc : Py.M (list (gmap string string))
}.

(** The dict [results], in insertion order. *)
Fixpoint results_get (chain_id : string)
    (results : list (string * list Product)) : option (list Product) :=
  match results with
  | [] => None
  | (k, v) :: rest =>
      if String.eqb k chain_id then Some v else results_get chain_id rest
  end.

(** [results[chain_id] = v]: in place for a key that is there, at the
    end for a new one. *)
Fixpoint results_set (chain_id : string) (v : list Product)
    (results : list (string * list Product))
  : list (string * list Product) :=
  match results with
  | [] => [(chain_id, v)]
  | (k, x) :: rest =>
      if String.eqb k chain_id then (k, v) :: rest
      else (k, x) :: results_set chain_id v rest
  end.

Section Find.
Variable categorize_product : string -> string.
Variable limit_per_chain : Z.

(** The body of [for filename in files]. *)
Definition add_file (results : list (string * list Product))
    (file : PriceFile) : list (string * list Product) :=
  if is_price_csv (filename file) then
    match chain_info file with
    | None => results
    | Some (chain_id, chain_name) =>
        match parse_price_csv categorize_product (doc file)
                              chain_id chain_name with
        | [] => results
        | products =>
            let results :=
              match results_get chain_id results with
              | Some _ => results
              | None => results_set chain_id [] results
              end in
            let current := default [] (results_get chain_id results) in
            let remaining := limit_per_chain - Z.of_nat (length current) in
            if 0 <? remaining then
              results_set chain_id
                (current ++ take (Z.to_nat remaining) products) results
            else results
        end
    end
  else results.

(** [find_and_parse_csvs] on the files in walk order. *)
Definition find_and_parse_csvs (files : list PriceFile)
  : list (string * list Product) :=
  fold_left add_file files [].
End Find.

(** The keys of a dict filled in the order of [keys]: each key at its
    first occurrence. *)
Fixpoint insertion_order (keys : list string) : list string :=
  match keys with
  | [] => []
  | k :: rest =>
      k :: List.filter (fun k' => negb (String.eqb k' k))
                       (insertion_order rest)
  end.

(** [result.sort(key=lambda x: -len(x['prices']))]: the sort is stable,
    so an element goes behind every element that has at least as many
    prices and was there before it. *)
Fixpoint insert_by_prices (x : Merged) (sorted : list Merged)
  : list Merged :=
  match sorted with
  | [] => [x]
  | y :: rest =>
      if (length (prices y) <? length (prices x))%nat then x :: sorted
      else y :: insert_by_prices x rest
  end.

Definition sort_by_prices (result : list Merged) : list Merged :=
  fold_left (fun sorted x => insert_by_prices x sorted) result [].

(** The list returned by [merge_products_by_barcode]:
    [list(merged.values())], which is in insertion order, sorted. *)
Definition merged_products (chain_products : list (string * list Product))
  : list Merged :=
  sort_by_prices
    (omap (fun b => merge_products_by_barcode chain_products !! b)
          (insertion_order (map barcode (processing_order chain_products)))).

(** The result of [main]: the failure dict, whose product list is
    empty, or the import. *)
Inductive Output :=
| Failure
| Imported (totalProducts : nat) (chainsSummary : list (string * nat))
           (products : list Merged).

Definition success (o : Output) : bool :=
  match o with Failure => false | Imported _ _ _ => true end.

(** [main] after the data directory is settled: [data_ready] tells
    whether the directory was given or the download succeeded,
    [chain_products] is what [find_and_parse_csvs] returned, [chains] is
    the [--chains] option. *)
Definition main (data_ready : bool)
    (chain_products : list (string * list Product))
    (chains : option (list string)) : Output :=
  if data_ready then
    match chain_products with
    | [] => Failure
    | _ =>
        let chain_products :=
          match chains with
          | Some ((_ :: _) as chains) =>
              List.filter (fun kv => existsb (String.eqb (fst kv)) chains)
                          chain_products
          | _ => chain_products
          end in
        let merged_products := merged_products chain_products in
        Imported (length merged_products)
                 (map (fun kv => (fst kv, length (snd kv))) chain_products)
                 merged_products
    end
  else Failure.

End import_kaggle.

(** ** scripts/scrape_prices.py *)

Module scrape_prices.

Record Product := {
  barcode : string;
  name : string;
  price : Py.pyfloat;
  chain : string;
  chain_hebrew : string;
  manufacturer : string;
  unit_quantity : string;
  unit_measure : string
}.

Fixpoint get_xml_text (element : list Xml.element)
    (possible_names : list string) : string :=
  match possible_names with
  | [] => ""
  | name :: rest =>
      match Xml.find_text element name with
      | Some t => Py.strip t
      | None => get_xml_text element rest
      end
  end.

Definition barcode_names : list string := ["ItemCode"; "Barcode"; "barcode"].
Definition name_names : list string :=
  ["ItemName"; "ProductName"; "name"; "ItemNm"].
Definition price_names : list string := ["ItemPrice"; "Price"; "price"].
Definition manufacturer_names : list string :=
  ["ManufacturerName"; "Manufacturer"].
Definition unit_quantity_names : list string := ["UnitQty"; "Quantity"].
Definition unit_measure_names : list string := ["UnitOfMeasure"; "UOM"].

(** [float(s or 0)] *)
Definition float_or_0 (s : string) : Py.M Py.pyfloat :=
  if Py.truthy s then Py.float s else Py.ret (Py.Fin 0).

(** The body of [for item in items] after the limit test: the dict
    literal, whose [float] is not guarded, and the validity test. *)
Definition normalize (chain_name chain_hebrew : string)
    (item : list Xml.element) : Py.M (option Product) :=
  let barcode := get_xml_text item barcode_names in
  let name := get_xml_text item name_names in
  Py.bind (float_or_0 (get_xml_text item price_names)) (fun price =>
  let product :=
    {| barcode := barcode; name := name; price := price;
       chain := chain_name; chain_hebrew := chain_hebrew;
       manufacturer := get_xml_text item manufacturer_names;
       unit_quantity := get_xml_text item unit_quantity_names;
       unit_measure := get_xml_text item unit_measure_names |} in
  if Py.truthy barcode && Py.truthy name && Py.gt0 price
  then Py.ret (Some product) else Py.ret None).

(** [for item in items: if len(products) >= limit: break; ...] *)
Fixpoint item_loop (chain_name chain_hebrew : string) (limit : nat)
    (items : list (list Xml.element)) (products : list Product)
  : list Product * option Py.exn :=
  match items with
  | [] => (products, None)
  | item :: rest =>
      if (limit <=? length products)%nat then (products, None)
      else
        match normalize chain_name chain_hebrew item with
        | inl e => (products, Some e)
        | inr (Some p) =>
            item_loop chain_name chain_hebrew limit rest (products ++ [p])
        | inr None => item_loop chain_name chain_hebrew limit rest products
        end
  end.

(** The loop over the [.xml] and [.gz] files found by [os.walk], each
    given as the outcome of reading and parsing it. The [try] around one
    file catches every exception and goes on with the next file. *)
Fixpoint file_loop (chain_name chain_hebrew : string) (limit : nat)
    (files : list (Py.M (list (list Xml.element))))
    (products : list Product) : list Product :=
  match files with
  | [] => products
  | doc :: rest =>
      if (limit <=? length products)%nat then products
      else
        match doc with
        | inl _ => file_loop chain_name chain_hebrew limit rest products
        | inr items =>
            file_loop chain_name chain_hebrew limit rest
              (fst (item_loop chain_name chain_hebrew limit items products))
        end
  end.

Definition parse_xml_files_directly
    (files : list (Py.M (list (list Xml.element))))
    (chain_name chain_hebrew : string) (limit : nat) : list Product :=
  file_loop chain_name chain_hebrew limit files [].

Definition CHAIN_TO_ENUM : gmap string string :=
  list_to_map
    [("shufersal", "SHUFERSAL"); ("rami_levy", "RAMI_LEVY");
     ("victory", "VICTORY");
     ("yeinot_bitan", "YAYNO_BITAN_AND_CARREFOUR");
     ("tiv_taam", "TIV_TAAM"); ("osher_ad", "OSHER_AD");
     ("hazi_hinam", "HAZI_HINAM"); ("keshet_teamim", "KESHET");
     ("super_pharm", "SUPER_PHARM"); ("politzer", "POLITZER");
     ("freshmarket", "FRESH_MARKET_AND_SUPER_DOSH");
     ("stop_market", "STOP_MARKET"); ("bareket", "BAREKET");
     ("maayan_2000", "MAAYAN_2000"); ("zol_vbegadol", "ZOL_VE_BEGADOL");
     ("superyuda", "SUPER_YUDA")]%string.

(** The dict returned by [scrape_chain]; the text of ['error'] and the
    time stamp are left out, ['products_count'] is absent on failure. *)
Record ChainResult := {
  r_chain : string;
  r_chain_hebrew : string;
  r_success : bool;
  products_count : option nat;
  products : list Product
}.

(** What the outside world does for one call of [scrape_chain]: whether
    the scraper library imports, and the files left by the scraping task
    or the exception it raised. *)
Record Run := {
  library_installed : bool;
  scraped : Py.M (list (Py.M (list (list Xml.element))))
}.

(** The dict returned by [scrape_multiple_chains], without its time
    stamp. *)
Record Results := {
  success : bool;
  chains : gmap string ChainResult;
  total_products : nat
}.

Section Chains.
(** The display names of [CHAIN_NAMES], keyed by chain id. *)
Variable CHAIN_NAMES : gmap string string.

Definition hebrew (chain_name : string) : string :=
  default chain_name (CHAIN_NAMES !! Py.str_lower chain_name).

Definition failure (chain_name : string) : ChainResult :=
  {| r_chain := chain_name; r_chain_hebrew := hebrew chain_name;
     r_success := false; products_count := None; products := [] |}.

Definition scrape_chain (chain_name : string) (limit : nat) (run : Run)
  : ChainResult :=
  if library_installed run then
    match CHAIN_TO_ENUM !! Py.str_lower chain_name with
    | None => failure chain_name
    | Some _ =>
        match scraped run with
        | inl _ => failure chain_name
        | inr files =>
            let products :=
              parse_xml_files_directly files chain_name
                                       (hebrew chain_name) limit in
            {| r_chain := chain_name; r_chain_hebrew := hebrew chain_name;
               r_success := true;
               products_count := Some (length products);
               products := products |}
        end
    end
  else failure chain_name.

(** [scrape_multiple_chains]: [runs] pairs each requested chain with
    what the outside world does for its call of [scrape_chain]. *)
Definition scrape_multiple_chains (runs : list (string * Run))
    (limit : nat) : Results :=
  let '(ok, by_chain) :=
    fold_left
      (fun '(ok, by_chain) '(chain, run) =>
         let chain_result := scrape_chain chain limit run in
         (if r_success chain_result then ok else false,
          <[chain := chain_result]> by_chain))
      runs (true, ∅) in
  {| success := ok;
     chains := by_chain;
     total_products :=
       sum_list (map (fun c => default 0%nat (products_count (snd c)))
                     (map_to_list by_chain)) |}.
End Chains.

(** *** The arguments of [main] *)

Definition DEFAULT_CHAINS : list string :=
  ["shufersal"; "rami_levy"; "victory"].

(** The [--output] flag: the output file and the arguments left. *)
Definition take_output (args : list string) : option string * list string :=
  match Py.index "--output" args with
  | Some idx =>
      match args !! S idx with
      | Some output_file =>
          (Some output_file, take idx args ++ drop (idx + 2) args)
      | None => (None, args)
      end
  | None => (None, args)
  end.

(** What [main] does with the arguments left: list the chains, print
    the help, or scrape the named chains, the default ones when none is
    named. *)
Inductive Command :=
| ListChains
| Help
| Scrape (chains : list string).

Definition command (args : list string) : Command :=
  match args with
  | first :: _ =>
      if String.eqb first "--list" then ListChains
      else if String.eqb first "--help" then Help
      else Scrape args
  | [] => Scrape DEFAULT_CHAINS
  end.

End scrape_prices.

(** ** The wording of the specification, for comparison *)

Module Spec.

(** Section 4.1: the extractor tries the aliases in order and returns
    the first present value whose trimmed text is non-empty. *)
Fixpoint extract (record : list Xml.element) (aliasList : list string)
  : option string :=
  match aliasList with
  | [] => None
  | a :: rest =>
      match Xml.find record a with
      | Some {| Xml.text := Some t |} =>
          if Py.truthy (Py.strip t) then Some (Py.strip t)
          else extract record rest
      | _ => extract record rest
      end
  end.

(** Section 6: the alias table of the name attribute. *)
Definition name_aliases : list string :=
  ["ItemName"; "ItemNm"; "ProductName"; "name"; "item_name";
   "product_name"].

End Spec.

(** * Properties *)

(** ** Strings and slices *)

Section Slices.
Local Open Scope string_scope.
Local Open Scope nat_scope.

Lemma substring_empty n m : substring n m "" = "".
Proof. by destruct n, m. Qed.

Lemma substring_add s : forall n m k,
  substring n (m + k) s = (substring n m s ++ substring (n + m) k s)%string.
Proof.
  induction s as [|c s IH]; intros n m k.
  - by rewrite !substring_empty.
  - destruct n as [|n]; [destruct m as [|m]|]; simpl.
    + done.
    + change (String c (substring 0 (m + k) s)
              = String c (substring 0 m s ++ substring (0 + m) k s)%string).
      f_equal. apply (IH 0).
    + apply IH.
Qed.

Lemma substring_whole s : substring 0 (String.length s) s = s.
Proof. induction s as [|c s IH]; simpl; [done | by rewrite IH]. Qed.

Lemma substring_length s : forall n m,
  n + m <= String.length s -> String.length (substring n m s) = m.
Proof.
  induction s as [|c s IH]; intros n m H; simpl in H.
  - rewrite substring_empty. simpl. lia.
  - destruct n as [|n]; [destruct m as [|m]|]; simpl.
    + done.
    + f_equal. apply (IH 0). lia.
    + apply IH. lia.
Qed.

Lemma slice_inside s lo hi :
  hi <= String.length s -> Py.slice s lo (Some hi) = substring lo (hi - lo) s.
Proof. intros H. unfold Py.slice. by rewrite Nat.min_l. Qed.
End Slices.

(** C8. The image URL is a function of the barcode alone: a barcode of
    at least 12 characters is cut into its first three characters, the
    next three, the next three and the remainder, which are the four
    path segments of the URL; [7290000066318] gives 729/000/006/6318;
    a shorter barcode gives no image. *)
Theorem image_url_segments (barcode : string) :
  Catalog.image_url "7290000066318"
  = Some "https://images.openfoodfacts.org/images/products/729/000/006/6318/front_he.400.jpg"%string
  /\ ((String.length barcode < 12)%nat -> Catalog.image_url barcode = None)
  /\ ((12 <= String.length barcode)%nat ->
      exists a b c d : string,
        Catalog.image_url barcode = Some (Catalog.image_path a b c d)
        /\ barcode = (a ++ b ++ c ++ d)%string
        /\ String.length a = 3%nat /\ String.length b = 3%nat
        /\ String.length c = 3%nat
        /\ String.length d = (String.length barcode - 9)%nat).
Proof.
  split; [reflexivity|]. split.
  - intros H. unfold Catalog.image_url.
    destruct (Nat.leb_spec 12 (String.length barcode)); [lia | done].
  - intros H. unfold Catalog.image_url.
    destruct (Nat.leb_spec 12 (String.length barcode)); [|lia].
    exists (substring 0 3 barcode), (substring 3 3 barcode),
           (substring 6 3 barcode),
           (substring 9 (String.length barcode - 9) barcode).
    split; [|split].
    + rewrite !slice_inside by lia. unfold Py.slice. done.
    + rewrite <- (substring_add barcode 6 3), <- (substring_add barcode 3 3),
        <- (substring_add barcode 0 3).
      replace (3 + (3 + (3 + (String.length barcode - 9))))%nat
        with (String.length barcode) by lia.
      by rewrite substring_whole.
    + rewrite !substring_length by lia. done.
Qed.

Lemma image_url_segments_witness :
  Catalog.image_url "72900001" = None
  /\ exists a b c d : string,
       Catalog.image_url "7290000066318" = Some (Catalog.image_path a b c d)
       /\ "7290000066318"%string = (a ++ b ++ c ++ d)%string
       /\ String.length a = 3%nat /\ String.length b = 3%nat
       /\ String.length c = 3%nat
       /\ String.length d = (String.length "7290000066318" - 9)%nat.
Proof.
  split.
  - apply (image_url_segments "72900001"). vm_compute. lia.
  - apply (image_url_segments "7290000066318"). vm_compute. lia.
Defined.

(** ** Field extraction *)

Section Extraction.
Local Open Scope string_scope.
Implicit Types (element item : list Xml.element) (names : list string).

Lemma find_text_Some element name t :
  Xml.find_text element name = Some t <->
  exists el, Xml.find element name = Some el
             /\ Xml.text el = Some t /\ t <> "".
Proof.
  unfold Xml.find_text. split.
  - destruct (Xml.find element name) as [el|]; [|done].
    destruct (Xml.text el) as [t'|] eqn:Ht; [|done].
    destruct t'; simpl; [done|]. intros [= <-]. by exists el.
  - intros (el & -> & -> & Hne). by destruct t.
Qed.

Lemma get_xml_text_absent element names :
  Forall (fun n => Xml.find_text element n = None) names ->
  scrape_prices.get_xml_text element names = "".
Proof. induction 1 as [|n ns Hn _ IH]; simpl; [done | by rewrite Hn]. Qed.

Lemma tag_loop_absent element names :
  Forall (fun n => Xml.find_text element n = None) names ->
  Catalog.tag_loop element names = None.
Proof. induction 1 as [|n ns Hn _ IH]; simpl; [done | by rewrite Hn]. Qed.

Lemma get_xml_text_first element pre name post t :
  Forall (fun n => Xml.find_text element n = None) pre ->
  Xml.find_text element name = Some t ->
  scrape_prices.get_xml_text element (pre ++ name :: post) = Py.strip t.
Proof.
  intros Hpre Ht. induction Hpre as [|n ns Hn _ IH]; simpl.
  - by rewrite Ht.
  - by rewrite Hn.
Qed.

Lemma tag_loop_first element pre name post t :
  Forall (fun n => Xml.find_text element n = None) pre ->
  Xml.find_text element name = Some t ->
  Catalog.tag_loop element (pre ++ name :: post) = Some (Py.strip t).
Proof.
  intros Hpre Ht. induction Hpre as [|n ns Hn _ IH]; simpl.
  - by rewrite Ht.
  - by rewrite Hn.
Qed.
End Extraction.


(** C6, as stated, fails: a value that is present but blank is not
    passed over. With [ItemCode] holding two spaces and [Barcode]
    holding [B], the wording of the specification gives [B] while both
    extractors of the code stop at [ItemCode] and return the empty
    text. *)
Lemma blank_value_not_skipped :
  let record := [Xml.child "ItemCode" "  "; Xml.child "Barcode" "B"] in
  let aliases := ["ItemCode"; "Barcode"; "barcode"]%string in
  Spec.extract record aliases = Some "B"%string
  /\ scrape_prices.get_xml_text record aliases = ""%string
  /\ Catalog.tag_loop record aliases = Some ""%string.
Proof. repeat split. Qed.

(** C6, amended: the extractor returns the trimmed text of the first
    alias, in list order, whose element is present with non-empty raw
    text (which may trim to the empty text: the search stops there); when
    no alias has such an element it returns absence, the empty string in
    [get_xml_text] and [None] in the tag loops, and no error. *)
Theorem extractor_first_raw_text (element : list Xml.element)
    (names : list string) :
  (Forall (fun n => Xml.find_text element n = None) names ->
   scrape_prices.get_xml_text element names = ""%string
   /\ Catalog.tag_loop element names = None)
  /\ (forall pre name post t,
        names = pre ++ name :: post ->
        Forall (fun n => Xml.find_text element n = None) pre ->
        Xml.find_text element name = Some t ->
        scrape_prices.get_xml_text element names = Py.strip t
        /\ Catalog.tag_loop element names = Some (Py.strip t)).
Proof.
  split.
  - intros H.
    split; [by apply get_xml_text_absent | by apply tag_loop_absent].
  - intros pre name post t -> Hpre Ht.
    split; [by apply get_xml_text_first | by apply tag_loop_first].
Qed.

Lemma extractor_first_raw_text_witness :
  (scrape_prices.get_xml_text [Xml.child "Other" "x"]
     ["ItemCode"; "Barcode"]%string = ""%string
   /\ Catalog.tag_loop [Xml.child "Other" "x"]
        ["ItemCode"; "Barcode"]%string = None)
  /\ (scrape_prices.get_xml_text
        [Xml.child "Barcode" " 729 "; Xml.child "barcode" "1"]
        ["ItemCode"; "Barcode"; "barcode"]%string = "729"%string
      /\ Catalog.tag_loop
           [Xml.child "Barcode" " 729 "; Xml.child "barcode" "1"]
           ["ItemCode"; "Barcode"; "barcode"]%string = Some "729"%string).
Proof.
  split.
  - apply (extractor_first_raw_text [Xml.child "Other" "x"]
             ["ItemCode"; "Barcode"]%string).
    repeat constructor.
  - apply (proj2 (extractor_first_raw_text
                    [Xml.child "Barcode" " 729 "; Xml.child "barcode" "1"]
                    ["ItemCode"; "Barcode"; "barcode"]%string)
             ["ItemCode"%string] "Barcode"%string ["barcode"%string]
             " 729 "%string).
    + reflexivity.
    + repeat constructor.
    + reflexivity.
Defined.

(** C5, as stated, fails for the name attribute: the XML parsers do not
    follow the six-alias order of the table. A record whose name is
    under [item_name] only has a name by the table and none in
    [parse_xml_file]; with [ItemNm] and [ProductName] both present the
    table gives the [ItemNm] value, [parse_xml_files_directly] the
    [ProductName] value. *)
Lemma name_alias_order_differs :
  (Catalog.tag_loop [Xml.child "item_name" "X"] Spec.name_aliases
   = Some "X"%string
   /\ Catalog.tag_loop [Xml.child "item_name" "X"]
        fetch_all_chains.name_tags = None)
  /\ (scrape_prices.get_xml_text
        [Xml.child "ItemNm" "X"; Xml.child "ProductName" "Y"]
        Spec.name_aliases = "X"%string
      /\ scrape_prices.get_xml_text
           [Xml.child "ItemNm" "X"; Xml.child "ProductName" "Y"]
           scrape_prices.name_names = "Y"%string).
Proof. repeat split. Qed.

(** C5, amended: in both XML parsers a record with text under
    [ItemCode] gets its barcode from [ItemCode], whatever [Barcode]
    holds. In [parse_xml_file] the name comes from the first of
    [ItemName], [ItemNm], [ProductName], [name] (in this order) that has
    text, and is absent when none has. In [parse_xml_files_directly] the
    name comes from the first of [ItemName], [ProductName], [name],
    [ItemNm] (in this order) that has text, and is the empty text when
    none has. Neither parser consults [item_name] or [product_name]:
    without text under the four tags the name is absent or empty
    whatever else the record holds. *)
Theorem alias_priority_xml (item : list Xml.element) :
  (forall a, Xml.find_text item "ItemCode" = Some a ->
     Catalog.tag_loop item fetch_all_chains.barcode_tags = Some (Py.strip a)
     /\ scrape_prices.get_xml_text item scrape_prices.barcode_names
        = Py.strip a)
  /\ (forall t, Xml.find_text item "ItemName" = Some t ->
        Catalog.tag_loop item fetch_all_chains.name_tags = Some (Py.strip t))
  /\ (forall t, Xml.find_text item "ItemName" = None ->
        Xml.find_text item "ItemNm" = Some t ->
        Catalog.tag_loop item fetch_all_chains.name_tags = Some (Py.strip t))
  /\ (forall t, Xml.find_text item "ItemName" = None ->
        Xml.find_text item "ItemNm" = None ->
        Xml.find_text item "ProductName" = Some t ->
        Catalog.tag_loop item fetch_all_chains.name_tags = Some (Py.strip t))
  /\ (forall t, Xml.find_text item "ItemName" = None ->
        Xml.find_text item "ItemNm" = None ->
        Xml.find_text item "ProductName" = None ->
        Xml.find_text item "name" = Some t ->
        Catalog.tag_loop item fetch_all_chains.name_tags = Some (Py.strip t))
  /\ (Xml.find_text item "ItemName" = None ->
      Xml.find_text item "ItemNm" = None ->
      Xml.find_text item "ProductName" = None ->
      Xml.find_text item "name" = None ->
      Catalog.tag_loop item fetch_all_chains.name_tags = None)
  /\ (forall t, Xml.find_text item "ItemName" = Some t ->
        scrape_prices.get_xml_text item scrape_prices.name_names
        = Py.strip t)
  /\ (forall t, Xml.find_text item "ItemName" = None ->
        Xml.find_text item "ProductName" = Some t ->
        scrape_prices.get_xml_text item scrape_prices.name_names
        = Py.strip t)
  /\ (forall t, Xml.find_text item "ItemName" = None ->
        Xml.find_text item "ProductName" = None ->
        Xml.find_text item "name" = Some t ->
        scrape_prices.get_xml_text item scrape_prices.name_names
        = Py.strip t)
  /\ (forall t, Xml.find_text item "ItemName" = None ->
        Xml.find_text item "ProductName" = None ->
        Xml.find_text item "name" = None ->
        Xml.find_text item "ItemNm" = Some t ->
        scrape_prices.get_xml_text item scrape_prices.name_names
        = Py.strip t)
  /\ (Xml.find_text item "ItemName" = None ->
      Xml.find_text item "ProductName" = None ->
      Xml.find_text item "name" = None ->
      Xml.find_text item "ItemNm" = None ->
      scrape_prices.get_xml_text item scrape_prices.name_names
      = ""%string).
Proof.
  unfold fetch_all_chains.barcode_tags, scrape_prices.barcode_names,
    fetch_all_chains.name_tags, scrape_prices.name_names. simpl.
  repeat split; intros; repeat match goal with
    | H : Xml.find_text _ _ = _ |- _ => rewrite H; clear H end; done.
Qed.

Lemma alias_priority_xml_witness :
  (Catalog.tag_loop [Xml.child "Barcode" "B"; Xml.child "ItemCode" "A"]
     fetch_all_chains.barcode_tags = Some "A"%string
   /\ scrape_prices.get_xml_text
        [Xml.child "Barcode" "B"; Xml.child "ItemCode" "A"]
        scrape_prices.barcode_names = "A"%string)
  /\ Catalog.tag_loop [Xml.child "ItemNm" "N"; Xml.child "ItemName" "I"]
       fetch_all_chains.name_tags = Some "I"%string
  /\ Catalog.tag_loop [Xml.child "ProductName" "P"; Xml.child "ItemNm" "N"]
       fetch_all_chains.name_tags = Some "N"%string
  /\ Catalog.tag_loop [Xml.child "name" "n"; Xml.child "ProductName" "P"]
       fetch_all_chains.name_tags = Some "P"%string
  /\ Catalog.tag_loop [Xml.child "item_name" "i"; Xml.child "name" "n"]
       fetch_all_chains.name_tags = Some "n"%string
  /\ Catalog.tag_loop [Xml.child "item_name" "i"]
       fetch_all_chains.name_tags = None
  /\ scrape_prices.get_xml_text
       [Xml.child "ProductName" "P"; Xml.child "ItemName" "I"]
       scrape_prices.name_names = "I"%string
  /\ scrape_prices.get_xml_text
       [Xml.child "ItemNm" "N"; Xml.child "ProductName" "P"]
       scrape_prices.name_names = "P"%string
  /\ scrape_prices.get_xml_text
       [Xml.child "ItemNm" "N"; Xml.child "name" "n"]
       scrape_prices.name_names = "n"%string
  /\ scrape_prices.get_xml_text
       [Xml.child "product_name" "p"; Xml.child "ItemNm" "N"]
       scrape_prices.name_names = "N"%string
  /\ scrape_prices.get_xml_text
       [Xml.child "item_name" "i"; Xml.child "product_name" "p"]
       scrape_prices.name_names = ""%string.
Proof.
  pose proof alias_priority_xml as H.
  repeat match goal with |- _ /\ _ => split end.
  - apply (proj1 (H [Xml.child "Barcode" "B"; Xml.child "ItemCode" "A"])
             "A"%string).
    reflexivity.
  - apply (proj1 (H [Xml.child "Barcode" "B"; Xml.child "ItemCode" "A"])
             "A"%string).
    reflexivity.
  - destruct (H [Xml.child "ItemNm" "N"; Xml.child "ItemName" "I"])
      as (_ & C & _).
    apply (C "I"%string). reflexivity.
  - destruct (H [Xml.child "ProductName" "P"; Xml.child "ItemNm" "N"])
      as (_ & _ & C & _).
    apply (C "N"%string); reflexivity.
  - destruct (H [Xml.child "name" "n"; Xml.child "ProductName" "P"])
      as (_ & _ & _ & C & _).
    apply (C "P"%string); reflexivity.
  - destruct (H [Xml.child "item_name" "i"; Xml.child "name" "n"])
      as (_ & _ & _ & _ & C & _).
    apply (C "n"%string); reflexivity.
  - destruct (H [Xml.child "item_name" "i"]) as (_ & _ & _ & _ & _ & C & _).
    apply C; reflexivity.
  - destruct (H [Xml.child "ProductName" "P"; Xml.child "ItemName" "I"])
      as (_ & _ & _ & _ & _ & _ & C & _).
    apply (C "I"%string). reflexivity.
  - destruct (H [Xml.child "ItemNm" "N"; Xml.child "ProductName" "P"])
      as (_ & _ & _ & _ & _ & _ & _ & C & _).
    apply (C "P"%string); reflexivity.
  - destruct (H [Xml.child "ItemNm" "N"; Xml.child "name" "n"])
      as (_ & _ & _ & _ & _ & _ & _ & _ & C & _).
    apply (C "n"%string); reflexivity.
  - destruct (H [Xml.child "product_name" "p"; Xml.child "ItemNm" "N"])
      as (_ & _ & _ & _ & _ & _ & _ & _ & _ & C & _).
    apply (C "N"%string); reflexivity.
  - destruct (H [Xml.child "item_name" "i"; Xml.child "product_name" "p"])
      as (_ & _ & _ & _ & _ & _ & _ & _ & _ & _ & C).
    apply C; reflexivity.
Defined.

(** ** Record normalisation *)

Section Normalisation.
Local Open Scope string_scope.
Implicit Types (item : list Xml.element) (x : Py.pyfloat).

Lemma truthy_nonempty (s : string) : Py.truthy s = true <-> s <> "".
Proof. by destruct s. Qed.

Lemma gt0_ftruthy x : Py.gt0 x = true -> Py.ftruthy x = true.
Proof.
  destruct x as [q| |]; simpl; try done.
  intros H. apply negb_true_iff in H. apply negb_true_iff.
  destruct (Qeq_bool q 0) eqn:E; [|done].
  apply Qeq_bool_iff in E.
  assert (Qle_bool q 0 = true) as E'; [|congruence].
  apply Qle_bool_iff. rewrite E. apply Qle_refl.
Qed.

Lemma gt0_not_nan x : Py.gt0 x = true -> Py.is_nan x = false.
Proof. by destruct x. Qed.

Lemma b64_round_not_nan (q : Q) : Py.is_nan (Py.b64_round q) = false.
Proof.
  unfold Py.b64_round, Py.b64_round_pos.
  destruct (Qnum q); simpl; [done| |];
    match goal with |- context [if ?c then _ else _] => by destruct c end.
Qed.

Lemma round2_not_nan x : Py.is_nan x = false -> Py.is_nan (Py.round2 x) = false.
Proof. destruct x; simpl; [intros _; apply b64_round_not_nan|done|done]. Qed.

(** [float] raises nothing but [ValueError], so the guarded price loop
    always returns. *)
Lemma price_loop_returns item tags :
  exists r, Catalog.price_loop item tags = inr r.
Proof.
  induction tags as [|tag tags IH]; simpl; [by eexists|].
  destruct (Xml.find_text item tag) as [t|]; [|done].
  unfold Py.float. destruct (Py.float_of_string _); by eexists.
Qed.

Lemma valid_iff (barcode name : option string) (price : option Py.pyfloat) :
  Catalog.valid barcode name price = true <->
  exists b n v, barcode = Some b /\ name = Some n /\ price = Some v
                /\ b <> "" /\ n <> "" /\ Py.gt0 v = true.
Proof.
  unfold Catalog.valid. split.
  - destruct barcode as [b|], name as [n|], price as [v|]; try done.
    rewrite !andb_true_iff, !truthy_nonempty. intros [[[? ?] _] ?].
    by exists b, n, v.
  - intros (b & n & v & -> & -> & -> & Hb & Hn & Hv).
    rewrite !andb_true_iff, !truthy_nonempty. auto using gt0_ftruthy.
Qed.

Variable categorize : string -> string.

(** Both outcomes of the validity test, for a goal whose barcode,
    name and price are variables. *)
Ltac by_validity :=
  match goal with
  | |- context [Catalog.valid ?b ?n ?p] =>
      let Hv := fresh "Hv" in
      destruct (Catalog.valid b n p) eqn:Hv;
      [ right;
        pose proof Hv as Hv';
        apply valid_iff in Hv' as (b' & n' & v' & -> & -> & -> & ? & ? & ?);
        exists b', n', v'; done
      | left; split; [done|];
        by destruct b, n, p ]
  end.

(** [parse_xml_file] accepts a record exactly when its barcode and
    name are non-empty and its price text parses to a value above
    zero, and never raises. *)
Lemma fetch_normalize_cases (chain_id chain_name : string) item :
  let barcode := Catalog.tag_loop item fetch_all_chains.barcode_tags in
  let name := Catalog.tag_loop item fetch_all_chains.name_tags in
  exists price,
    Catalog.price_loop item fetch_all_chains.price_tags = inr price
    /\ ((Catalog.valid barcode name price = false
         /\ fetch_all_chains.normalize categorize chain_id chain_name item
            = inr None)
        \/ exists b n v,
             barcode = Some b /\ name = Some n /\ price = Some v
             /\ b <> "" /\ n <> "" /\ Py.gt0 v = true
             /\ fetch_all_chains.normalize categorize chain_id chain_name item
                = inr (Some
                    {| fetch_all_chains.barcode := b;
                       fetch_all_chains.name := n;
                       fetch_all_chains.price := Py.round2 v;
                       fetch_all_chains.chain := chain_id;
                       fetch_all_chains.chainName := chain_name;
                       fetch_all_chains.manufacturer :=
                         default "" (Catalog.tag_loop item
                                       fetch_all_chains.manufacturer_tags);
                       fetch_all_chains.category := categorize n |})).
Proof.
  intros barcode name.
  destruct (price_loop_returns item fetch_all_chains.price_tags) as [price Hp].
  exists price. split; [done|].
  unfold fetch_all_chains.normalize. rewrite Hp. unfold Py.bind.
  fold barcode name. clearbody barcode name. by_validity.
Qed.

Lemma simple_normalize_cases (chain_id chain_name : string) item :
  let barcode := Catalog.tag_loop item scrape_simple.barcode_tags in
  let name := Catalog.tag_loop item scrape_simple.name_tags in
  exists price,
    Catalog.price_loop item scrape_simple.price_tags = inr price
    /\ ((Catalog.valid barcode name price = false
         /\ scrape_simple.normalize categorize chain_id chain_name item
            = inr None)
        \/ exists b n v,
             barcode = Some b /\ name = Some n /\ price = Some v
             /\ b <> "" /\ n <> "" /\ Py.gt0 v = true
             /\ scrape_simple.normalize categorize chain_id chain_name item
                = inr (Some
                    {| scrape_simple.barcode := b;
                       scrape_simple.name := n;
                       scrape_simple.price := Py.round2 v;
                       scrape_simple.chain := chain_id;
                       scrape_simple.chainName := chain_name;
                       scrape_simple.category := categorize n |})).
Proof.
  intros barcode name.
  destruct (price_loop_returns item scrape_simple.price_tags) as [price Hp].
  exists price. split; [done|].
  unfold scrape_simple.normalize. rewrite Hp. unfold Py.bind.
  fold barcode name. clearbody barcode name. by_validity.
Qed.

Lemma fetch_normalize_returns chain_id chain_name item :
  exists r, fetch_all_chains.normalize categorize chain_id chain_name item
            = inr r.
Proof.
  destruct (fetch_normalize_cases chain_id chain_name item)
    as (price & _ & [[_ ->]|(b & n & v & _ & _ & _ & _ & _ & _ & ->)]);
    by eexists.
Qed.

(** A rejected record adds nothing to the products of its file. *)
Lemma collect_skips_rejected {I P} (normalize : I -> Py.M (option P))
    (before after : list I) (it : I) (products : list P) :
  normalize it = inr None ->
  Catalog.collect normalize (before ++ it :: after) products
  = Catalog.collect normalize (before ++ after) products.
Proof.
  intros Hit. revert products.
  induction before as [|x before IH]; intros products; simpl.
  - by rewrite Hit.
  - destruct (normalize x) as [e|[p|]]; [done|apply IH|apply IH].
Qed.

(** The comma is read as the decimal point, and a text that is no
    number leaves the price absent. *)
Lemma price_loop_examples :
  Catalog.price_loop [Xml.child "ItemPrice" "12,50"]
    fetch_all_chains.price_tags = inr (Some (Py.Fin (25 # 2)))
  /\ Catalog.price_loop
       [Xml.child "ItemPrice" "abc"; Xml.child "Price" "3"]
       fetch_all_chains.price_tags = inr None
  /\ fetch_all_chains.normalize categorize "victory" "V"
       [Xml.child "ItemCode" "111"; Xml.child "ItemName" "Milk";
        Xml.child "ItemPrice" "abc"]
     = inr None
  /\ import_kaggle.parse_price "12,50" = inr (Py.Fin (25 # 2))
  /\ import_kaggle.parse_price "abc" = inr (Py.Fin 0).
Proof. repeat split. Qed.
End Normalisation.

(** C2. Claimed: the price text is parsed with its comma read as the
    decimal point, so that [12,50] is 12.5; a text that is no number
    gives an absent price and a rejected record; normalisation never
    raises. [parse_xml_file], [parse_xml] and [parse_price_csv] do so
    ([price_loop_examples], [fetch_normalize_returns]).
    [parse_xml_files_directly] of scrape_prices.py does not: its [float]
    is applied to the raw text, without the comma replaced and outside
    any [try] of its own, so the record with price text [12,50] (or
    [abc]) raises [ValueError], and the exception leaves the loop over
    the items of the file: the valid record after it is lost. *)
Theorem scrape_prices_price_text_raises (categorize : string -> string) :
  let comma := [Xml.child "ItemCode" "111"; Xml.child "ItemName" "Milk";
                Xml.child "ItemPrice" "12,50"] in
  let letters := [Xml.child "ItemCode" "111"; Xml.child "ItemName" "Milk";
                  Xml.child "ItemPrice" "abc"] in
  let good := [Xml.child "ItemCode" "222"; Xml.child "ItemName" "Bread";
               Xml.child "ItemPrice" "7.5"] in
  scrape_prices.normalize "victory" "V" comma = inl Py.ValueError
  /\ scrape_prices.normalize "victory" "V" letters = inl Py.ValueError
  /\ scrape_prices.parse_xml_files_directly [inr [comma; good]]
       "victory" "V" 5000 = []
  /\ length (scrape_prices.parse_xml_files_directly [inr [good]]
               "victory" "V" 5000) = 1%nat
  /\ map fetch_all_chains.price
       (fetch_all_chains.parse_xml_file categorize
          (inr [comma; letters; good]) "victory" "V")
     = [Py.Fin (25 # 2); Py.Fin (15 # 2)].
Proof. vm_compute. repeat split. Qed.

(** C4. Claimed: a record is accepted exactly when its barcode and its
    name are non-empty and its price parses to a value above zero, and a
    rejected record adds nothing. [parse_xml_file] and [parse_xml] do so
    ([fetch_normalize_cases], [simple_normalize_cases],
    [collect_skips_rejected]). [parse_price_csv] of import_kaggle.py
    rejects when [price <= 0] instead of accepting when [price > 0]: the
    price text [nan] parses to a float that is neither, and the row is
    accepted with a price that is not above zero. *)
Theorem kaggle_nan_price_accepted
    (categorize_product categorize : string -> string) :
  let row : gmap string string :=
    list_to_map [("ItemCode", "111"); ("ItemName", "Milk");
                 ("ItemPrice", "nan")]%string in
  let item := [Xml.child "ItemCode" "111"; Xml.child "ItemName" "Milk";
               Xml.child "ItemPrice" "nan"] in
  import_kaggle.normalize categorize_product "shufersal" "S" row
  = inr (Some {| import_kaggle.barcode := "111";
                 import_kaggle.name := "Milk";
                 import_kaggle.price := Py.NaN;
                 import_kaggle.chain := "shufersal";
                 import_kaggle.chainName := "S";
                 import_kaggle.manufacturer := "";
                 import_kaggle.unitQty := "";
                 import_kaggle.unitMeasure := "";
                 import_kaggle.category := categorize_product "Milk" |})
  /\ Py.gt0 Py.NaN = false
  /\ fetch_all_chains.normalize categorize "shufersal" "S" item = inr None
  /\ scrape_simple.normalize categorize "shufersal" "S" item = inr None.
Proof. vm_compute. repeat split. Qed.

(** ** Further facts about the normalisers *)

Section Accepted.
Local Open Scope string_scope.
Variable categorize : string -> string.

(** An accepted price is a number, so the prices that reach the
    cheapest projection are never NaN. *)
Lemma fetch_accepted_price_not_nan chain_id chain_name item p :
  fetch_all_chains.normalize categorize chain_id chain_name item
  = inr (Some p) ->
  Py.is_nan (fetch_all_chains.price p) = false.
Proof.
  destruct (fetch_normalize_cases categorize chain_id chain_name item)
    as (price & _ & [[_ ->]|(b & n & v & _ & _ & _ & _ & _ & Hv & ->)]);
    [done|].
  intros [= <-]. simpl. by apply round2_not_nan, gt0_not_nan.
Qed.

Lemma simple_accepted_price_not_nan chain_id chain_name item p :
  scrape_simple.normalize categorize chain_id chain_name item
  = inr (Some p) ->
  Py.is_nan (scrape_simple.price p) = false.
Proof.
  destruct (simple_normalize_cases categorize chain_id chain_name item)
    as (price & _ & [[_ ->]|(b & n & v & _ & _ & _ & _ & _ & Hv & ->)]);
    [done|].
  intros [= <-]. simpl. by apply round2_not_nan, gt0_not_nan.
Qed.

(** On numbers, [not (x <= 0)] and [x > 0] agree; NaN is neither. *)
Lemma le0_gt0 (x : Py.pyfloat) :
  Py.is_nan x = false -> Py.le0 x = negb (Py.gt0 x).
Proof.
  destruct x as [q|[]|]; try done. intros _.
  unfold Py.le0, Py.gt0, Py.fle, Py.flt. by destruct (Qle_bool q 0).
Qed.

Lemma parse_price_returns (price_str : string) :
  exists x, import_kaggle.parse_price price_str = inr x.
Proof.
  unfold import_kaggle.parse_price, Py.float.
  destruct (Py.float_of_string _); by eexists.
Qed.

(** [parse_price_csv] never raises, and accepts a row exactly when
    its barcode and name are non-empty and its price is not at most
    zero, which for a price that is a number means above zero. *)
Lemma kaggle_normalize_cases chain_id chain_name (row : gmap string string) :
  let barcode := Py.strip (import_kaggle.or_chain row
                             import_kaggle.barcode_keys "") in
  let name := Py.strip (import_kaggle.or_chain row
                          import_kaggle.name_keys "") in
  exists x,
    import_kaggle.parse_price
      (Py.strip (import_kaggle.or_chain row import_kaggle.price_keys "0"))
    = inr x
    /\ ((barcode = "" \/ name = "" \/ Py.le0 x = true)
        /\ import_kaggle.normalize categorize chain_id chain_name row
           = inr None
        \/ (barcode <> "" /\ name <> "" /\ Py.le0 x = false)
           /\ exists p,
                import_kaggle.normalize categorize chain_id chain_name row
                = inr (Some p)
                /\ import_kaggle.barcode p = barcode
                /\ import_kaggle.name p = name
                /\ import_kaggle.price p = Py.round2 x).
Proof.
  intros barcode name.
  destruct (parse_price_returns
              (Py.strip (import_kaggle.or_chain row
                           import_kaggle.price_keys "0"))) as [x Hx].
  exists x. split; [done|].
  unfold import_kaggle.normalize. rewrite Hx. unfold Py.bind.
  fold barcode name. clearbody barcode name.
  destruct barcode as [|c b]; [left; split; [by left | done]|].
  destruct name as [|c' n]; [left; split; [by right; left | done]|].
  simpl. destruct (Py.le0 x).
  - left. split; [by right; right | done].
  - right. split; [done|]. by eexists.
Qed.
End Accepted.


(** ** The barcode-keyed merge *)

(** A merge is a left fold of a step that touches the entry of the
    record's key only. *)
Section Fold.
Context {P M : Type} (key : P -> string)
        (step : gmap string M -> P -> gmap string M).
Hypothesis step_other :
  forall m p b, b <> key p -> step m p !! b = m !! b.

Lemma fold_other (ps : list P) (b : string) : forall m,
  Forall (fun q => key q <> b) ps -> fold_left step ps m !! b = m !! b.
Proof.
  induction ps as [|p ps IH]; intros m Hps; simpl; [done|].
  inversion_clear Hps as [|? ? Hp Hps'].
  rewrite IH by done. by apply step_other.
Qed.

(** A property of the entries that every step establishes for the
    entry it writes, given a property [Q] of the record it reads,
    holds of every entry of the result. *)
Lemma fold_entries_of (Q : P -> Prop) (Inv : M -> Prop) :
  (forall m p mp, Q p -> map_Forall (fun _ => Inv) m ->
                  step m p !! key p = Some mp -> Inv mp) ->
  forall ps m, Forall Q ps -> map_Forall (fun _ => Inv) m ->
               map_Forall (fun _ => Inv) (fold_left step ps m).
Proof.
  intros Hstep ps.
  induction ps as [|p ps IH]; intros m Hps Hm; simpl; [done|].
  inversion_clear Hps as [|? ? Hp Hps'].
  apply IH; [done|]. intros b mp Hb.
  destruct (decide (b = key p)) as [->|Hne].
  - by eapply Hstep.
  - rewrite step_other in Hb by done. by eapply Hm.
Qed.

Lemma fold_entries (Inv : M -> Prop) :
  (forall m p mp, map_Forall (fun _ => Inv) m ->
                  step m p !! key p = Some mp -> Inv mp) ->
  forall ps m, map_Forall (fun _ => Inv) m ->
               map_Forall (fun _ => Inv) (fold_left step ps m).
Proof.
  intros Hstep ps m. apply (fold_entries_of (fun _ => True)).
  - intros ? ? ? _. apply Hstep.
  - by apply Forall_true.
Qed.

(** A relation between the old and the new entry that every step
    respects links an entry to what later steps make of it. *)
Lemma fold_keeps (R : M -> M -> Prop) :
  (forall mp, R mp mp) ->
  (forall a b c, R a b -> R b c -> R a c) ->
  (forall m p mp, m !! key p = Some mp ->
                  exists mp', step m p !! key p = Some mp' /\ R mp mp') ->
  forall ps m b mp, m !! b = Some mp ->
    exists mp', fold_left step ps m !! b = Some mp' /\ R mp mp'.
Proof.
  intros Hrefl Htrans Hstep ps.
  induction ps as [|p ps IH]; intros m b mp Hb; simpl; [by exists mp|].
  destruct (decide (b = key p)) as [->|Hne].
  - destruct (Hstep m p mp Hb) as (mp1 & H1 & HR1).
    destruct (IH _ _ _ H1) as (mp2 & H2 & HR2). exists mp2. eauto.
  - apply IH. by rewrite step_other.
Qed.
End Fold.

Lemma any_chain_elem (c : string) (prices : list Catalog.PriceEntry) :
  Catalog.any_chain c prices = true <-> c ∈ map Catalog.chain prices.
Proof.
  unfold Catalog.any_chain. rewrite existsb_exists, list_elem_of_fmap.
  split.
  - intros (pr & Hin & Heq). apply String.eqb_eq in Heq.
    exists pr. split; [done | by apply list_elem_of_In].
  - intros (pr & -> & Hin). exists pr.
    split; [by apply list_elem_of_In | apply String.eqb_refl].
Qed.

Lemma any_chain_nonempty (c : string) (prices : list Catalog.PriceEntry) :
  Catalog.any_chain c prices = true -> prices <> [].
Proof. by destruct prices. Qed.

Lemma distinct_chains_count (prices : list Catalog.PriceEntry) :
  NoDup (map Catalog.chain prices) ->
  length prices
  = size (list_to_set (map Catalog.chain prices) : gset string).
Proof. intros H. by rewrite size_list_to_set, length_map. Qed.

(** *** fetch_all_chains.py *)

Section FetchMerge.
Import fetch_all_chains.
Implicit Types (merged : gmap string Merged) (p : Product).

Lemma fetch_step_other merged p b :
  b <> barcode p -> merge_step merged p !! b = merged !! b.
Proof.
  intros Hne. unfold merge_step.
  destruct (merged !! barcode p) as [mp|] eqn:E; simpl.
  - rewrite E. destruct (Catalog.any_chain _ _); [done|].
    by rewrite lookup_insert_ne.
  - rewrite lookup_insert_eq. simpl.
    by rewrite !lookup_insert_ne.
Qed.

(** What a step leaves under the barcode of its record. *)
Lemma fetch_step_same merged p :
  merge_step merged p !! barcode p =
  Some match merged !! barcode p with
       | Some mp =>
           if Catalog.any_chain (chain p) (prices mp) then mp
           else {| m_barcode := m_barcode mp; m_name := m_name mp;
                   m_manufacturer := m_manufacturer mp;
                   m_category := m_category mp;
                   prices := prices mp ++ [price_entry p] |}
       | None =>
           {| m_barcode := barcode p; m_name := name p;
              m_manufacturer := manufacturer p; m_category := category p;
              prices := [price_entry p] |}
       end.
Proof.
  unfold merge_step.
  destruct (merged !! barcode p) as [mp|] eqn:E; simpl.
  - rewrite E. destruct (Catalog.any_chain _ _); [done|].
    by rewrite lookup_insert_eq.
  - rewrite lookup_insert_eq. simpl. by rewrite lookup_insert_eq.
Qed.

(** A later record of a chain that already has a price under the
    barcode is dropped. *)
Lemma fetch_step_drops merged p mp :
  merged !! barcode p = Some mp ->
  chain p ∈ map Catalog.chain (prices mp) ->
  merge_step merged p = merged.
Proof.
  intros E Hin. apply any_chain_elem in Hin.
  unfold merge_step. rewrite E. simpl. by rewrite E, Hin.
Qed.

Lemma fetch_merge_chains_distinct (all_products : list Product) b mp :
  merge all_products !! b = Some mp ->
  NoDup (map Catalog.chain (prices mp))
  /\ length (prices mp)
     = size (list_to_set (map Catalog.chain (prices mp)) : gset string).
Proof.
  intros Hb.
  assert (NoDup (map Catalog.chain (prices mp))) as Hnd;
    [|split; [done | by apply distinct_chains_count]].
  revert b mp Hb.
  apply (fold_entries barcode merge_step fetch_step_other
           (fun mp => NoDup (map Catalog.chain (prices mp))));
    [|by intros ? ? ?].
  intros m p mp Hm. rewrite fetch_step_same. intros [= <-].
  destruct (m !! barcode p) as [mp0|] eqn:E.
  - specialize (Hm _ _ E). simpl in Hm.
    destruct (Catalog.any_chain _ _) eqn:Ha; [done|]. simpl.
    rewrite map_app. apply NoDup_app. split; [done|].
    split; [|apply NoDup_singleton].
    simpl. intros c Hc ->%list_elem_of_singleton.
    apply any_chain_elem in Hc. congruence.
  - simpl. apply NoDup_singleton.
Qed.

Lemma fetch_merge_prices_nonempty (all_products : list Product) b mp :
  merge all_products !! b = Some mp -> prices mp <> [].
Proof.
  revert b mp.
  apply (fold_entries barcode merge_step fetch_step_other
           (fun mp => prices mp <> [])); [|by intros ? ? ?].
  intros m p mp Hm. rewrite fetch_step_same. intros [= <-].
  destruct (m !! barcode p) as [mp0|] eqn:E; [|done].
  destruct (Catalog.any_chain _ _) eqn:Ha.
  - by eapply any_chain_nonempty.
  - simpl. by destruct (prices mp0).
Qed.

Lemma fetch_step_keeps merged p mp :
  merged !! barcode p = Some mp ->
  exists mp', merge_step merged p !! barcode p = Some mp'
              /\ same_ancillary mp mp'.
Proof.
  intros E. rewrite fetch_step_same, E. eexists. split; [done|].
  by destruct (Catalog.any_chain _ _).
Qed.

Lemma fetch_merge_first_seen (before after : list Product) p :
  Forall (fun q => barcode q <> barcode p) before ->
  exists mp,
    merge (before ++ p :: after) !! barcode p = Some mp
    /\ m_barcode mp = barcode p /\ m_name mp = name p
    /\ m_manufacturer mp = manufacturer p /\ m_category mp = category p.
Proof.
  intros Hbefore. unfold merge. rewrite fold_left_app. simpl.
  pose proof (fold_other barcode merge_step fetch_step_other before
                (barcode p) ∅ Hbefore) as Hnone.
  rewrite lookup_empty in Hnone.
  pose proof (fetch_step_same (fold_left merge_step before ∅) p) as Hp.
  rewrite Hnone in Hp.
  destruct (fold_keeps barcode merge_step fetch_step_other same_ancillary)
    with (ps := after) (m := merge_step (fold_left merge_step before ∅) p)
         (b := barcode p)
         (mp := {| m_barcode := barcode p; m_name := name p;
                   m_manufacturer := manufacturer p;
                   m_category := category p;
                   prices := [price_entry p] |})
    as (mp & Hmp & Hb & Hn & Hm & Hc); try done.
  - intros a b c (? & ? & ? & ?) (? & ? & ? & ?).
    repeat split; congruence.
  - intros. by apply fetch_step_keeps.
  - exists mp. by rewrite <- Hb, <- Hn, <- Hm, <- Hc.
Qed.

Lemma fetch_merge_prices_not_nan (all_products : list Product) b mp :
  Forall (fun p => Py.is_nan (price p) = false) all_products ->
  merge all_products !! b = Some mp ->
  Forall (fun e => Py.is_nan (Catalog.price e) = false) (prices mp).
Proof.
  intros Hps. revert b mp.
  apply (fold_entries_of barcode merge_step fetch_step_other
           (fun p => Py.is_nan (price p) = false)
           (fun mp => Forall (fun e => Py.is_nan (Catalog.price e) = false)
                             (prices mp)));
    [|done|by intros ? ? ?].
  intros m p mp Hp Hm. rewrite fetch_step_same. intros [= <-].
  destruct (m !! barcode p) as [mp0|] eqn:E.
  - specialize (Hm _ _ E). simpl in Hm.
    destruct (Catalog.any_chain _ _); [done|]. simpl.
    apply Forall_app. split; [done|]. by constructor.
  - simpl. by constructor.
Qed.
End FetchMerge.

(** *** scrape_simple.py *)

Section SimpleMerge.
Import scrape_simple.
Implicit Types (merged : gmap string Merged) (p : Product).

Lemma simple_step_other merged p b :
  b <> barcode p -> merge_step merged p !! b = merged !! b.
Proof.
  intros Hne. unfold merge_step.
  destruct (merged !! barcode p) as [mp|] eqn:E; simpl.
  - rewrite E. destruct (Catalog.any_chain _ _); [done|].
    by rewrite lookup_insert_ne.
  - rewrite lookup_insert_eq. simpl.
    by rewrite !lookup_insert_ne.
Qed.

(** What a step leaves under the barcode of its record. *)
Lemma simple_step_same merged p :
  merge_step merged p !! barcode p =
  Some match merged !! barcode p with
       | Some mp =>
           if Catalog.any_chain (chain p) (prices mp) then mp
           else {| m_barcode := m_barcode mp; m_name := m_name mp;
                   m_category := m_category mp;
                   prices := prices mp ++ [price_entry p] |}
       | None =>
           {| m_barcode := barcode p; m_name := name p;
              m_category := category p;
              prices := [price_entry p] |}
       end.
Proof.
  unfold merge_step.
  destruct (merged !! barcode p) as [mp|] eqn:E; simpl.
  - rewrite E. destruct (Catalog.any_chain _ _); [done|].
    by rewrite lookup_insert_eq.
  - rewrite lookup_insert_eq. simpl. by rewrite lookup_insert_eq.
Qed.

(** A later record of a chain that already has a price under the
    barcode is dropped. *)
Lemma simple_step_drops merged p mp :
  merged !! barcode p = Some mp ->
  chain p ∈ map Catalog.chain (prices mp) ->
  merge_step merged p = merged.
Proof.
  intros E Hin. apply any_chain_elem in Hin.
  unfold merge_step. rewrite E. simpl. by rewrite E, Hin.
Qed.

Lemma simple_merge_chains_distinct (products : list Product) b mp :
  merge products !! b = Some mp ->
  NoDup (map Catalog.chain (prices mp))
  /\ length (prices mp)
     = size (list_to_set (map Catalog.chain (prices mp)) : gset string).
Proof.
  intros Hb.
  assert (NoDup (map Catalog.chain (prices mp))) as Hnd;
    [|split; [done | by apply distinct_chains_count]].
  revert b mp Hb.
  apply (fold_entries barcode merge_step simple_step_other
           (fun mp => NoDup (map Catalog.chain (prices mp))));
    [|by intros ? ? ?].
  intros m p mp Hm. rewrite simple_step_same. intros [= <-].
  destruct (m !! barcode p) as [mp0|] eqn:E.
  - specialize (Hm _ _ E). simpl in Hm.
    destruct (Catalog.any_chain _ _) eqn:Ha; [done|]. simpl.
    rewrite map_app. apply NoDup_app. split; [done|].
    split; [|apply NoDup_singleton].
    simpl. intros c Hc ->%list_elem_of_singleton.
    apply any_chain_elem in Hc. congruence.
  - simpl. apply NoDup_singleton.
Qed.

Lemma simple_merge_prices_nonempty (products : list Product) b mp :
  merge products !! b = Some mp -> prices mp <> [].
Proof.
  revert b mp.
  apply (fold_entries barcode merge_step simple_step_other
           (fun mp => prices mp <> [])); [|by intros ? ? ?].
  intros m p mp Hm. rewrite simple_step_same. intros [= <-].
  destruct (m !! barcode p) as [mp0|] eqn:E; [|done].
  destruct (Catalog.any_chain _ _) eqn:Ha.
  - by eapply any_chain_nonempty.
  - simpl. by destruct (prices mp0).
Qed.

Lemma simple_step_keeps merged p mp :
  merged !! barcode p = Some mp ->
  exists mp', merge_step merged p !! barcode p = Some mp'
              /\ same_ancillary mp mp'.
Proof.
  intros E. rewrite simple_step_same, E. eexists. split; [done|].
  by destruct (Catalog.any_chain _ _).
Qed.

Lemma simple_merge_first_seen (before after : list Product) p :
  Forall (fun q => barcode q <> barcode p) before ->
  exists mp,
    merge (before ++ p :: after) !! barcode p = Some mp
    /\ m_barcode mp = barcode p /\ m_name mp = name p
    /\ m_category mp = category p.
Proof.
  intros Hbefore. unfold merge. rewrite fold_left_app. simpl.
  pose proof (fold_other barcode merge_step simple_step_other before
                (barcode p) ∅ Hbefore) as Hnone.
  rewrite lookup_empty in Hnone.
  pose proof (simple_step_same (fold_left merge_step before ∅) p) as Hp.
  rewrite Hnone in Hp.
  destruct (fold_keeps barcode merge_step simple_step_other same_ancillary)
    with (ps := after) (m := merge_step (fold_left merge_step before ∅) p)
         (b := barcode p)
         (mp := {| m_barcode := barcode p; m_name := name p;
                   m_category := category p;
                   prices := [price_entry p] |})
    as (mp & Hmp & Hb & Hn & Hc); try done.
  - intros a b c (? & ? & ?) (? & ? & ?).
    repeat split; congruence.
  - intros. by apply simple_step_keeps.
  - exists mp. by rewrite <- Hb, <- Hn, <- Hc.
Qed.

Lemma simple_merge_prices_not_nan (products : list Product) b mp :
  Forall (fun p => Py.is_nan (price p) = false) products ->
  merge products !! b = Some mp ->
  Forall (fun e => Py.is_nan (Catalog.price e) = false) (prices mp).
Proof.
  intros Hps. revert b mp.
  apply (fold_entries_of barcode merge_step simple_step_other
           (fun p => Py.is_nan (price p) = false)
           (fun mp => Forall (fun e => Py.is_nan (Catalog.price e) = false)
                             (prices mp)));
    [|done|by intros ? ? ?].
  intros m p mp Hp Hm. rewrite simple_step_same. intros [= <-].
  destruct (m !! barcode p) as [mp0|] eqn:E.
  - specialize (Hm _ _ E). simpl in Hm.
    destruct (Catalog.any_chain _ _); [done|]. simpl.
    apply Forall_app. split; [done|]. by constructor.
  - simpl. by constructor.
Qed.
End SimpleMerge.

(** *** import_kaggle.py *)

Section KaggleMerge.
Import import_kaggle.
Implicit Types (merged : gmap string Merged) (p : Product).

Lemma kaggle_step_other merged p b :
  b <> barcode p -> merge_step merged p !! b = merged !! b.
Proof.
  intros Hne. unfold merge_step.
  destruct (merged !! barcode p) as [mp|] eqn:E; simpl.
  - rewrite E. by rewrite lookup_insert_ne.
  - rewrite lookup_insert_eq. by rewrite !lookup_insert_ne.
Qed.

(** What a step leaves under the barcode of its record: the price is
    appended whether or not the chain already has one. *)
Lemma kaggle_step_same merged p :
  merge_step merged p !! barcode p =
  Some match merged !! barcode p with
       | Some mp =>
           {| m_barcode := m_barcode mp; m_name := m_name mp;
              m_manufacturer := m_manufacturer mp;
              m_category := m_category mp;
              m_unitQty := m_unitQty mp; m_unitMeasure := m_unitMeasure mp;
              prices := prices mp ++ [price_entry p];
              image := image mp |}
       | None =>
           {| m_barcode := barcode p; m_name := name p;
              m_manufacturer := manufacturer p; m_category := category p;
              m_unitQty := unitQty p; m_unitMeasure := unitMeasure p;
              prices := [price_entry p];
              image := Catalog.image_url (barcode p) |}
       end.
Proof.
  unfold merge_step.
  destruct (merged !! barcode p) as [mp|] eqn:E; simpl.
  - rewrite E. by rewrite lookup_insert_eq.
  - rewrite lookup_insert_eq. simpl. by rewrite lookup_insert_eq.
Qed.

Lemma kaggle_merge_fold (chain_products : list (string * list Product)) :
  merge_products_by_barcode chain_products
  = fold_left merge_step (processing_order chain_products) ∅.
Proof.
  unfold merge_products_by_barcode, processing_order.
  generalize (∅ : gmap string Merged).
  induction chain_products as [|cp cps IH]; intros m; simpl; [done|].
  by rewrite fold_left_app, IH.
Qed.

Lemma kaggle_merge_prices_nonempty chain_products b mp :
  merge_products_by_barcode chain_products !! b = Some mp ->
  prices mp <> [].
Proof.
  rewrite kaggle_merge_fold. revert b mp.
  apply (fold_entries barcode merge_step kaggle_step_other
           (fun mp => prices mp <> [])); [|by intros ? ? ?].
  intros m p mp Hm. rewrite kaggle_step_same. intros [= <-].
  destruct (m !! barcode p) as [mp0|] eqn:E; [|done].
  simpl. by destruct (prices mp0).
Qed.

Lemma kaggle_step_keeps merged p mp :
  merged !! barcode p = Some mp ->
  exists mp', merge_step merged p !! barcode p = Some mp'
              /\ same_ancillary mp mp'.
Proof.
  intros E. rewrite kaggle_step_same, E. eexists. split; [done|].
  by repeat split.
Qed.

Lemma kaggle_merge_first_seen chain_products (before after : list Product) p :
  processing_order chain_products = before ++ p :: after ->
  Forall (fun q => barcode q <> barcode p) before ->
  exists mp,
    merge_products_by_barcode chain_products !! barcode p = Some mp
    /\ m_barcode mp = barcode p /\ m_name mp = name p
    /\ m_manufacturer mp = manufacturer p /\ m_category mp = category p
    /\ m_unitQty mp = unitQty p /\ m_unitMeasure mp = unitMeasure p.
Proof.
  intros Horder Hbefore. rewrite kaggle_merge_fold, Horder.
  rewrite fold_left_app. simpl.
  pose proof (fold_other barcode merge_step kaggle_step_other before
                (barcode p) ∅ Hbefore) as Hnone.
  rewrite lookup_empty in Hnone.
  pose proof (kaggle_step_same (fold_left merge_step before ∅) p) as Hp.
  rewrite Hnone in Hp.
  destruct (fold_keeps barcode merge_step kaggle_step_other same_ancillary)
    with (ps := after) (m := merge_step (fold_left merge_step before ∅) p)
         (b := barcode p)
         (mp := {| m_barcode := barcode p; m_name := name p;
                   m_manufacturer := manufacturer p;
                   m_category := category p;
                   m_unitQty := unitQty p; m_unitMeasure := unitMeasure p;
                   prices := [price_entry p];
                   image := Catalog.image_url (barcode p) |})
    as (mp & Hmp & Hb & Hn & Hm & Hc & Hq & Hu & _); try done.
  - intros a b c (? & ? & ? & ? & ? & ? & ?) (? & ? & ? & ? & ? & ? & ?).
    repeat split; congruence.
  - intros. by apply kaggle_step_keeps.
  - exists mp. by rewrite <- Hb, <- Hn, <- Hm, <- Hc, <- Hq, <- Hu.
Qed.

(** The image of a merged entry is the image URL of its barcode. *)
Lemma kaggle_merge_image chain_products b mp :
  merge_products_by_barcode chain_products !! b = Some mp ->
  image mp = Catalog.image_url (m_barcode mp).
Proof.
  rewrite kaggle_merge_fold. revert b mp.
  apply (fold_entries barcode merge_step kaggle_step_other
           (fun mp => image mp = Catalog.image_url (m_barcode mp)));
    [|by intros ? ? ?].
  intros m p mp Hm. rewrite kaggle_step_same. intros [= <-].
  destruct (m !! barcode p) as [mp0|] eqn:E; [|done].
  simpl. by eapply Hm.
Qed.
End KaggleMerge.

(** Both persistence projections set the image from the barcode. *)
Lemma projection_image :
  (forall mp, fetch_all_chains.image (fetch_all_chains.projection mp)
              = Catalog.image_url (fetch_all_chains.m_barcode mp))
  /\ (forall mp, scrape_simple.image (scrape_simple.projection mp)
                 = Catalog.image_url (scrape_simple.m_barcode mp)).
Proof. by split. Qed.

(** ** The cheapest projection *)

Section Cheapest.
Import Catalog.
Implicit Types (x y z : Py.pyfloat) (e best : PriceEntry)
               (rest prices : list PriceEntry).

Lemma flt_fle x y : Py.flt x y = true -> Py.fle x y = true.
Proof.
  destruct x as [a|[]|], y as [b|[]|]; simpl; try done.
  intros H%negb_true_iff. apply Qle_bool_iff, Qlt_le_weak, Qnot_le_lt.
  intros H'%Qle_bool_iff. congruence.
Qed.

Lemma not_flt_fle x y :
  Py.is_nan x = false -> Py.is_nan y = false ->
  Py.flt x y = false -> Py.fle y x = true.
Proof.
  destruct x as [a|[]|], y as [b|[]|]; simpl; try done; intros _ _; try done.
  by destruct (Qle_bool b a).
Qed.

Lemma fle_trans x y z :
  Py.fle x y = true -> Py.fle y z = true -> Py.fle x z = true.
Proof.
  destruct x as [a|[]|], y as [b|[]|], z as [c|[]|]; simpl; try done.
  rewrite !Qle_bool_iff. apply Qle_trans.
Qed.

Lemma fle_refl x : Py.is_nan x = false -> Py.fle x x = true.
Proof.
  destruct x as [a|[]|]; simpl; try done.
  intros _. apply Qle_bool_iff, Qle_refl.
Qed.

Lemma min_by_price_elem rest : forall best,
  min_by_price best rest ∈ best :: rest.
Proof.
  induction rest as [|p rest IH]; intros best; simpl.
  - apply list_elem_of_here.
  - destruct (Py.flt (price p) (price best)).
    + apply list_elem_of_further, IH.
    + specialize (IH best).
      apply elem_of_cons in IH as [->|?];
        [apply list_elem_of_here | by do 2 apply list_elem_of_further].
Qed.

Lemma min_by_price_least rest : forall best,
  Py.is_nan (price best) = false ->
  Forall (fun e => Py.is_nan (price e) = false) rest ->
  Forall (fun e => Py.fle (price (min_by_price best rest)) (price e) = true)
         (best :: rest).
Proof.
  induction rest as [|p rest IH]; intros best Hbest Hrest; simpl.
  - constructor; [by apply fle_refl | done].
  - inversion_clear Hrest as [|? ? Hp Hrest'].
    destruct (Py.flt (price p) (price best)) eqn:Hlt.
    + specialize (IH p Hp Hrest').
      inversion IH as [|? ? Hmp Hmrest]; subst.
      constructor; [|done].
      eapply fle_trans; [done | by apply flt_fle].
    + specialize (IH best Hbest Hrest').
      inversion IH as [|? ? Hmb Hmrest]; subst.
      constructor; [done|]. constructor; [|done].
      eapply fle_trans; [done | by apply not_flt_fle].
Qed.

Lemma cheapest_of_nonempty prices :
  prices <> [] ->
  exists e, e ∈ prices /\ cheapest prices = (price e, chainName e).
Proof.
  destruct prices as [|p rest]; [done|]. intros _.
  exists (min_by_price p rest). split; [apply min_by_price_elem | done].
Qed.
End Cheapest.

(** C9. In both persistence projections the cheapest price and chain
    are read from the result of [cheapest]: for an empty price list they
    are 0 and the empty name; for a non-empty list (of prices that are
    numbers, as every accepted price is) they are the price and the
    display name of an entry of the list whose price no entry
    undercuts. *)
Theorem cheapest_is_minimum (prices : list Catalog.PriceEntry) :
  Forall (fun e => Py.is_nan (Catalog.price e) = false) prices ->
  Catalog.cheapest [] = (Py.Fin 0, ""%string)
  /\ (prices <> [] ->
      exists e, e ∈ prices
        /\ Catalog.cheapest prices = (Catalog.price e, Catalog.chainName e)
        /\ Forall (fun e' =>
                     Py.fle (Catalog.price e) (Catalog.price e') = true)
                  prices)
  /\ (forall mp : fetch_all_chains.Merged,
        (fetch_all_chains.cheapestPrice (fetch_all_chains.projection mp),
         fetch_all_chains.cheapestChain (fetch_all_chains.projection mp))
        = Catalog.cheapest (fetch_all_chains.prices mp))
  /\ (forall mp : scrape_simple.Merged,
        (scrape_simple.cheapestPrice (scrape_simple.projection mp),
         scrape_simple.cheapestChain (scrape_simple.projection mp))
        = Catalog.cheapest (scrape_simple.prices mp)).
Proof.
  intros Hnan. split; [done|]. split.
  - destruct prices as [|p rest]; [done|]. intros _.
    inversion_clear Hnan as [|? ? Hp Hrest].
    exists (Catalog.min_by_price p rest).
    split; [apply min_by_price_elem|]. split; [done|].
    by apply min_by_price_least.
  - split; intros mp; unfold fetch_all_chains.projection,
      scrape_simple.projection; simpl; by destruct (Catalog.cheapest _).
Qed.

Lemma cheapest_is_minimum_witness :
  let a := {| Catalog.chain := "A"; Catalog.chainName := "Chain A";
              Catalog.price := Py.Fin 5 |} in
  let b := {| Catalog.chain := "B"; Catalog.chainName := "Chain B";
              Catalog.price := Py.Fin (9 # 2) |} in
  exists e, e ∈ [a; b]
    /\ Catalog.cheapest [a; b] = (Catalog.price e, Catalog.chainName e)
    /\ Forall (fun e' => Py.fle (Catalog.price e) (Catalog.price e') = true)
              [a; b].
Proof.
  intros a b.
  apply (cheapest_is_minimum [a; b]).
  - repeat constructor.
  - discriminate.
Defined.

(** ** The claims about the merge *)

(** C1. Claimed: a merged product has at most one price per chain, a
    later record of a chain already present being dropped, so that the
    length of its price list is the number of its distinct chains.
    [main] of fetch_all_chains.py and [update_mongodb] of
    scrape_simple.py test [not any(pr['chain'] == p['chain'] ...)]
    before they append and keep the invariant
    ([fetch_merge_chains_distinct], [simple_merge_chains_distinct],
    [fetch_step_drops]). [merge_products_by_barcode] of import_kaggle.py
    appends without the test: two rows of one chain's file with the same
    barcode leave two prices of that chain under the barcode. *)
Theorem kaggle_merge_repeats_chain
    (categorize_product categorize : string -> string) :
  let rows : list (gmap string string) :=
    [list_to_map [("ItemCode", "111"); ("ItemName", "Milk");
                  ("ItemPrice", "5.0")];
     list_to_map [("ItemCode", "111"); ("ItemName", "Milk");
                  ("ItemPrice", "6.0")]]%string in
  let products :=
    import_kaggle.parse_price_csv categorize_product (inr rows)
                                  "shufersal" "S" in
  let items :=
    [[Xml.child "ItemCode" "111"; Xml.child "ItemName" "Milk";
      Xml.child "ItemPrice" "5.0"];
     [Xml.child "ItemCode" "111"; Xml.child "ItemName" "Milk";
      Xml.child "ItemPrice" "6.0"]] in
  let first := {| Catalog.chain := "shufersal"; Catalog.chainName := "S";
                  Catalog.price := Py.Fin 5 |} in
  let second := {| Catalog.chain := "shufersal"; Catalog.chainName := "S";
                   Catalog.price := Py.Fin 6 |} in
  (exists mp,
     import_kaggle.merge_products_by_barcode [("shufersal"%string, products)]
       !! "111"%string = Some mp
     /\ import_kaggle.prices mp = [first; second]
     /\ length (import_kaggle.prices mp) = 2%nat
     /\ size (list_to_set (map Catalog.chain (import_kaggle.prices mp))
              : gset string) = 1%nat)
  /\ (exists mp,
        fetch_all_chains.merge
          (fetch_all_chains.parse_xml_file categorize (inr items)
             "shufersal" "S") !! "111"%string = Some mp
        /\ fetch_all_chains.prices mp = [first]).
Proof.
  intros rows products items first second. split.
  - eexists. split; [vm_compute; reflexivity|].
    simpl. split; [reflexivity|]. split; [reflexivity|].
    vm_compute. reflexivity.
  - eexists. split; [vm_compute; reflexivity|]. reflexivity.
Qed.

(** C7. First seen wins: when [p] is the first record with its barcode
    in processing order, the merged product of that barcode has the
    name, manufacturer and category of [p], whatever records follow; in
    import_kaggle.py the processing order is that of the chains' lists
    one after the other. *)
Theorem merge_first_seen_wins :
  (forall (before after : list fetch_all_chains.Product) p,
     Forall (fun q => fetch_all_chains.barcode q <> fetch_all_chains.barcode p)
            before ->
     exists mp,
       fetch_all_chains.merge (before ++ p :: after)
         !! fetch_all_chains.barcode p = Some mp
       /\ fetch_all_chains.m_name mp = fetch_all_chains.name p
       /\ fetch_all_chains.m_manufacturer mp = fetch_all_chains.manufacturer p
       /\ fetch_all_chains.m_category mp = fetch_all_chains.category p)
  /\ (forall chain_products (before after : list import_kaggle.Product) p,
        import_kaggle.processing_order chain_products = before ++ p :: after ->
        Forall (fun q => import_kaggle.barcode q <> import_kaggle.barcode p)
               before ->
        exists mp,
          import_kaggle.merge_products_by_barcode chain_products
            !! import_kaggle.barcode p = Some mp
          /\ import_kaggle.m_name mp = import_kaggle.name p
          /\ import_kaggle.m_manufacturer mp = import_kaggle.manufacturer p
          /\ import_kaggle.m_category mp = import_kaggle.category p).
Proof.
  split.
  - intros before after p Hbefore.
    destruct (fetch_merge_first_seen before after p Hbefore)
      as (mp & ? & ? & ? & ? & ?). by exists mp.
  - intros cps before after p Horder Hbefore.
    destruct (kaggle_merge_first_seen cps before after p Horder Hbefore)
      as (mp & ? & ? & ? & ? & ? & ?). by exists mp.
Qed.

Lemma merge_first_seen_wins_witness :
  let a := {| fetch_all_chains.barcode := "111";
              fetch_all_chains.name := "Milk";
              fetch_all_chains.price := Py.Fin 5;
              fetch_all_chains.chain := "A";
              fetch_all_chains.chainName := "Chain A";
              fetch_all_chains.manufacturer := "Dairy";
              fetch_all_chains.category := "milk" |} in
  let b := {| fetch_all_chains.barcode := "111";
              fetch_all_chains.name := "Milk2";
              fetch_all_chains.price := Py.Fin (9 # 2);
              fetch_all_chains.chain := "B";
              fetch_all_chains.chainName := "Chain B";
              fetch_all_chains.manufacturer := "";
              fetch_all_chains.category := "general" |} in
  let ka := {| import_kaggle.barcode := "111";
               import_kaggle.name := "Milk";
               import_kaggle.price := Py.Fin 5;
               import_kaggle.chain := "A";
               import_kaggle.chainName := "Chain A";
               import_kaggle.manufacturer := "Dairy";
               import_kaggle.unitQty := "1";
               import_kaggle.unitMeasure := "l";
               import_kaggle.category := "milk" |} in
  let kb := {| import_kaggle.barcode := "111";
               import_kaggle.name := "Milk2";
               import_kaggle.price := Py.Fin (9 # 2);
               import_kaggle.chain := "B";
               import_kaggle.chainName := "Chain B";
               import_kaggle.manufacturer := "";
               import_kaggle.unitQty := "";
               import_kaggle.unitMeasure := "";
               import_kaggle.category := "general" |} in
  (exists mp,
     fetch_all_chains.merge ([] ++ a :: [b]) !! "111"%string = Some mp
     /\ fetch_all_chains.m_name mp = "Milk"%string
     /\ fetch_all_chains.m_manufacturer mp = "Dairy"%string
     /\ fetch_all_chains.m_category mp = "milk"%string)
  /\ (exists mp,
        import_kaggle.merge_products_by_barcode
          [("A"%string, [ka]); ("B"%string, [kb])] !! "111"%string = Some mp
        /\ import_kaggle.m_name mp = "Milk"%string
        /\ import_kaggle.m_manufacturer mp = "Dairy"%string
        /\ import_kaggle.m_category mp = "milk"%string).
Proof.
  intros a b ka kb. split.
  - apply (proj1 merge_first_seen_wins [] [b] a). constructor.
  - apply (proj2 merge_first_seen_wins [("A"%string, [ka]); ("B"%string, [kb])]
             [] [kb] ka); [reflexivity | constructor].
Defined.

(** C10. Every product of a merge has at least one price, in all three
    merges, so that on a merge output the cheapest projection is read
    from an entry of the price list and its default for the empty list
    is not reached. *)
Theorem merged_prices_nonempty :
  (forall (all_products : list fetch_all_chains.Product) b mp,
     fetch_all_chains.merge all_products !! b = Some mp ->
     fetch_all_chains.prices mp <> []
     /\ exists e, e ∈ fetch_all_chains.prices mp
          /\ fetch_all_chains.cheapestPrice (fetch_all_chains.projection mp)
             = Catalog.price e
          /\ fetch_all_chains.cheapestChain (fetch_all_chains.projection mp)
             = Catalog.chainName e)
  /\ (forall (products : list scrape_simple.Product) b mp,
        scrape_simple.merge products !! b = Some mp ->
        scrape_simple.prices mp <> []
        /\ exists e, e ∈ scrape_simple.prices mp
             /\ scrape_simple.cheapestPrice (scrape_simple.projection mp)
                = Catalog.price e
             /\ scrape_simple.cheapestChain (scrape_simple.projection mp)
                = Catalog.chainName e)
  /\ (forall chain_products b mp,
        import_kaggle.merge_products_by_barcode chain_products !! b = Some mp ->
        import_kaggle.prices mp <> []).
Proof.
  split; [|split].
  - intros ps b mp Hb.
    pose proof (fetch_merge_prices_nonempty ps b mp Hb) as Hne.
    split; [done|].
    destruct (cheapest_of_nonempty _ Hne) as (e & He & Hc).
    exists e. split; [done|].
    unfold fetch_all_chains.projection. simpl. by rewrite Hc.
  - intros ps b mp Hb.
    pose proof (simple_merge_prices_nonempty ps b mp Hb) as Hne.
    split; [done|].
    destruct (cheapest_of_nonempty _ Hne) as (e & He & Hc).
    exists e. split; [done|].
    unfold scrape_simple.projection. simpl. by rewrite Hc.
  - apply kaggle_merge_prices_nonempty.
Qed.

Lemma merged_prices_nonempty_witness :
  let a := {| fetch_all_chains.barcode := "111";
              fetch_all_chains.name := "Milk";
              fetch_all_chains.price := Py.Fin 5;
              fetch_all_chains.chain := "A";
              fetch_all_chains.chainName := "Chain A";
              fetch_all_chains.manufacturer := "";
              fetch_all_chains.category := "milk" |} in
  let s := {| scrape_simple.barcode := "111";
              scrape_simple.name := "Milk";
              scrape_simple.price := Py.Fin 5;
              scrape_simple.chain := "A";
              scrape_simple.chainName := "Chain A";
              scrape_simple.category := "milk" |} in
  let k := {| import_kaggle.barcode := "111";
              import_kaggle.name := "Milk";
              import_kaggle.price := Py.Fin 5;
              import_kaggle.chain := "A";
              import_kaggle.chainName := "Chain A";
              import_kaggle.manufacturer := "";
              import_kaggle.unitQty := "";
              import_kaggle.unitMeasure := "";
              import_kaggle.category := "milk" |} in
  let entry := {| Catalog.chain := "A"; Catalog.chainName := "Chain A";
                  Catalog.price := Py.Fin 5 |} in
  fetch_all_chains.prices
    {| fetch_all_chains.m_barcode := "111"; fetch_all_chains.m_name := "Milk";
       fetch_all_chains.m_manufacturer := "";
       fetch_all_chains.m_category := "milk";
       fetch_all_chains.prices := [entry] |} <> []
  /\ scrape_simple.prices
       {| scrape_simple.m_barcode := "111"; scrape_simple.m_name := "Milk";
          scrape_simple.m_category := "milk";
          scrape_simple.prices := [entry] |} <> []
  /\ import_kaggle.prices
       {| import_kaggle.m_barcode := "111"; import_kaggle.m_name := "Milk";
          import_kaggle.m_manufacturer := "";
          import_kaggle.m_category := "milk";
          import_kaggle.m_unitQty := ""; import_kaggle.m_unitMeasure := "";
          import_kaggle.prices := [entry]; import_kaggle.image := None |}
     <> [].
Proof.
  intros a s k entry. split; [|split].
  - apply (proj1 merged_prices_nonempty [a] "111"%string).
    vm_compute. reflexivity.
  - apply (proj1 (proj2 merged_prices_nonempty) [s] "111"%string).
    vm_compute. reflexivity.
  - apply (proj2 (proj2 merged_prices_nonempty)
             [("A"%string, [k])] "111"%string).
    vm_compute. reflexivity.
Defined.

(** The end-to-end example of the specification: chain A reports
    barcode 111 as Milk at 5.0, chain B as Milk2 at 4.5. *)
Lemma fetch_two_chains_example :
  let a := {| fetch_all_chains.barcode := "111";
              fetch_all_chains.name := "Milk";
              fetch_all_chains.price := Py.Fin 5;
              fetch_all_chains.chain := "A";
              fetch_all_chains.chainName := "Chain A";
              fetch_all_chains.manufacturer := "";
              fetch_all_chains.category := "milk" |} in
  let b := {| fetch_all_chains.barcode := "111";
              fetch_all_chains.name := "Milk2";
              fetch_all_chains.price := Py.Fin (9 # 2);
              fetch_all_chains.chain := "B";
              fetch_all_chains.chainName := "Chain B";
              fetch_all_chains.manufacturer := "";
              fetch_all_chains.category := "milk" |} in
  exists mp,
    fetch_all_chains.merge [a; b; a] = {[ "111"%string := mp ]}
    /\ fetch_all_chains.m_name mp = "Milk"%string
    /\ fetch_all_chains.prices mp
       = [fetch_all_chains.price_entry a; fetch_all_chains.price_entry b]
    /\ fetch_all_chains.cheapestPrice (fetch_all_chains.projection mp)
       = Py.Fin (9 # 2)
    /\ fetch_all_chains.cheapestChain (fetch_all_chains.projection mp)
       = "Chain B"%string.
Proof. intros a b. eexists. split; [vm_compute; reflexivity|]. by repeat split. Qed.

(** ** The batch result *)

Section FetchMain.
Import fetch_all_chains.

Lemma fetch_chain_failed (known : bool) (e : Py.exn) (limit : nat) :
  fetch_chain known (inl e) limit = [] /\ fetch_chain false (inl e) limit = [].
Proof. by destruct known. Qed.

Lemma fetch_nothing_fetched (runs : list (string * Py.M (list Product))) :
  Forall (fun run => fetch_chain true (snd run) 5000 = []) runs ->
  concat (map snd (map (fun run => (fst run, fetch_chain true (snd run) 5000))
                       runs)) = [].
Proof.
  induction 1 as [|run runs Hrun _ IH]; [done|].
  cbn -[fetch_chain]. by rewrite Hrun.
Qed.

Lemma fetch_summary_zero (runs : list (string * Py.M (list Product))) :
  Forall (fun run => fetch_chain true (snd run) 5000 = []) runs ->
  forall s : gmap string nat,
    map_Forall (fun _ n => n = 0%nat) s ->
    map_Forall (fun _ n => n = 0%nat)
      (fold_left (fun s cp => <[fst cp := length (snd cp)]> s)
         (map (fun run => (fst run, fetch_chain true (snd run) 5000)) runs)
         s).
Proof.
  induction 1 as [|run runs Hrun _ IH]; intros s Hs; [done|].
  cbn -[fetch_chain]. apply IH. rewrite Hrun. by apply map_Forall_insert_2.
Qed.
End FetchMain.

Section ScrapeMultiple.
Import scrape_prices.
Variable CHAIN_NAMES : gmap string string.
Variable limit : nat.

Lemma scrape_chain_failed (chain_name : string) (run : Run) :
  r_success (scrape_chain CHAIN_NAMES chain_name limit run) = false ->
  scrape_chain CHAIN_NAMES chain_name limit run
  = failure CHAIN_NAMES chain_name.
Proof.
  unfold scrape_chain.
  destruct (library_installed run); [|done].
  destruct (CHAIN_TO_ENUM !! _); [|done].
  by destruct (scraped run).
Qed.

(** The loop over the chains: the flag is true when no chain failed,
    and each chain's result is stored under its name. *)
Lemma scrape_multiple_chains_fold (runs : list (string * Run)) :
  let result_of run := scrape_chain CHAIN_NAMES (fst run) limit (snd run) in
  let r := scrape_multiple_chains CHAIN_NAMES runs limit in
  success r = forallb (fun run => r_success (result_of run)) runs
  /\ chains r
     = fold_left (fun m run => <[fst run := result_of run]> m) runs ∅.
Proof.
  intros result_of r. subst r. unfold scrape_multiple_chains.
  match goal with
  | |- context [fold_left ?f runs (true, ∅)] =>
      assert (forall ok m,
                fold_left f runs (ok, m)
                = (ok && forallb (fun run => r_success (result_of run)) runs,
                   fold_left (fun m run => <[fst run := result_of run]> m)
                             runs m)) as Hfold
  end.
  { induction runs as [|[chain run] runs' IH]; intros ok m; simpl.
    - by rewrite andb_true_r.
    - rewrite IH. unfold result_of at 2. simpl.
      by destruct (r_success _), ok. }
  by rewrite Hfold.
Qed.

Lemma scrape_total_zero (m : gmap string ChainResult) :
  map_Forall (fun _ c => products_count c = None) m ->
  sum_list (map (fun c => default 0%nat (products_count (snd c)))
                (map_to_list m)) = 0%nat.
Proof.
  intros H%map_Forall_to_list.
  induction H as [|[k c] l Hc _ IH]; simpl; [done|].
  simpl in Hc. by rewrite Hc, IH.
Qed.

Lemma scrape_all_failed (runs : list (string * Run)) :
  Forall (fun run => r_success (scrape_chain CHAIN_NAMES (fst run) limit
                                             (snd run)) = false) runs ->
  forall m : gmap string ChainResult,
    map_Forall (fun _ c => r_success c = false /\ products c = []
                           /\ products_count c = None) m ->
    map_Forall (fun _ c => r_success c = false /\ products c = []
                           /\ products_count c = None)
      (fold_left (fun m run =>
                    <[fst run := scrape_chain CHAIN_NAMES (fst run) limit
                                              (snd run)]> m) runs m).
Proof.
  induction 1 as [|run runs' Hrun _ IH]; intros m Hm; simpl; [done|].
  apply IH. apply map_Forall_insert_2; [|done].
  by rewrite (scrape_chain_failed _ _ Hrun).
Qed.
End ScrapeMultiple.

(** A scrape that completes without a file is no failure for
    [scrape_multiple_chains]: the flag counts failed scrapes, not
    products. *)
Lemma scrape_no_products_still_success :
  let r := scrape_prices.scrape_multiple_chains ∅
             [("shufersal"%string,
               {| scrape_prices.library_installed := true;
                  scrape_prices.scraped := inr [] |})] 5000 in
  scrape_prices.success r = true /\ scrape_prices.total_products r = 0%nat.
Proof. vm_compute. by split. Qed.

(** With nothing fetched the part of [main] that builds the result
    gives an empty product list, a total of 0, a count of 0 for every
    chain, and the constant success flag. *)
Lemma fetch_main_nothing_fetched
    (runs : list (string * Py.M (list fetch_all_chains.Product))) :
  Forall (fun run => fetch_all_chains.fetch_chain true (snd run) 5000 = [])
         runs ->
  let r := fetch_all_chains.main runs in
  fetch_all_chains.success r = true
  /\ fetch_all_chains.products r = []
  /\ fetch_all_chains.totalProducts r = 0%nat
  /\ map_Forall (fun _ n => n = 0%nat) (fetch_all_chains.chainsSummary r).
Proof.
  intros Hruns r. subst r. unfold fetch_all_chains.main.
  cbn -[fetch_all_chains.fetch_chain fetch_all_chains.merge].
  rewrite (fetch_nothing_fetched runs Hruns).
  change (fetch_all_chains.merge [])
    with (∅ : gmap string fetch_all_chains.Merged).
  split; [done|]. split; [by rewrite map_to_list_empty|].
  split; [by rewrite map_size_empty|].
  by apply fetch_summary_zero.
Qed.

(** [scrape_multiple_chains] reports success exactly when no requested
    chain failed; when every requested chain failed, every stored chain
    result is a failure without products, the total is 0, and the flag
    is false if a chain was requested at all. *)
Lemma scrape_multiple_chains_flag (CHAIN_NAMES : gmap string string)
    (runs : list (string * scrape_prices.Run)) (limit : nat) :
  let result_of run :=
    scrape_prices.scrape_chain CHAIN_NAMES (fst run) limit (snd run) in
  let r := scrape_prices.scrape_multiple_chains CHAIN_NAMES runs limit in
  (scrape_prices.success r = true <->
   Forall (fun run => scrape_prices.r_success (result_of run) = true) runs)
  /\ (Forall (fun run => scrape_prices.r_success (result_of run) = false)
             runs ->
      (runs <> [] -> scrape_prices.success r = false)
      /\ scrape_prices.total_products r = 0%nat
      /\ map_Forall (fun _ c => scrape_prices.r_success c = false
                                /\ scrape_prices.products c = [])
                    (scrape_prices.chains r)).
Proof.
  intros result_of r.
  destruct (scrape_multiple_chains_fold CHAIN_NAMES limit runs) as [Hs Hc].
  fold result_of r in Hs, Hc. split.
  - rewrite Hs, forallb_forall, List.Forall_forall. done.
  - intros Hfailed.
    assert (map_Forall
              (fun _ c => scrape_prices.r_success c = false
                          /\ scrape_prices.products c = []
                          /\ scrape_prices.products_count c = None)
              (scrape_prices.chains r)) as Hall.
    { rewrite Hc. apply scrape_all_failed; [done|]. apply map_Forall_empty. }
    split; [|split].
    + intros Hne. rewrite Hs. destruct Hfailed as [|run runs' Hrun _]; [done|].
      unfold result_of in Hrun. cbn [forallb]. by rewrite Hrun.
    + subst r. unfold scrape_prices.scrape_multiple_chains in *.
      destruct (fold_left _ runs (true, ∅)) as [ok by_chain]. simpl in *.
      apply scrape_total_zero.
      intros k c Hk. by destruct (Hall k c Hk) as (_ & _ & ?).
    + intros k c Hk. destruct (Hall k c Hk) as (? & ? & _). done.
Qed.

(** What [plan] tells about the arguments. *)
Lemma fetch_plan_cases (args : list string) :
  match fetch_all_chains.plan args with
  | fetch_all_chains.ListChains => "--list"%string ∈ args
  | fetch_all_chains.Exit1 =>
      args <> []
      /\ Forall (fun a => fetch_all_chains.in_CHAINS a = false) args
  | fetch_all_chains.FetchChains selected _ => selected <> []
  end.
Proof.
  unfold fetch_all_chains.plan.
  destruct (existsb (String.eqb "--list") args) eqn:E.
  - apply existsb_exists in E as (x & Hx & <-%String.eqb_eq).
    by apply list_elem_of_In.
  - destruct args as [|a args]; [done|].
    destruct (List.filter fetch_all_chains.in_CHAINS (a :: args))
      as [|s sel] eqn:F; [|done].
    split; [done|]. apply List.Forall_forall. intros x Hx.
    destruct (fetch_all_chains.in_CHAINS x) eqn:Ex; [|done].
    assert (In x (List.filter fetch_all_chains.in_CHAINS (a :: args))) as Hf
      by (by apply List.filter_In).
    by rewrite F in Hf.
Qed.

(** C3. Claimed: when no chain yields a product the batch run returns a
    well-formed result whose success flag is false, with an empty
    product list. [scrape_multiple_chains] of scrape_prices.py does so:
    when every requested chain failed its flag is false, its total 0 and
    every chain result empty; and [main] of import_kaggle.py reports a
    failure when no chain was found. [main] of fetch_all_chains.py does
    not: when every fetch comes back empty it either prints the chain
    list, leaves with [sys.exit(1)] (arguments without a known chain),
    hands an empty list to [update_mongodb] and prints no result
    ([--update-db]), or prints a result whose ['success'] is the
    constant [True], beside an empty product list, a total of 0 and a
    count of 0 for every chain. In no case does it report
    [success = False]. *)
Theorem fetch_main_reports_success_on_total_failure
    (script : string) (args : list string)
    (tried : nat -> Py.M (list fetch_all_chains.Product)) :
  (forall i, fetch_all_chains.fetch_chain true (tried i) 5000 = []) ->
  match fetch_all_chains.run_main script args tried with
  | fetch_all_chains.Listed => "--list"%string ∈ args
  | fetch_all_chains.Exited status =>
      status = 1%nat /\ args <> []
      /\ Forall (fun a => fetch_all_chains.in_CHAINS a = false) args
  | fetch_all_chains.Updated products =>
      products = [] /\ "--update-db"%string ∈ script :: args
  | fetch_all_chains.Printed r =>
      fetch_all_chains.success r = true
      /\ fetch_all_chains.products r = []
      /\ fetch_all_chains.totalProducts r = 0%nat
      /\ map_Forall (fun _ n => n = 0%nat) (fetch_all_chains.chainsSummary r)
      /\ "--update-db"%string ∉ script :: args
  end
  /\ (forall CHAIN_NAMES (runs : list (string * scrape_prices.Run)) limit,
        runs <> [] ->
        Forall (fun run =>
                  scrape_prices.r_success
                    (scrape_prices.scrape_chain CHAIN_NAMES (fst run) limit
                                                (snd run)) = false) runs ->
        let r := scrape_prices.scrape_multiple_chains CHAIN_NAMES runs limit in
        scrape_prices.success r = false
        /\ scrape_prices.total_products r = 0%nat
        /\ map_Forall (fun _ c => scrape_prices.r_success c = false
                                  /\ scrape_prices.products c = [])
                      (scrape_prices.chains r))
  /\ (forall chains,
        import_kaggle.success (import_kaggle.main true [] chains) = false).
Proof.
  intros Hempty. split; [|split].
  - unfold fetch_all_chains.run_main.
    pose proof (fetch_plan_cases args) as Hplan.
    destruct (fetch_all_chains.plan args) as [| |selected update_db];
      [done|by destruct Hplan|].
    assert (Forall (fun run =>
                      fetch_all_chains.fetch_chain true (snd run) 5000 = [])
                   (imap (fun i chain_id => (chain_id, tried i)) selected))
      as Hruns.
    { apply Forall_forall. intros run (i & c & -> & _)%elem_of_lookup_imap.
      apply Hempty. }
    destruct (fetch_main_nothing_fetched _ Hruns) as (Hs & Hp & Ht & Hc).
    destruct (existsb (String.eqb "--update-db") (script :: args)) eqn:E.
    + split; [done|].
      apply existsb_exists in E as (x & Hx & <-%String.eqb_eq).
      by apply list_elem_of_In.
    + repeat split; try done. intros Hin.
      apply not_true_iff_false in E. apply E. apply existsb_exists.
      exists "--update-db"%string.
      split; [by apply list_elem_of_In | apply String.eqb_refl].
  - intros CHAIN_NAMES runs limit Hne Hfailed r.
    destruct (proj2 (scrape_multiple_chains_flag CHAIN_NAMES runs limit)
                Hfailed) as (Hs & Ht & Hc).
    split; [by apply Hs|]. by split.
  - done.
Qed.

Lemma fetch_main_reports_success_on_total_failure_witness :
  exists r,
    fetch_all_chains.run_main "fetch_all_chains.py"
      ["shufersal"; "rami_levy"]%string (fun _ => inl Py.OtherError)
    = fetch_all_chains.Printed r
    /\ fetch_all_chains.success r = true
    /\ fetch_all_chains.products r = []
    /\ fetch_all_chains.totalProducts r = 0%nat.
Proof.
  pose proof (proj1 (fetch_main_reports_success_on_total_failure
                       "fetch_all_chains.py" ["shufersal"; "rami_levy"]%string
                       (fun _ => inl Py.OtherError) (fun _ => eq_refl)))
    as H.
  set (r := fetch_all_chains.main
              [("shufersal"%string, inl Py.OtherError);
               ("rami_levy"%string, inl Py.OtherError)]).
  change (fetch_all_chains.run_main "fetch_all_chains.py"
            ["shufersal"; "rami_levy"]%string (fun _ => inl Py.OtherError))
    with (fetch_all_chains.Printed r) in H.
  cbn beta iota in H. destruct H as (Hs & Hp & Ht & _).
  exists r. split; [reflexivity|].
  split; [exact Hs|]. split; [exact Hp | exact Ht].
Defined.

(** * Further properties of the scripts *)

(** ** Text *)

Section Strip.
Variable space : ascii -> bool.
Implicit Types l : list ascii.

Lemma lstrip_by_head l c :
  head (Py.lstrip_by space l) = Some c -> space c = false.
Proof.
  induction l as [|x l IH]; simpl; [done|].
  destruct (space x) eqn:E; [done|]. simpl. by intros [= <-].
Qed.

Lemma lstrip_by_fixed l :
  (forall c, head l = Some c -> space c = false) ->
  Py.lstrip_by space l = l.
Proof. destruct l as [|x l]; simpl; [done|]. intros H. by rewrite (H x). Qed.

Lemma lstrip_by_split l : exists pre, l = pre ++ Py.lstrip_by space l.
Proof.
  induction l as [|x l [pre IH]]; simpl; [by exists []|].
  destruct (space x); [|by exists []].
  exists (x :: pre). simpl. by rewrite <- IH.
Qed.

Lemma rstrip_by_split l : exists suf, l = Py.rstrip_by space l ++ suf.
Proof.
  unfold Py.rstrip_by. destruct (lstrip_by_split (rev l)) as [pre H].
  exists (rev pre). rewrite <- rev_app_distr, <- H. by rewrite rev_involutive.
Qed.

Lemma strip_by_fixed l :
  let s := Py.rstrip_by space (Py.lstrip_by space l) in
  Py.rstrip_by space (Py.lstrip_by space s) = s.
Proof.
  intros s.
  assert (Py.lstrip_by space s = s) as ->.
  { apply lstrip_by_fixed. intros c Hc. subst s.
    destruct (rstrip_by_split (Py.lstrip_by space l)) as [suf Hsuf].
    apply (lstrip_by_head l). rewrite Hsuf.
    by destruct (Py.rstrip_by space (Py.lstrip_by space l)). }
  subst s. unfold Py.rstrip_by. rewrite rev_involutive.
  rewrite (lstrip_by_fixed (Py.lstrip_by space _)); [done|].
  intros c. apply lstrip_by_head.
Qed.
End Strip.

Lemma strip_idempotent (s : string) : Py.strip (Py.strip s) = Py.strip s.
Proof.
  unfold Py.strip. rewrite list_ascii_of_string_of_list_ascii.
  by rewrite strip_by_fixed.
Qed.

Lemma prefix_occurs (kw s : string) :
  String.prefix kw s = true <-> exists b, s = (kw ++ b)%string.
Proof.
  revert s. induction kw as [|c kw IH]; intros s.
  - split; [intros _; by exists s | by destruct s].
  - destruct s as [|c' s]; simpl; [split; [done | by intros [b ?]]|].
    destruct (Ascii.ascii_dec c c') as [->|Hne].
    + rewrite IH. split; intros [b Hb]; exists b;
        [by rewrite Hb | by injection Hb].
    + split; [done|]. intros [b [= ? _]]. done.
Qed.

(** [kw in s] holds exactly when [s] is some text, then [kw], then some
    text. *)
Lemma contains_occurs (kw s : string) :
  Py.contains kw s = true <-> exists a b, s = (a ++ kw ++ b)%string.
Proof.
  induction s as [|c s IH].
  - change (Py.contains kw "") with (String.prefix kw "" || false).
    rewrite orb_false_r, prefix_occurs. split.
    + intros [b Hb]. by exists ""%string, b.
    + intros (a & b & H). destruct a; [by exists b|done].
  - change (Py.contains kw (String c s))
      with (String.prefix kw (String c s) || Py.contains kw s).
    rewrite orb_true_iff, prefix_occurs, IH. split.
    + intros [[b Hb]|(a & b & Hab)].
      * by exists ""%string, b.
      * exists (String c a), b. simpl. by rewrite Hab.
    + intros (a & b & H). destruct a as [|c' a]; simpl in H.
      * left. by exists b.
      * right. injection H as _ H. by exists a, b.
Qed.

(** ** Loops that collect *)

Lemma collect_acc {I P} (normalize : I -> Py.M (option P)) (items : list I) :
  forall acc,
    fst (Catalog.collect normalize items acc)
    = acc ++ fst (Catalog.collect normalize items []).
Proof.
  induction items as [|it items IH]; intros acc; simpl.
  - by rewrite app_nil_r.
  - destruct (normalize it) as [e|[p|]]; simpl.
    + by rewrite app_nil_r.
    + rewrite (IH (acc ++ [p])), (IH [p]). by rewrite <- app_assoc.
    + apply IH.
Qed.

Lemma collect_Forall {I P} (normalize : I -> Py.M (option P))
    (Q : P -> Prop) :
  (forall it p, normalize it = inr (Some p) -> Q p) ->
  forall items acc,
    Forall Q acc -> Forall Q (fst (Catalog.collect normalize items acc)).
Proof.
  intros HQ items. induction items as [|it items IH]; intros acc Hacc; simpl.
  - done.
  - destruct (normalize it) as [e|[p|]] eqn:E; simpl; [done| |by apply IH].
    apply IH. apply Forall_app. split; [done|]. constructor; [|done].
    by eapply HQ.
Qed.

(** ** scrape_prices.py: the parser and its limit *)

Section PricesLoops.
Import scrape_prices.
Variables chain_name hebrew_name : string.
Variable limit : nat.
Implicit Types (products : list Product)
               (items : list (list Xml.element)).

Lemma prices_item_loop_take items : forall products,
  fst (item_loop chain_name hebrew_name limit items products)
  = products
    ++ take (limit - length products)
         (fst (Catalog.collect (normalize chain_name hebrew_name)
                               items [])).
Proof.
  induction items as [|item items IH]; intros products; simpl.
  - by rewrite take_nil, app_nil_r.
  - destruct (Nat.leb_spec limit (length products)) as [Hge|Hlt].
    + replace (limit - length products)%nat with 0%nat by lia.
      by rewrite take_0, app_nil_r.
    + destruct (normalize chain_name hebrew_name item) as [e|[p|]]; simpl.
      * by rewrite take_nil, app_nil_r.
      * rewrite IH, (collect_acc _ items [p]), length_app. simpl.
        replace (limit - length products)%nat
          with (S (limit - (length products + 1)))%nat by lia.
        simpl. by rewrite <- app_assoc.
      * apply IH.
Qed.

Lemma prices_file_loop_take
    (files : list (Py.M (list (list Xml.element)))) :
  forall products,
    file_loop chain_name hebrew_name limit files products
    = products
      ++ take (limit - length products)
           (concat (map (fun doc =>
                           match doc with
                           | inl _ => []
                           | inr items =>
                               fst (Catalog.collect
                                      (normalize chain_name hebrew_name)
                                      items [])
                           end) files)).
Proof.
  induction files as [|doc files IH]; intros products; simpl.
  - by rewrite take_nil, app_nil_r.
  - destruct (Nat.leb_spec limit (length products)) as [Hge|Hlt].
    + replace (limit - length products)%nat with 0%nat by lia.
      by rewrite take_0, app_nil_r.
    + destruct doc as [e|items]; simpl; [apply IH|].
      rewrite IH, prices_item_loop_take, <- app_assoc. f_equal.
      rewrite take_app, length_app, length_take. f_equal. f_equal. lia.
Qed.

Lemma get_xml_text_stripped (element : list Xml.element)
    (names : list string) :
  Py.strip (get_xml_text element names) = get_xml_text element names.
Proof.
  induction names as [|n names IH]; simpl; [reflexivity|].
  destruct (Xml.find_text element n); [apply strip_idempotent | apply IH].
Qed.

(** What [normalize] lets through. *)
Lemma prices_normalize_accepts (item : list Xml.element) (p : Product) :
  normalize chain_name hebrew_name item = inr (Some p) ->
  barcode p <> ""%string /\ name p <> ""%string
  /\ Py.strip (barcode p) = barcode p /\ Py.strip (name p) = name p
  /\ Py.gt0 (price p) = true
  /\ chain p = chain_name /\ scrape_prices.chain_hebrew p = hebrew_name.
Proof.
  unfold normalize, Py.bind, Py.ret.
  destruct (float_or_0 _) as [e|x]; [done|].
  pose proof (get_xml_text_stripped item barcode_names) as Sb.
  pose proof (get_xml_text_stripped item name_names) as Sn.
  destruct (Py.truthy (get_xml_text item barcode_names)) eqn:Hb; [|done].
  destruct (Py.truthy (get_xml_text item name_names)) eqn:Hn; [|done].
  destruct (Py.gt0 x) eqn:Hx; [|done].
  cbn [andb]. intros [= <-]. cbn [barcode name price chain
                                   scrape_prices.chain_hebrew].
  apply truthy_nonempty in Hb, Hn. done.
Qed.

Lemma prices_parse_take (files : list (Py.M (list (list Xml.element)))) :
  parse_xml_files_directly files chain_name hebrew_name limit
  = take limit
      (concat (map (fun doc =>
                      match doc with
                      | inl _ => []
                      | inr items =>
                          fst (Catalog.collect
                                 (normalize chain_name hebrew_name)
                                 items [])
                      end) files)).
Proof.
  unfold parse_xml_files_directly.
  rewrite prices_file_loop_take. simpl. by rewrite Nat.sub_0_r.
Qed.
End PricesLoops.

(** X1. [parse_xml_files_directly] returns the first [limit] of the
    products its files yield in walk order, a file that cannot be read
    yielding none and a readable file the records accepted before its
    first record whose price text [float] refuses: the early exits of
    its loops only truncate, and it never returns more than [limit]
    products. *)
Theorem prices_limit_truncates
    (files : list (Py.M (list (list Xml.element))))
    (chain_name hebrew_name : string) (limit : nat) :
  let yield doc :=
    match doc with
    | inl _ => []
    | inr items =>
        fst (Catalog.collect (scrape_prices.normalize chain_name hebrew_name)
                             items [])
    end in
  let products :=
    scrape_prices.parse_xml_files_directly files chain_name hebrew_name
                                           limit in
  products = take limit (concat (map yield files))
  /\ (length products <= limit)%nat.
Proof.
  intros yield products. subst products yield.
  rewrite prices_parse_take.
  split; [done|]. rewrite length_take. lia.
Qed.

(** X2. Every product returned by [parse_xml_files_directly] has a
    barcode and a name that are non-empty and carry no white space at
    either end, a price above zero, and the chain name and display name
    it was called with. *)
Theorem prices_products_valid
    (files : list (Py.M (list (list Xml.element))))
    (chain_name hebrew_name : string) (limit : nat) :
  Forall (fun p =>
            scrape_prices.barcode p <> ""%string
            /\ scrape_prices.name p <> ""%string
            /\ Py.strip (scrape_prices.barcode p) = scrape_prices.barcode p
            /\ Py.strip (scrape_prices.name p) = scrape_prices.name p
            /\ Py.gt0 (scrape_prices.price p) = true
            /\ scrape_prices.chain p = chain_name
            /\ scrape_prices.chain_hebrew p = hebrew_name)
         (scrape_prices.parse_xml_files_directly files chain_name
                                                 hebrew_name limit).
Proof.
  rewrite prices_parse_take.
  apply Forall_take, Forall_concat, Forall_forall.
  intros l [doc [-> _]]%list_elem_of_fmap.
  destruct doc as [e|items]; [done|].
  apply collect_Forall; [|done].
  intros it p H.
  destruct (prices_normalize_accepts chain_name hebrew_name it p H)
    as (? & ? & ? & ? & ? & ? & ?).
  done.
Qed.

(** ** scrape_prices.py: one chain, several chains, the arguments *)

Section PricesChains.
Import scrape_prices.
Variable CHAIN_NAMES : gmap string string.
Variable limit : nat.
Implicit Types (runs : list (string * Run)) (c : string).

Lemma scrape_chain_cases c (run : Run) :
  (scrape_chain CHAIN_NAMES c limit run = failure CHAIN_NAMES c
   /\ (library_installed run = false
       \/ CHAIN_TO_ENUM !! Py.str_lower c = None
       \/ exists e, scraped run = inl e))
  \/ (exists files,
        library_installed run = true
        /\ is_Some (CHAIN_TO_ENUM !! Py.str_lower c)
        /\ scraped run = inr files
        /\ scrape_chain CHAIN_NAMES c limit run
           = {| r_chain := c; r_chain_hebrew := hebrew CHAIN_NAMES c;
                r_success := true;
                products_count :=
                  Some (length (parse_xml_files_directly files c
                                  (hebrew CHAIN_NAMES c) limit));
                products :=
                  parse_xml_files_directly files c
                    (hebrew CHAIN_NAMES c) limit |}).
Proof.
  unfold scrape_chain.
  destruct (library_installed run); [|left; auto].
  destruct (CHAIN_TO_ENUM !! Py.str_lower c) eqn:E; [|left; auto].
  destruct (scraped run) as [e|files]; [left; eauto 6|].
  right. exists files. by repeat split.
Qed.

Lemma scrape_chain_count c (run : Run) :
  default 0%nat (products_count (scrape_chain CHAIN_NAMES c limit run))
  = length (products (scrape_chain CHAIN_NAMES c limit run))
  /\ (length (products (scrape_chain CHAIN_NAMES c limit run)) <= limit)%nat.
Proof.
  destruct (scrape_chain_cases c run) as [[-> _]|(files & _ & _ & _ & ->)].
  - simpl. lia.
  - simpl. split; [done|]. rewrite prices_parse_take, length_take. lia.
Qed.

Lemma chains_fold_other runs c : forall m : gmap string ChainResult,
  c ∉ map fst runs ->
  fold_left (fun m run =>
               <[fst run := scrape_chain CHAIN_NAMES (fst run) limit
                                         (snd run)]> m) runs m !! c
  = m !! c.
Proof.
  induction runs as [|[c' run] runs IH]; intros m Hc; simpl; [done|].
  simpl in Hc. apply not_elem_of_cons in Hc as [Hne Hc].
  rewrite IH by done. by rewrite lookup_insert_ne.
Qed.

Lemma chains_fold_dom runs : forall m : gmap string ChainResult,
  dom (fold_left (fun m run =>
                    <[fst run := scrape_chain CHAIN_NAMES (fst run) limit
                                              (snd run)]> m) runs m)
  = list_to_set (map fst runs) ∪ dom m.
Proof.
  induction runs as [|[c' run] runs IH]; intros m; simpl.
  - set_solver.
  - rewrite IH, dom_insert_L. set_solver.
Qed.

Lemma chains_fold_all (Q : ChainResult -> Prop) runs :
  (forall c run, Q (scrape_chain CHAIN_NAMES c limit run)) ->
  forall m : gmap string ChainResult,
    map_Forall (fun _ => Q) m ->
    map_Forall (fun _ => Q)
      (fold_left (fun m run =>
                    <[fst run := scrape_chain CHAIN_NAMES (fst run) limit
                                              (snd run)]> m) runs m).
Proof.
  intros HQ. induction runs as [|[c' run] runs IH]; intros m Hm; simpl;
    [done|].
  apply IH. by apply map_Forall_insert_2.
Qed.
End PricesChains.

(** X3. [scrape_chain] fails exactly when the scraper library is
    missing, the lower-cased chain name is no key of [CHAIN_TO_ENUM], or
    the scraping raised; a failure has no products and no product count;
    a success lists what [parse_xml_files_directly] returned, counts
    exactly these products, and they are at most [limit]. *)
Theorem scrape_chain_outcome (CHAIN_NAMES : gmap string string)
    (chain_name : string) (limit : nat) (run : scrape_prices.Run) :
  let r := scrape_prices.scrape_chain CHAIN_NAMES chain_name limit run in
  scrape_prices.r_chain r = chain_name
  /\ (scrape_prices.r_success r = false <->
      scrape_prices.library_installed run = false
      \/ scrape_prices.CHAIN_TO_ENUM !! Py.str_lower chain_name = None
      \/ exists e, scrape_prices.scraped run = inl e)
  /\ scrape_prices.products_count r
     = (if scrape_prices.r_success r
        then Some (length (scrape_prices.products r)) else None)
  /\ (if scrape_prices.r_success r then True
      else scrape_prices.products r = [])
  /\ (length (scrape_prices.products r) <= limit)%nat.
Proof.
  intros r. subst r.
  destruct (scrape_chain_cases CHAIN_NAMES limit chain_name run)
    as [[-> H]|(files & Hl & [x Hk] & Hs & ->)]; simpl.
  - repeat split; try done. lia.
  - repeat split; try done.
    + intros [?|[?|[e ?]]]; congruence.
    + rewrite prices_parse_take, length_take. lia.
Qed.

(** X4. The ['chains'] dict of [scrape_multiple_chains] has exactly the
    requested chain names as keys, and under each name the result of
    the last request of that name. *)
Theorem scrape_multiple_chains_entries (CHAIN_NAMES : gmap string string)
    (before after : list (string * scrape_prices.Run))
    (chain : string) (run : scrape_prices.Run) (limit : nat) :
  chain ∉ map fst after ->
  let runs := before ++ (chain, run) :: after in
  let r := scrape_prices.scrape_multiple_chains CHAIN_NAMES runs limit in
  dom (scrape_prices.chains r) = list_to_set (map fst runs)
  /\ scrape_prices.chains r !! chain
     = Some (scrape_prices.scrape_chain CHAIN_NAMES chain limit run).
Proof.
  intros Hafter runs r.
  destruct (scrape_multiple_chains_fold CHAIN_NAMES limit runs) as [_ Hc].
  fold r in Hc. rewrite Hc. split.
  - rewrite chains_fold_dom, dom_empty_L. apply (right_id_L ∅ (∪)).
  - subst runs. rewrite fold_left_app. simpl.
    rewrite (chains_fold_other CHAIN_NAMES limit after chain _ Hafter).
    by rewrite lookup_insert_eq.
Qed.

Lemma scrape_multiple_chains_entries_witness :
  let first := {| scrape_prices.library_installed := true;
                  scrape_prices.scraped := inl Py.OtherError |} in
  let second := {| scrape_prices.library_installed := true;
                   scrape_prices.scraped := inr [] |} in
  let runs := [("victory"%string, first); ("mega"%string, second);
               ("victory"%string, second)] in
  let r := scrape_prices.scrape_multiple_chains ∅ runs 5000 in
  dom (scrape_prices.chains r) = list_to_set (map fst runs)
  /\ scrape_prices.chains r !! "victory"%string
     = Some (scrape_prices.scrape_chain ∅ "victory" 5000 second).
Proof.
  intros first second runs r.
  apply (scrape_multiple_chains_entries ∅
           [("victory"%string, first); ("mega"%string, second)] []
           "victory"%string second 5000%nat).
  simpl. apply not_elem_of_nil.
Defined.

(** X5. ['total_products'] of [scrape_multiple_chains] is the number of
    products listed in the chain results it stores, and at most [limit]
    for each of them. *)
Theorem scrape_multiple_chains_total (CHAIN_NAMES : gmap string string)
    (runs : list (string * scrape_prices.Run)) (limit : nat) :
  let r := scrape_prices.scrape_multiple_chains CHAIN_NAMES runs limit in
  scrape_prices.total_products r
  = sum_list (map (fun c => length (scrape_prices.products (snd c)))
                  (map_to_list (scrape_prices.chains r)))
  /\ (scrape_prices.total_products r
      <= size (scrape_prices.chains r) * limit)%nat.
Proof.
  intros r.
  assert (map_Forall
            (fun _ c =>
               default 0%nat (scrape_prices.products_count c)
               = length (scrape_prices.products c)
               /\ (length (scrape_prices.products c) <= limit)%nat)
            (scrape_prices.chains r)) as Hall.
  { destruct (scrape_multiple_chains_fold CHAIN_NAMES limit runs) as [_ Hc].
    fold r in Hc. rewrite Hc.
    apply (chains_fold_all CHAIN_NAMES limit
             (fun c => default 0%nat (scrape_prices.products_count c)
                       = length (scrape_prices.products c)
                       /\ (length (scrape_prices.products c) <= limit)%nat));
      [|apply map_Forall_empty].
    intros c run. apply scrape_chain_count. }
  assert (scrape_prices.total_products r
          = sum_list (map (fun c => default 0%nat
                                      (scrape_prices.products_count (snd c)))
                          (map_to_list (scrape_prices.chains r)))) as ->.
  { subst r. unfold scrape_prices.scrape_multiple_chains.
    by destruct (fold_left _ runs (true, ∅)). }
  rewrite <- length_map_to_list.
  apply map_Forall_to_list in Hall.
  induction Hall as [|[k c] l [Hc Hl] _ [IH1 IH2]]; simpl; [done|].
  simpl in Hc, Hl. rewrite Hc, IH1. split; [done|]. lia.
Qed.

Lemma batch_fails_of_unknown (CHAIN_NAMES : gmap string string)
    (runs : list (string * scrape_prices.Run)) (limit : nat)
    (chain : string) :
  chain ∈ map fst runs ->
  scrape_prices.CHAIN_TO_ENUM !! Py.str_lower chain = None ->
  scrape_prices.success
    (scrape_prices.scrape_multiple_chains CHAIN_NAMES runs limit) = false.
Proof.
  intros [[c run] [-> Hin]]%list_elem_of_fmap Hk. simpl in Hk.
  destruct (scrape_multiple_chains_fold CHAIN_NAMES limit runs) as [-> _].
  apply not_true_iff_false. rewrite forallb_forall. intros Hall.
  apply list_elem_of_In in Hin. specialize (Hall (c, run) Hin).
  simpl in Hall. unfold scrape_prices.scrape_chain in Hall.
  rewrite Hk in Hall.
  by destruct (scrape_prices.library_installed run).
Qed.

(** X6. A name whose lower case is no key of [CHAIN_TO_ENUM] makes the
    whole batch a failure: [scrape_multiple_chains] reports
    [success = False] whenever such a name is among the requested
    chains, whatever the other chains yield. *)
Theorem unknown_chain_fails_batch (CHAIN_NAMES : gmap string string)
    (runs : list (string * scrape_prices.Run)) (limit : nat)
    (chain : string) :
  chain ∈ map fst runs ->
  scrape_prices.CHAIN_TO_ENUM !! Py.str_lower chain = None ->
  scrape_prices.success
    (scrape_prices.scrape_multiple_chains CHAIN_NAMES runs limit) = false.
Proof.
  apply batch_fails_of_unknown.
Qed.

Lemma unknown_chain_fails_batch_witness :
  scrape_prices.success
    (scrape_prices.scrape_multiple_chains ∅
       [("victory"%string,
         {| scrape_prices.library_installed := true;
            scrape_prices.scraped := inr [] |});
        ("carrefour"%string,
         {| scrape_prices.library_installed := true;
            scrape_prices.scraped := inr [] |})] 5000) = false.
Proof.
  apply (unknown_chain_fails_batch ∅ _ 5000%nat "carrefour"%string).
  - simpl. set_solver.
  - reflexivity.
Defined.

Lemma index_absent (x : string) (l : list string) :
  x ∉ l -> Py.index x l = None.
Proof.
  induction l as [|y l IH]; simpl; [done|].
  intros [Hne Hl]%not_elem_of_cons.
  destruct (String.eqb_spec y x) as [->|_]; [done|].
  by rewrite IH.
Qed.

Lemma index_first (x : string) (pre post : list string) :
  x ∉ pre -> Py.index x (pre ++ x :: post) = Some (length pre).
Proof.
  induction pre as [|y pre IH]; simpl.
  - intros _. by rewrite String.eqb_refl.
  - intros [Hne Hl]%not_elem_of_cons.
    destruct (String.eqb_spec y x) as [->|_]; [done|].
    by rewrite IH.
Qed.

Lemma take_output_trailing (pre : list string) :
  "--output"%string ∉ pre ->
  scrape_prices.take_output (pre ++ ["--output"%string])
  = (None, pre ++ ["--output"%string]).
Proof.
  intros Hpre. unfold scrape_prices.take_output.
  rewrite index_first by done.
  rewrite lookup_ge_None_2; [done|].
  rewrite length_app. simpl. lia.
Qed.

(** X7. [main] of scrape_prices.py and its [--output] flag: the first
    [--output] followed by a value is removed from the arguments
    together with that value, which becomes the output file; a first
    [--output] that is the last argument is left among the arguments
    and names no file; without the flag the arguments are unchanged. *)
Theorem take_output_first_flag (pre post : list string) (value : string) :
  "--output"%string ∉ pre ->
  scrape_prices.take_output (pre ++ "--output"%string :: value :: post)
  = (Some value, pre ++ post)
  /\ scrape_prices.take_output (pre ++ ["--output"%string])
     = (None, pre ++ ["--output"%string])
  /\ scrape_prices.take_output pre = (None, pre).
Proof.
  intros Hpre. split; [|split].
  - unfold scrape_prices.take_output. rewrite index_first by done.
    replace (S (length pre)) with (length pre + 1)%nat by lia.
    rewrite lookup_app_r by lia.
    replace (length pre + 1 - length pre)%nat with 1%nat by lia. simpl.
    rewrite take_app_length.
    replace (pre ++ "--output"%string :: value :: post)
      with ((pre ++ ["--output"%string; value]) ++ post)
      by (by rewrite <- app_assoc).
    rewrite drop_app_length'; [done|].
    rewrite length_app. simpl. lia.
  - by apply take_output_trailing.
  - unfold scrape_prices.take_output. by rewrite index_absent.
Qed.

Lemma take_output_first_flag_witness :
  let flag : string := "--output"%string in
  let victory : string := "victory"%string in
  let mega : string := "mega"%string in
  let file : string := "out.json"%string in
  scrape_prices.take_output ([victory] ++ flag :: file :: [flag; mega])
  = (Some file, [victory] ++ [flag; mega])
  /\ scrape_prices.take_output ([victory] ++ [flag]) = (None, [victory] ++ [flag])
  /\ scrape_prices.take_output [victory] = (None, [victory]).
Proof.
  intros flag victory mega file.
  apply (take_output_first_flag [victory] [flag; mega] file).
  rewrite list_elem_of_singleton. discriminate.
Defined.

(** X8. A trailing [--output] without a value is scraped as a chain:
    when the flag is the last argument and the arguments do not start
    with [--list] or [--help], [main] passes [--output] to
    [scrape_multiple_chains] among the chain names, and the batch
    reports [success = False]. *)
Theorem trailing_output_flag_fails (CHAIN_NAMES : gmap string string)
    (first : string) (rest : list string)
    (runs : list (string * scrape_prices.Run)) (limit : nat) :
  "--output"%string ∉ first :: rest ->
  first <> "--list"%string ->
  first <> "--help"%string ->
  scrape_prices.command
    (snd (scrape_prices.take_output
            (first :: rest ++ ["--output"%string])))
  = scrape_prices.Scrape (first :: rest ++ ["--output"%string])
  /\ (map fst runs = first :: rest ++ ["--output"%string] ->
      scrape_prices.success
        (scrape_prices.scrape_multiple_chains CHAIN_NAMES runs limit)
      = false).
Proof.
  intros Hpre Hlist Hhelp. split.
  - change (first :: rest ++ ["--output"%string])
      with ((first :: rest) ++ ["--output"%string]).
    rewrite (take_output_trailing (first :: rest) Hpre). simpl.
    destruct (String.eqb_spec first "--list") as [->|_]; [done|].
    by destruct (String.eqb_spec first "--help") as [->|_].
  - intros Hruns.
    apply (batch_fails_of_unknown CHAIN_NAMES runs limit "--output");
      [|reflexivity].
    rewrite Hruns. set_solver.
Qed.

Lemma trailing_output_flag_fails_witness :
  let run := {| scrape_prices.library_installed := true;
                scrape_prices.scraped := inr [] |} in
  scrape_prices.command
    (snd (scrape_prices.take_output ["victory"; "--output"]%string))
  = scrape_prices.Scrape ["victory"; "--output"]%string
  /\ (map fst [("victory"%string, run); ("--output"%string, run)]
      = ["victory"; "--output"]%string ->
      scrape_prices.success
        (scrape_prices.scrape_multiple_chains ∅
           [("victory"%string, run); ("--output"%string, run)] 5000)
      = false).
Proof.
  intros run.
  apply (trailing_output_flag_fails ∅ "victory"%string [] _ 5000%nat).
  - rewrite list_elem_of_singleton. discriminate.
  - discriminate.
  - discriminate.
Defined.

(** ** The XML parsers of fetch_all_chains.py and scrape_simple.py *)

Lemma div_half_even_nonneg (n d : Z) :
  0 <= n -> 0 < d -> 0 <= Py.div_half_even n d.
Proof.
  intros Hn Hd. unfold Py.div_half_even.
  assert (0 <= n / d) by (apply Z.div_pos; lia).
  repeat case_match; lia.
Qed.

Lemma dyadic_nonneg (m k : Z) : 0 <= m -> (0 <= Py.dyadic m k)%Q.
Proof.
  intros Hm. unfold Py.dyadic. destruct (0 <=? k) eqn:E.
  - unfold Qle. simpl. apply Z.leb_le in E.
    assert (0 <= 2 ^ k) by (apply Z.pow_nonneg; lia). nia.
  - rewrite Qred_correct. unfold Qle. simpl. lia.
Qed.

Lemma b64_round_pos_nonneg (n d : Z) :
  0 < n -> 0 < d -> Py.fle (Py.Fin 0) (Py.b64_round_pos n d) = true.
Proof.
  intros Hn Hd. unfold Py.b64_round_pos.
  set (e0 := Z.log2 n - Z.log2 d).
  set (above := if 0 <=? e0 then _ else _).
  set (e := if above then e0 else e0 - 1).
  set (k := Z.max (e - 52) (-1074)).
  set (m := if 0 <=? k then _ else _).
  destruct (_ || _); [done|].
  simpl. apply Qle_bool_iff. apply dyadic_nonneg.
  subst m. destruct (0 <=? k) eqn:E.
  - apply Z.leb_le in E. apply div_half_even_nonneg; [lia|].
    assert (0 < 2 ^ k) by (apply Z.pow_pos_nonneg; lia). nia.
  - apply Z.leb_gt in E. apply div_half_even_nonneg; [|lia].
    assert (0 < 2 ^ (- k)) by (apply Z.pow_pos_nonneg; lia). nia.
Qed.

(** Rounding a price above zero to two decimals gives a price that is
    zero or above: it can reach zero. *)
Lemma round2_nonneg (x : Py.pyfloat) :
  Py.gt0 x = true -> Py.fle (Py.Fin 0) (Py.round2 x) = true.
Proof.
  destruct x as [q|s|]; simpl; [| |done].
  - intros Hq. apply negb_true_iff in Hq.
    assert (0 < Qnum q) as Hpos.
    { destruct (Z.lt_ge_cases 0 (Qnum q)) as [|Hle]; [done|].
      assert (Qle_bool q 0 = true) as Habs; [|congruence].
      apply Qle_bool_iff. unfold Qle. simpl. lia. }
    destruct (0 <=? Qnum q * 100) eqn:E; [|apply Z.leb_gt in E; lia].
    pose proof (div_half_even_nonneg (Qnum q * 100) (Zpos (Qden q))
                  ltac:(lia) ltac:(lia)) as Hc.
    unfold Py.b64_round. cbn [Qnum Qden].
    destruct (Py.div_half_even (Qnum q * 100) (Zpos (Qden q))) as [|c|c];
      [done| |lia].
    apply b64_round_pos_nonneg; lia.
  - by destruct s.
Qed.

Section ParsedProducts.
Variable categorize : string -> string.
Variables chain_id chain_name : string.

Lemma tag_loop_stripped (item : list Xml.element) (tags : list string)
    (t : string) :
  Catalog.tag_loop item tags = Some t -> Py.strip t = t.
Proof.
  induction tags as [|tag tags IH]; simpl; [done|].
  destruct (Xml.find_text item tag); [|done].
  intros [= <-]. apply strip_idempotent.
Qed.

Lemma fetch_normalize_accepts (item : list Xml.element)
    (p : fetch_all_chains.Product) :
  fetch_all_chains.normalize categorize chain_id chain_name item
  = inr (Some p) ->
  fetch_all_chains.barcode p <> ""%string
  /\ fetch_all_chains.name p <> ""%string
  /\ Py.strip (fetch_all_chains.barcode p) = fetch_all_chains.barcode p
  /\ Py.strip (fetch_all_chains.name p) = fetch_all_chains.name p
  /\ Py.is_nan (fetch_all_chains.price p) = false
  /\ Py.fle (Py.Fin 0) (fetch_all_chains.price p) = true
  /\ fetch_all_chains.chain p = chain_id
  /\ fetch_all_chains.chainName p = chain_name
  /\ fetch_all_chains.category p = categorize (fetch_all_chains.name p).
Proof.
  intros Hp.
  destruct (fetch_normalize_cases categorize chain_id chain_name item)
    as (price & _ & [[_ H]|(b & n & v & Hb & Hn & _ & ? & ? & Hv & H)]);
    rewrite H in Hp; [done|].
  injection Hp as <-. simpl. repeat split; try done.
  - by apply (tag_loop_stripped item fetch_all_chains.barcode_tags).
  - by apply (tag_loop_stripped item fetch_all_chains.name_tags).
  - apply round2_not_nan. by apply gt0_not_nan.
  - by apply round2_nonneg.
Qed.

Lemma simple_normalize_accepts (item : list Xml.element)
    (p : scrape_simple.Product) :
  scrape_simple.normalize categorize chain_id chain_name item
  = inr (Some p) ->
  scrape_simple.barcode p <> ""%string
  /\ scrape_simple.name p <> ""%string
  /\ Py.strip (scrape_simple.barcode p) = scrape_simple.barcode p
  /\ Py.strip (scrape_simple.name p) = scrape_simple.name p
  /\ Py.is_nan (scrape_simple.price p) = false
  /\ Py.fle (Py.Fin 0) (scrape_simple.price p) = true
  /\ scrape_simple.chain p = chain_id
  /\ scrape_simple.chainName p = chain_name
  /\ scrape_simple.category p = categorize (scrape_simple.name p).
Proof.
  intros Hp.
  destruct (simple_normalize_cases categorize chain_id chain_name item)
    as (price & _ & [[_ H]|(b & n & v & Hb & Hn & _ & ? & ? & Hv & H)]);
    rewrite H in Hp; [done|].
  injection Hp as <-. simpl. repeat split; try done.
  - by apply (tag_loop_stripped item scrape_simple.barcode_tags).
  - by apply (tag_loop_stripped item scrape_simple.name_tags).
  - apply round2_not_nan. by apply gt0_not_nan.
  - by apply round2_nonneg.
Qed.

Lemma fetch_parse_Forall (Q : fetch_all_chains.Product -> Prop)
    (doc : Py.M (list (list Xml.element))) :
  (forall item p,
      fetch_all_chains.normalize categorize chain_id chain_name item
      = inr (Some p) -> Q p) ->
  Forall Q (fetch_all_chains.parse_xml_file categorize doc
              chain_id chain_name).
Proof.
  intros HQ. destruct doc as [e|items]; simpl; [done|].
  by apply collect_Forall.
Qed.

Lemma simple_parse_Forall (Q : scrape_simple.Product -> Prop)
    (doc : Py.M (list (list Xml.element))) :
  (forall item p,
      scrape_simple.normalize categorize chain_id chain_name item
      = inr (Some p) -> Q p) ->
  Forall Q (scrape_simple.parse_xml categorize doc chain_id chain_name).
Proof.
  intros HQ. destruct doc as [e|items]; simpl; [done|].
  by apply collect_Forall.
Qed.
End ParsedProducts.

(** X9. Every product that [parse_xml_file] of fetch_all_chains.py
    returns has a non-empty, trimmed barcode and name, the chain id and
    chain name it was called with, the category of its name, and a
    price that is a number and not below zero, whatever the file holds
    and also when reading or parsing it fails. The price can be zero:
    the test [price > 0] is made before [round(price, 2)], so the price
    text [0.004] is accepted and stored as [0.0]. *)
Theorem fetch_parsed_products_valid (categorize : string -> string)
    (doc : Py.M (list (list Xml.element))) (chain_id chain_name : string) :
  Forall (fun p =>
            fetch_all_chains.barcode p <> ""%string
            /\ fetch_all_chains.name p <> ""%string
            /\ Py.strip (fetch_all_chains.barcode p)
               = fetch_all_chains.barcode p
            /\ Py.strip (fetch_all_chains.name p) = fetch_all_chains.name p
            /\ Py.is_nan (fetch_all_chains.price p) = false
            /\ Py.fle (Py.Fin 0) (fetch_all_chains.price p) = true
            /\ fetch_all_chains.chain p = chain_id
            /\ fetch_all_chains.chainName p = chain_name
            /\ fetch_all_chains.category p
               = categorize (fetch_all_chains.name p))
         (fetch_all_chains.parse_xml_file categorize doc chain_id chain_name)
  /\ map fetch_all_chains.price
       (fetch_all_chains.parse_xml_file categorize
          (inr [[Xml.child "ItemCode" "111"; Xml.child "ItemName" "Milk";
                 Xml.child "ItemPrice" "0.004"]]) chain_id chain_name)
     = [Py.Fin 0].
Proof.
  split; [|by vm_compute].
  apply fetch_parse_Forall. apply fetch_normalize_accepts.
Qed.

(** X10. The same for [parse_xml] of scrape_simple.py: non-empty
    trimmed barcode and name, the given chain id and chain name, the
    category of the name, and a price that is a number not below
    zero. *)
Theorem simple_parsed_products_valid (categorize : string -> string)
    (doc : Py.M (list (list Xml.element))) (chain_id chain_name : string) :
  Forall (fun p =>
            scrape_simple.barcode p <> ""%string
            /\ scrape_simple.name p <> ""%string
            /\ Py.strip (scrape_simple.barcode p) = scrape_simple.barcode p
            /\ Py.strip (scrape_simple.name p) = scrape_simple.name p
            /\ Py.is_nan (scrape_simple.price p) = false
            /\ Py.fle (Py.Fin 0) (scrape_simple.price p) = true
            /\ scrape_simple.chain p = chain_id
            /\ scrape_simple.chainName p = chain_name
            /\ scrape_simple.category p = categorize (scrape_simple.name p))
         (scrape_simple.parse_xml categorize doc chain_id chain_name).
Proof.
  apply simple_parse_Forall. apply simple_normalize_accepts.
Qed.

(** ** The walks over the downloaded files *)

(** Two lists with the same first [n] elements keep them when the same
    list is appended to both. *)
Lemma take_app_same {A} (n : nat) (x y r : list A) :
  take n x = take n y -> take n (x ++ r) = take n (y ++ r).
Proof.
  intros H. destruct (Nat.le_gt_cases n (length x)) as [Hx|Hx].
  - assert (n <= length y)%nat.
    { apply (f_equal length) in H. rewrite !length_take in H. lia. }
    by rewrite !take_app_le.
  - assert (length y < n)%nat.
    { apply (f_equal length) in H. rewrite !length_take in H. lia. }
    rewrite !take_ge in H by lia. by subst.
Qed.

Section Walks.
Context {P : Type}.
Variable parse : Py.M (list (list Xml.element)) -> list P.
Variable wanted : string -> bool.
Implicit Types (files : list (string * Py.M (list (list Xml.element))))
               (dirs : Catalog.Walk) (products : list P).

(** Everything the wanted files of a directory hold. *)
Lemma wanted_cons (f : string * Py.M (list (list Xml.element))) files :
  concat (map (fun f => parse (snd f))
              (List.filter (fun f => wanted (fst f)) (f :: files)))
  = (if wanted (fst f) then parse (snd f) else [])
    ++ concat (map (fun f => parse (snd f))
                   (List.filter (fun f => wanted (fst f)) files)).
Proof. simpl. by destruct (wanted (fst f)). Qed.
End Walks.

Section FetchWalk.
Import fetch_all_chains.
Variable categorize : string -> string.
Variables chain_id chain_name : string.
Variable limit : nat.
Implicit Types (files : list (string * Py.M (list (list Xml.element))))
               (dirs : Catalog.Walk) (products : list Product).

Lemma fetch_filename_loop_take files : forall products,
  take limit (filename_loop categorize chain_id chain_name limit
                            files products)
  = take limit
      (products
       ++ concat (map (fun f => parse_xml_file categorize (snd f)
                                  chain_id chain_name)
                      (List.filter (fun f => is_price_file (fst f))
                                   files))).
Proof.
  induction files as [|[filename doc] files IH]; intros products.
  - simpl. by rewrite app_nil_r.
  - rewrite (wanted_cons
               (fun d => parse_xml_file categorize d chain_id chain_name)
               is_price_file).
    cbn [filename_loop fst snd].
    destruct (is_price_file filename); [|apply IH].
    destruct (Nat.leb_spec limit
                (length (products
                         ++ parse_xml_file categorize doc
                              chain_id chain_name))) as [Hge|Hlt].
    + rewrite app_assoc. by rewrite (take_app_le _ _ _ Hge).
    + rewrite IH. by rewrite app_assoc.
Qed.

Lemma fetch_walk_loop_take dirs : forall products,
  take limit (walk_loop categorize chain_id chain_name limit dirs products)
  = take limit
      (products
       ++ concat (map (fun f => parse_xml_file categorize (snd f)
                                  chain_id chain_name)
                      (List.filter (fun f => is_price_file (fst f))
                                   (concat dirs)))).
Proof.
  induction dirs as [|files dirs IH]; intros products.
  - simpl. by rewrite app_nil_r.
  - cbn [walk_loop concat]. rewrite List.filter_app, map_app, concat_app.
    rewrite app_assoc.
    pose proof (fetch_filename_loop_take files products) as Hf.
    destruct (Nat.leb_spec limit
                (length (filename_loop categorize chain_id chain_name
                           limit files products))) as [Hge|Hlt].
    + rewrite Hf at 1.
      rewrite (take_app_le (products ++ _)); [done|].
      apply (f_equal length) in Hf. rewrite !length_take in Hf. lia.
    + rewrite IH. by apply take_app_same.
Qed.

(** With a limit above zero a walk is empty exactly when the price
    files hold no product. *)
Lemma fetch_walk_loop_nil dirs :
  (0 < limit)%nat ->
  walk_loop categorize chain_id chain_name limit dirs [] = []
  <-> concat (map (fun f => parse_xml_file categorize (snd f)
                              chain_id chain_name)
                  (List.filter (fun f => is_price_file (fst f))
                               (concat dirs))) = [].
Proof.
  intros Hl. pose proof (fetch_walk_loop_take dirs []) as H.
  rewrite app_nil_l in H.
  destruct limit as [|n]; [lia|].
  split; intros E; rewrite E in H.
  - by destruct (concat _).
  - by destruct (walk_loop _ _ _ _ _ _).
Qed.

Variable scrape : list string -> Py.M Catalog.Walk.

Lemma fetch_attempt_loop_first (pre post : list (list string))
    (file_types : list string) (dirs : Catalog.Walk) :
  Forall (fun t => exists d, scrape t = inr d
                     /\ walk_loop categorize chain_id chain_name limit d []
                        = []) pre ->
  scrape file_types = inr dirs ->
  walk_loop categorize chain_id chain_name limit dirs [] <> [] ->
  attempt_loop categorize chain_id chain_name limit scrape
    (pre ++ file_types :: post) []
  = inr (walk_loop categorize chain_id chain_name limit dirs []).
Proof.
  intros Hpre Hs Hne. induction Hpre as [|t pre (d & Hd & Hnil) _ IH].
  - simpl. rewrite Hs. unfold Py.bind. simpl.
    by destruct (walk_loop _ _ _ _ _ _).
  - simpl. rewrite Hd. unfold Py.bind. cbn beta iota. rewrite Hnil.
    apply IH.
Qed.

Lemma fetch_attempt_loop_raises (pre post : list (list string))
    (file_types : list string) (e : Py.exn) :
  Forall (fun t => exists d, scrape t = inr d
                     /\ walk_loop categorize chain_id chain_name limit d []
                        = []) pre ->
  scrape file_types = inl e ->
  attempt_loop categorize chain_id chain_name limit scrape
    (pre ++ file_types :: post) []
  = inl e.
Proof.
  intros Hpre Hs. induction Hpre as [|t pre (d & Hd & Hnil) _ IH].
  - simpl. by rewrite Hs.
  - simpl. rewrite Hd. unfold Py.bind. cbn beta iota. rewrite Hnil.
    apply IH.
Qed.

Lemma fetch_attempt_loop_none (attempts : list (list string)) :
  Forall (fun t => exists d, scrape t = inr d
                     /\ walk_loop categorize chain_id chain_name limit d []
                        = []) attempts ->
  attempt_loop categorize chain_id chain_name limit scrape attempts []
  = inr [].
Proof.
  intros Hpre. induction Hpre as [|t pre (d & Hd & Hnil) _ IH].
  - done.
  - simpl. rewrite Hd. unfold Py.bind. cbn beta iota. rewrite Hnil.
    apply IH.
Qed.
End FetchWalk.

Section SimpleWalk.
Import scrape_simple.
Variable categorize : string -> string.
Variables chain_id chain_name : string.
Implicit Types (files : list (string * Py.M (list (list Xml.element))))
               (dirs : Catalog.Walk) (products : list Product).

Lemma simple_filename_loop_take files : forall products,
  take 5000 (filename_loop categorize chain_id chain_name files products)
  = take 5000
      (products
       ++ concat (map (fun f => parse_xml categorize (snd f)
                                  chain_id chain_name)
                      (List.filter (fun f => is_data_file (fst f))
                                   files))).
Proof.
  induction files as [|[filename doc] files IH]; intros products.
  - simpl. by rewrite app_nil_r.
  - rewrite (wanted_cons
               (fun d => parse_xml categorize d chain_id chain_name)
               is_data_file).
    cbn [filename_loop fst snd].
    destruct (is_data_file filename); [|apply IH].
    destruct (Nat.leb_spec 5000
                (length (products
                         ++ parse_xml categorize doc
                              chain_id chain_name))) as [Hge|Hlt].
    + rewrite app_assoc. by rewrite (take_app_le _ _ _ Hge).
    + rewrite IH. by rewrite app_assoc.
Qed.

Lemma simple_walk_loop_take dirs : forall products,
  take 5000 (walk_loop categorize chain_id chain_name dirs products)
  = take 5000
      (products
       ++ concat (map (fun f => parse_xml categorize (snd f)
                                  chain_id chain_name)
                      (List.filter (fun f => is_data_file (fst f))
                                   (concat dirs)))).
Proof.
  induction dirs as [|files dirs IH]; intros products.
  - simpl. by rewrite app_nil_r.
  - cbn [walk_loop concat]. rewrite List.filter_app, map_app, concat_app.
    rewrite app_assoc, IH.
    apply take_app_same, simple_filename_loop_take.
Qed.
End SimpleWalk.

(** ** [fetch_chain], [scrape_chain] and the chain selections *)

(** X11. [fetch_chain] returns what the first productive attempt found:
    when the attempts before [file_types] (in the order [Price],
    [PriceFull], [PriceFull] with [Price]) ran and their walks found no
    product in a price file, and the walk after the attempt with
    [file_types] finds some, the result is the first [limit] products of
    the price files of that walk, in walk order; later attempts are not
    made. A price file is one whose lower-cased name contains [price]
    and whose name ends in [.xml] or [.gz]. *)
Theorem fetch_chain_first_productive_attempt
    (categorize display : string -> string)
    (scrape : list string -> Py.M Catalog.Walk)
    (chain_id : string) (limit : nat)
    (pre post : list (list string)) (file_types : list string)
    (dirs : Catalog.Walk) :
  let found (d : Catalog.Walk) :=
    concat (map (fun f => fetch_all_chains.parse_xml_file categorize (snd f)
                            chain_id (display chain_id))
                (List.filter (fun f => fetch_all_chains.is_price_file (fst f))
                             (concat d))) in
  fetch_all_chains.in_CHAINS chain_id = true ->
  (0 < limit)%nat ->
  fetch_all_chains.file_types_to_try = pre ++ file_types :: post ->
  Forall (fun t => exists d, scrape t = inr d /\ found d = []) pre ->
  scrape file_types = inr dirs ->
  found dirs <> [] ->
  fetch_all_chains.fetch_chain_of categorize display true scrape
    chain_id limit
  = take limit (found dirs).
Proof.
  intros found Hk Hl Htry Hpre Hs Hne.
  unfold fetch_all_chains.fetch_chain_of, fetch_all_chains.try_body.
  rewrite Hk, Htry. cbn [fetch_all_chains.fetch_chain].
  rewrite (fetch_attempt_loop_first categorize chain_id (display chain_id)
             limit scrape pre post file_types dirs).
  - by rewrite fetch_walk_loop_take.
  - eapply Forall_impl; [exact Hpre|]. intros t (d & Hd & Hnil).
    exists d. split; [done|]. by apply fetch_walk_loop_nil.
  - done.
  - intros Hnil. apply Hne. by apply (fetch_walk_loop_nil _ _ _ limit).
Qed.

Lemma fetch_chain_first_productive_attempt_witness :
  let item := [Xml.child "ItemCode" "111"; Xml.child "ItemName" "Milk";
               Xml.child "ItemPrice" "5.90"] in
  let dirs : Catalog.Walk :=
    [[("Stores7290.xml"%string, inr [item]);
      ("PriceFull7290.gz"%string, inr [item; item])]] in
  let scrape (t : list string) : Py.M Catalog.Walk :=
    if decide (t = ["Price"%string]) then inr [] else inr dirs in
  length (fetch_all_chains.fetch_chain_of (fun n => n) (fun c => c) true
            scrape "victory" 1)
  = 1%nat.
Proof.
  intros item dirs scrape.
  rewrite (fetch_chain_first_productive_attempt (fun n => n) (fun c => c)
             scrape "victory" 1 [["Price"%string]]
             [["PriceFull"%string; "Price"%string]] ["PriceFull"%string]
             dirs).
  - reflexivity.
  - reflexivity.
  - lia.
  - reflexivity.
  - repeat constructor. exists []. split; reflexivity.
  - reflexivity.
  - vm_compute. discriminate.
Defined.

(** X12. [fetch_chain] returns at most [limit] products, and none at
    all for a chain id that is no key of [CHAINS], without the scraper
    library, when an attempt raises after unproductive ones (whatever
    the exception), or when the three attempts find nothing. *)
Theorem fetch_chain_empty_outcomes (categorize display : string -> string)
    (library_installed : bool) (scrape : list string -> Py.M Catalog.Walk)
    (chain_id : string) (limit : nat) :
  let unproductive t :=
    exists d, scrape t = inr d
      /\ fetch_all_chains.walk_loop categorize chain_id (display chain_id)
           limit d [] = [] in
  let result :=
    fetch_all_chains.fetch_chain_of categorize display library_installed
      scrape chain_id limit in
  (length result <= limit)%nat
  /\ (fetch_all_chains.in_CHAINS chain_id = false -> result = [])
  /\ (library_installed = false -> result = [])
  /\ (forall pre t post e,
        fetch_all_chains.file_types_to_try = pre ++ t :: post ->
        Forall unproductive pre -> scrape t = inl e -> result = [])
  /\ (Forall unproductive fetch_all_chains.file_types_to_try ->
      result = []).
Proof.
  intros unproductive result. subst result.
  unfold fetch_all_chains.fetch_chain_of, fetch_all_chains.fetch_chain.
  repeat split.
  - destruct (fetch_all_chains.in_CHAINS chain_id); [|simpl; lia].
    destruct (fetch_all_chains.try_body _ _ _ _ _ _); [simpl; lia|].
    rewrite length_take. lia.
  - by intros ->.
  - intros ->. by destruct (fetch_all_chains.in_CHAINS chain_id).
  - intros pre t post e Htry Hpre Hs.
    destruct (fetch_all_chains.in_CHAINS chain_id); [|done].
    destruct library_installed; [|done].
    unfold fetch_all_chains.try_body. rewrite Htry.
    by rewrite (fetch_attempt_loop_raises categorize chain_id
                  (display chain_id) limit scrape pre post t e).
  - intros Hall.
    destruct (fetch_all_chains.in_CHAINS chain_id); [|done].
    destruct library_installed; [|done].
    unfold fetch_all_chains.try_body.
    rewrite (fetch_attempt_loop_none categorize chain_id
               (display chain_id) limit scrape _ Hall).
    apply take_nil.
Qed.

(** X13. [scrape_chain] of scrape_simple.py returns the first 5000
    products of the files of the walk whose names end in [.xml], [.gz],
    [.XML] or [.GZ], in walk order, although only its inner loop is left
    at 5000 products and later directories are still parsed; each
    product carries the lower-cased scraper id as its chain; an
    exception of the import, the task or the walk gives the empty
    list. *)
Theorem simple_scrape_chain_truncates (categorize : string -> string)
    (chain_name scraper_id : string) (dirs : Catalog.Walk) (e : Py.exn) :
  let found :=
    concat (map (fun f => scrape_simple.parse_xml categorize (snd f)
                            (Py.str_lower scraper_id) chain_name)
                (List.filter (fun f => scrape_simple.is_data_file (fst f))
                             (concat dirs))) in
  let result :=
    scrape_simple.scrape_chain categorize chain_name scraper_id (inr dirs) in
  result = take 5000 found
  /\ (length result <= 5000)%nat
  /\ Forall (fun p => scrape_simple.chain p = Py.str_lower scraper_id
                      /\ scrape_simple.chainName p = chain_name) result
  /\ scrape_simple.scrape_chain categorize chain_name scraper_id (inl e) = [].
Proof.
  intros found result.
  assert (result = take 5000 found) as Hr.
  { subst result found. unfold scrape_simple.scrape_chain.
    by rewrite simple_walk_loop_take. }
  split; [done|]. rewrite Hr. split; [rewrite length_take; lia|].
  split; [|done].
  apply Forall_take. subst found. apply Forall_concat, Forall_fmap.
  apply Forall_forall. intros f _. simpl.
  apply simple_parse_Forall. intros item p Hp.
  by destruct (simple_normalize_accepts categorize _ _ item p Hp)
    as (_ & _ & _ & _ & _ & _ & ? & ? & _).
Qed.

Lemma in_CHAINS_elem (a : string) :
  fetch_all_chains.in_CHAINS a = true
  <-> a ∈ map fst fetch_all_chains.CHAINS.
Proof.
  unfold fetch_all_chains.in_CHAINS. rewrite existsb_exists. split.
  - intros (x & Hx & ->%String.eqb_eq). by apply list_elem_of_In.
  - intros H. exists a. split; [by apply list_elem_of_In|].
    apply String.eqb_refl.
Qed.

Lemma filter_nil_of_none {A} (f : A -> bool) (l : list A) :
  Forall (fun a => f a = false) l -> List.filter f l = [].
Proof.
  induction 1 as [|a l Ha _ IH]; simpl; [done|]. by rewrite Ha.
Qed.

Lemma filter_all_true {A} (f : A -> bool) (l : list A) :
  Forall (fun a => f a = true) (List.filter f l).
Proof.
  apply List.Forall_forall. intros a Ha. by apply List.filter_In in Ha as [_ ?].
Qed.

(** X14. [main] of fetch_all_chains.py with arguments of which none is
    a key of [CHAINS] (and no [--list]) leaves with [sys.exit(1)]: the
    default chains are used for an empty argument list only, so that
    [--update-db] alone fetches nothing and updates nothing. *)
Theorem plan_without_valid_chain_exits (args : list string) :
  args <> [] ->
  "--list"%string ∉ args ->
  Forall (fun a => fetch_all_chains.in_CHAINS a = false) args ->
  fetch_all_chains.plan args = fetch_all_chains.Exit1.
Proof.
  intros Hne Hlist Hnone. unfold fetch_all_chains.plan.
  destruct (existsb (String.eqb "--list") args) eqn:E.
  - apply existsb_exists in E as (x & Hx & <-%String.eqb_eq).
    by apply list_elem_of_In in Hx.
  - destruct args as [|a args]; [done|].
    by rewrite filter_nil_of_none.
Qed.

Lemma plan_without_valid_chain_exits_witness :
  fetch_all_chains.plan ["--update-db"%string] = fetch_all_chains.Exit1.
Proof.
  apply plan_without_valid_chain_exits.
  - discriminate.
  - rewrite list_elem_of_singleton. discriminate.
  - repeat constructor.
Defined.

(** X15. The chains [main] of fetch_all_chains.py fetches are never
    empty and all keys of [CHAINS]: the five default chains for an
    empty argument list, otherwise the arguments that are keys of
    [CHAINS], in argument order and with their repetitions. *)
Theorem plan_selects_known_chains (args selected : list string)
    (update_db : bool) :
  fetch_all_chains.plan args
  = fetch_all_chains.FetchChains selected update_db ->
  selected <> []
  /\ Forall (fun a => a ∈ map fst fetch_all_chains.CHAINS) selected
  /\ ("--list"%string ∉ args)
  /\ selected = (if decide (args = []) then fetch_all_chains.default_chains
                 else List.filter fetch_all_chains.in_CHAINS args).
Proof.
  unfold fetch_all_chains.plan.
  destruct (existsb (String.eqb "--list") args) eqn:E; [done|].
  assert ("--list"%string ∉ args) as Hlist.
  { intros Hin. apply not_true_iff_false in E. apply E.
    apply existsb_exists. exists "--list"%string.
    split; [by apply list_elem_of_In | apply String.eqb_refl]. }
  destruct args as [|a args].
  - intros [= <- _]. repeat split; try done.
    repeat constructor; apply in_CHAINS_elem; reflexivity.
  - destruct (List.filter fetch_all_chains.in_CHAINS (a :: args))
      as [|s sel] eqn:F; [done|].
    intros [= <- _]. repeat split; try done.
    rewrite <- F. eapply Forall_impl; [apply filter_all_true|].
    intros x. apply in_CHAINS_elem.
Qed.

Lemma plan_selects_known_chains_witness :
  let args := ["mega"; "--update-db"; "carrefour"; "mega"]%string in
  let selected := ["mega"; "mega"]%string in
  selected <> []
  /\ Forall (fun a => a ∈ map fst fetch_all_chains.CHAINS) selected
  /\ ("--list"%string ∉ args)
  /\ selected = (if decide (args = []) then fetch_all_chains.default_chains
                 else List.filter fetch_all_chains.in_CHAINS args).
Proof.
  intros args selected.
  apply (plan_selects_known_chains args selected true). reflexivity.
Defined.

(** X16. [main] of scrape_simple.py prints the chain list and scrapes
    nothing when [--list] is among its arguments. Otherwise the chains
    it scrapes are never empty and all keys of its [chains] table: the
    arguments that are keys, in argument order, and all eleven keys in
    declaration order when no argument is a key (also when arguments
    were given). *)
Theorem simple_plan_selects_known_chains (args : list string) :
  match scrape_simple.plan args with
  | scrape_simple.ListChains => "--list"%string ∈ args
  | scrape_simple.ScrapeChains selected =>
      ("--list"%string ∉ args)
      /\ selected <> []
      /\ Forall (fun a => a ∈ map fst scrape_simple.chains) selected
      /\ (Forall (fun a => a ∉ map fst scrape_simple.chains) args ->
          selected = map fst scrape_simple.chains)
      /\ (Exists (fun a => a ∈ map fst scrape_simple.chains) args ->
          selected
          = List.filter
              (fun a => bool_decide (a ∈ map fst scrape_simple.chains))
              args)
  end.
Proof.
  assert (forall a,
             existsb (String.eqb a) (map fst scrape_simple.chains)
             = bool_decide (a ∈ map fst scrape_simple.chains)) as Hk.
  { intros a. apply eq_true_iff_eq. rewrite bool_decide_eq_true.
    rewrite existsb_exists. split.
    - intros (x & Hx & ->%String.eqb_eq). by apply list_elem_of_In.
    - intros H. exists a. split; [by apply list_elem_of_In|].
      apply String.eqb_refl. }
  unfold scrape_simple.plan.
  destruct (existsb (String.eqb "--list") args) eqn:E.
  { apply existsb_exists in E as (x & Hx & <-%String.eqb_eq).
    by apply list_elem_of_In. }
  rewrite (List.filter_ext _ _ Hk).
  set (known := fun a => bool_decide (a ∈ map fst scrape_simple.chains)).
  split; [|split; [|split; [|split]]].
  - intros Hin. apply not_true_iff_false in E. apply E.
    apply existsb_exists. exists "--list"%string.
    split; [by apply list_elem_of_In | apply String.eqb_refl].
  - by destruct (List.filter known args).
  - destruct (List.filter known args) as [|s sel] eqn:F.
    + apply Forall_forall. by intros x Hx.
    + rewrite <- F. eapply Forall_impl; [apply filter_all_true|].
      intros x Hx. by apply bool_decide_eq_true in Hx.
  - intros Hnone. rewrite filter_nil_of_none; [done|].
    eapply Forall_impl; [exact Hnone|]. intros x Hx.
    by apply bool_decide_eq_false.
  - intros (a & Ha & Hin)%Exists_exists.
    destruct (List.filter known args) as [|s sel] eqn:F; [|done].
    exfalso. apply list_elem_of_In in Ha.
    assert (In a (List.filter known args)) as Hf.
    { apply List.filter_In. split; [done|]. by apply bool_decide_eq_true. }
    by rewrite F in Hf.
Qed.

(** ** The merges, entry by entry *)

(** A merge whose step creates the entry of a new barcode and appends
    the record's price unless its chain is already listed. *)
Section GuardedMerge.
Context {P M : Type} (key chain_of : P -> string)
        (entry : P -> Catalog.PriceEntry)
        (key_of : M -> string) (prices_of : M -> list Catalog.PriceEntry)
        (step : gmap string M -> P -> gmap string M).
Hypothesis entry_chain : forall p, Catalog.chain (entry p) = chain_of p.
Hypothesis step_other :
  forall m p b, b <> key p -> step m p !! b = m !! b.
Hypothesis step_same :
  forall m p, exists mp',
    step m p !! key p = Some mp'
    /\ match m !! key p with
       | Some mp =>
           key_of mp' = key_of mp
           /\ prices_of mp'
              = (if Catalog.any_chain (chain_of p) (prices_of mp)
                 then prices_of mp else prices_of mp ++ [entry p])
       | None => key_of mp' = key p /\ prices_of mp' = [entry p]
       end.
Implicit Types (ps : list P) (b : string).

Lemma guarded_lookup_None ps b :
  fold_left step ps ∅ !! b = None <-> b ∉ map key ps.
Proof.
  induction ps as [|p ps IH] using rev_ind.
  - simpl. split; [intros _; apply not_elem_of_nil | done].
  - rewrite fold_left_app, map_app, not_elem_of_app. simpl.
    destruct (decide (b = key p)) as [->|Hne].
    + destruct (step_same (fold_left step ps ∅) p) as (mp' & -> & _).
      split; [done|]. intros [_ H]. exfalso. apply H. set_solver.
    + rewrite step_other by done. rewrite IH. split; [|by intros []].
      intros H. split; [done|]. set_solver.
Qed.

Lemma guarded_key ps b mp :
  fold_left step ps ∅ !! b = Some mp -> key_of mp = b.
Proof.
  revert mp. induction ps as [|p ps IH] using rev_ind; intros mp.
  - done.
  - rewrite fold_left_app. simpl.
    destruct (decide (b = key p)) as [->|Hne].
    + destruct (step_same (fold_left step ps ∅) p) as (mp' & -> & H).
      intros [= <-].
      destruct (fold_left step ps ∅ !! key p) as [mp0|] eqn:E.
      * destruct H as [-> _]. by apply IH.
      * by destruct H.
    + rewrite step_other by done. apply IH.
Qed.

Lemma guarded_complete ps b mp :
  fold_left step ps ∅ !! b = Some mp ->
  forall p, p ∈ ps -> key p = b ->
            chain_of p ∈ map Catalog.chain (prices_of mp).
Proof.
  revert mp. induction ps as [|p ps IH] using rev_ind; intros mp.
  - intros _ p Hp. by apply elem_of_nil in Hp.
  - rewrite fold_left_app. simpl.
    destruct (decide (b = key p)) as [->|Hne].
    + destruct (step_same (fold_left step ps ∅) p) as (mp' & -> & H).
      intros [= <-] q Hq Hk.
      destruct (fold_left step ps ∅ !! key p) as [mp0|] eqn:E.
      * destruct H as [_ ->].
        destruct (Catalog.any_chain (chain_of p) (prices_of mp0)) eqn:A.
        -- apply elem_of_app in Hq as [Hq|Hq]; [by eapply IH|].
           apply list_elem_of_singleton in Hq as ->.
           by apply any_chain_elem.
        -- rewrite map_app. apply elem_of_app.
           apply elem_of_app in Hq as [Hq|Hq]; [left; by eapply IH|].
           apply list_elem_of_singleton in Hq as ->. right.
           simpl. rewrite entry_chain. set_solver.
      * destruct H as [_ ->]. simpl. rewrite entry_chain.
        apply elem_of_app in Hq as [Hq|Hq].
        -- apply guarded_lookup_None in E. exfalso. apply E.
           rewrite <- Hk. by apply list_elem_of_fmap_2.
        -- apply list_elem_of_singleton in Hq as ->. set_solver.
    + rewrite step_other by done. intros Hmp q Hq Hk.
      apply elem_of_app in Hq as [Hq|Hq]; [by eapply IH|].
      apply list_elem_of_singleton in Hq as ->. by subst.
Qed.

Lemma guarded_provenance ps b mp :
  fold_left step ps ∅ !! b = Some mp ->
  forall e, e ∈ prices_of mp ->
    exists pre p post,
      ps = pre ++ p :: post /\ key p = b /\ e = entry p
      /\ Forall (fun q => ~ (key q = b /\ chain_of q = chain_of p)) pre.
Proof.
  revert mp. induction ps as [|p ps IH] using rev_ind; intros mp.
  - done.
  - rewrite fold_left_app. simpl.
    assert (forall mp0 e,
               fold_left step ps ∅ !! b = Some mp0 ->
               e ∈ prices_of mp0 ->
               exists pre p0 post,
                 ps ++ [p] = pre ++ p0 :: post /\ key p0 = b
                 /\ e = entry p0
                 /\ Forall (fun q => ~ (key q = b
                                        /\ chain_of q = chain_of p0)) pre)
      as Hold.
    { intros mp0 e Hmp0 He.
      destruct (IH mp0 Hmp0 e He) as (pre & p0 & post & -> & ? & ? & ?).
      exists pre, p0, (post ++ [p]). by rewrite <- app_assoc. }
    destruct (decide (b = key p)) as [->|Hne].
    + destruct (step_same (fold_left step ps ∅) p) as (mp' & -> & H).
      intros [= <-] e He.
      destruct (fold_left step ps ∅ !! key p) as [mp0|] eqn:E.
      * destruct H as [_ H]. rewrite H in He.
        destruct (Catalog.any_chain (chain_of p) (prices_of mp0)) eqn:A;
          [by eapply Hold|].
        apply elem_of_app in He as [He|He]; [by eapply Hold|].
        apply list_elem_of_singleton in He as ->.
        exists ps, p, []. repeat split; try done.
        apply Forall_forall. intros q Hq [Hk Hc].
        pose proof (guarded_complete ps (key p) mp0 E q Hq Hk) as Hin.
        rewrite Hc in Hin. apply any_chain_elem in Hin. congruence.
      * destruct H as [_ H]. rewrite H in He.
        apply list_elem_of_singleton in He as ->.
        exists ps, p, []. repeat split; try done.
        apply Forall_forall. intros q Hq [Hk _].
        apply guarded_lookup_None in E. apply E.
        rewrite <- Hk. by apply list_elem_of_fmap_2.
    + rewrite step_other by done. intros Hmp e He. by eapply Hold.
Qed.
End GuardedMerge.

Lemma size_list_to_set_le (l : list string) :
  (size (list_to_set l : gset string) <= length l)%nat.
Proof.
  induction l as [|x l IH].
  - rewrite list_to_set_nil, size_empty. done.
  - rewrite list_to_set_cons. simpl.
    destruct (decide (x ∈ (list_to_set l : gset string))) as [Hin|Hnin].
    + replace ({[x]} ∪ list_to_set l) with (list_to_set l : gset string)
        by set_solver.
      lia.
    + rewrite size_union by set_solver. rewrite size_singleton. lia.
Qed.

Section FetchEntries.
Import fetch_all_chains.
Implicit Types (ps : list Product) (b : string).

Lemma fetch_step_entry (m : gmap string Merged) (p : Product) :
  exists mp',
    merge_step m p !! barcode p = Some mp'
    /\ match m !! barcode p with
       | Some mp =>
           m_barcode mp' = m_barcode mp
           /\ prices mp'
              = (if Catalog.any_chain (chain p) (prices mp)
                 then prices mp else prices mp ++ [price_entry p])
       | None => m_barcode mp' = barcode p /\ prices mp' = [price_entry p]
       end.
Proof.
  rewrite fetch_step_same. eexists. split; [done|].
  destruct (m !! barcode p) as [mp|]; [|done].
  by destruct (Catalog.any_chain (chain p) (prices mp)).
Qed.

Lemma fetch_merge_absent ps b :
  merge ps !! b = None <-> b ∉ map barcode ps.
Proof.
  apply (guarded_lookup_None barcode chain price_entry m_barcode prices
           merge_step);
    first [done | exact fetch_step_other | exact fetch_step_entry].
Qed.

Lemma fetch_merge_key ps b mp :
  merge ps !! b = Some mp -> m_barcode mp = b.
Proof.
  apply (guarded_key barcode chain price_entry m_barcode prices
           merge_step);
    first [done | exact fetch_step_other | exact fetch_step_entry].
Qed.

Lemma fetch_merge_dom ps :
  dom (merge ps) = list_to_set (map barcode ps).
Proof.
  apply set_eq. intros b. rewrite elem_of_dom, elem_of_list_to_set.
  destruct (merge ps !! b) as [mp|] eqn:E.
  - split; [|by eauto]. intros _.
    destruct (decide (b ∈ map barcode ps)) as [|Hn]; [done|].
    apply fetch_merge_absent in Hn. congruence.
  - split; [by intros [? ?]|]. intros Hin.
    by apply fetch_merge_absent in E.
Qed.
End FetchEntries.

Section SimpleEntries.
Import scrape_simple.
Implicit Types (ps : list Product) (b : string).

Lemma simple_step_entry (m : gmap string Merged) (p : Product) :
  exists mp',
    merge_step m p !! barcode p = Some mp'
    /\ match m !! barcode p with
       | Some mp =>
           m_barcode mp' = m_barcode mp
           /\ prices mp'
              = (if Catalog.any_chain (chain p) (prices mp)
                 then prices mp else prices mp ++ [price_entry p])
       | None => m_barcode mp' = barcode p /\ prices mp' = [price_entry p]
       end.
Proof.
  rewrite simple_step_same. eexists. split; [done|].
  destruct (m !! barcode p) as [mp|]; [|done].
  by destruct (Catalog.any_chain (chain p) (prices mp)).
Qed.

Lemma simple_merge_absent ps b :
  merge ps !! b = None <-> b ∉ map barcode ps.
Proof.
  apply (guarded_lookup_None barcode chain price_entry m_barcode prices
           merge_step);
    first [done | exact simple_step_other | exact simple_step_entry].
Qed.

Lemma simple_merge_key ps b mp :
  merge ps !! b = Some mp -> m_barcode mp = b.
Proof.
  apply (guarded_key barcode chain price_entry m_barcode prices
           merge_step);
    first [done | exact simple_step_other | exact simple_step_entry].
Qed.
End SimpleEntries.

(** X17. The merge of [main] of fetch_all_chains.py and of
    [update_mongodb] of scrape_simple.py has exactly the barcodes of
    the records as keys, and the entry under a key carries that key as
    its barcode; so there are at most as many merged products as
    records. *)
Theorem guarded_merge_keys :
  (forall (all_products : list fetch_all_chains.Product),
     (forall b, is_Some (fetch_all_chains.merge all_products !! b)
                <-> b ∈ map fetch_all_chains.barcode all_products)
     /\ map_Forall (fun b mp => fetch_all_chains.m_barcode mp = b)
                   (fetch_all_chains.merge all_products)
     /\ (size (fetch_all_chains.merge all_products)
         <= length all_products)%nat)
  /\ (forall (products : list scrape_simple.Product),
        (forall b, is_Some (scrape_simple.merge products !! b)
                   <-> b ∈ map scrape_simple.barcode products)
        /\ map_Forall (fun b mp => scrape_simple.m_barcode mp = b)
                      (scrape_simple.merge products)).
Proof.
  split.
  - intros ps. split; [|split].
    + intros b. rewrite <- not_eq_None_Some, fetch_merge_absent.
      split; [apply dec_stable | by intros ? ?].
    + intros b mp. apply fetch_merge_key.
    + rewrite <- size_dom, fetch_merge_dom.
      etrans; [apply size_list_to_set_le|]. by rewrite length_map.
  - intros ps. split.
    + intros b. rewrite <- not_eq_None_Some, simple_merge_absent.
      split; [apply dec_stable | by intros ? ?].
    + intros b mp. apply simple_merge_key.
Qed.

(** X18. In the merge of [main] of fetch_all_chains.py the price list
    of a barcode holds, for every chain that has a record of this
    barcode, the price of the first such record and nothing else:
    every chain of a record with the barcode is listed, and every
    listed entry is the price entry of a record with the barcode that
    no earlier record shares barcode and chain with. *)
Theorem fetch_merge_first_price_per_chain
    (all_products : list fetch_all_chains.Product) (b : string)
    (mp : fetch_all_chains.Merged) :
  fetch_all_chains.merge all_products !! b = Some mp ->
  (forall p, p ∈ all_products -> fetch_all_chains.barcode p = b ->
     fetch_all_chains.chain p
     ∈ map Catalog.chain (fetch_all_chains.prices mp))
  /\ (forall e, e ∈ fetch_all_chains.prices mp ->
        exists pre p post,
          all_products = pre ++ p :: post
          /\ fetch_all_chains.barcode p = b
          /\ e = fetch_all_chains.price_entry p
          /\ Forall (fun q => ~ (fetch_all_chains.barcode q = b
                                 /\ fetch_all_chains.chain q
                                    = fetch_all_chains.chain p)) pre).
Proof.
  intros Hmp. split.
  - apply (guarded_complete fetch_all_chains.barcode fetch_all_chains.chain
             fetch_all_chains.price_entry fetch_all_chains.m_barcode
             fetch_all_chains.prices fetch_all_chains.merge_step);
      first [done | exact fetch_step_other | exact fetch_step_entry].
  - apply (guarded_provenance fetch_all_chains.barcode fetch_all_chains.chain
             fetch_all_chains.price_entry fetch_all_chains.m_barcode
             fetch_all_chains.prices fetch_all_chains.merge_step);
      first [done | exact fetch_step_other | exact fetch_step_entry].
Qed.

Lemma fetch_merge_first_price_per_chain_witness :
  let a := {| fetch_all_chains.barcode := "111";
              fetch_all_chains.name := "Milk";
              fetch_all_chains.price := Py.Fin 5;
              fetch_all_chains.chain := "A";
              fetch_all_chains.chainName := "Chain A";
              fetch_all_chains.manufacturer := "";
              fetch_all_chains.category := "milk" |} in
  let a' := {| fetch_all_chains.barcode := "111";
               fetch_all_chains.name := "Milk";
               fetch_all_chains.price := Py.Fin 4;
               fetch_all_chains.chain := "A";
               fetch_all_chains.chainName := "Chain A";
               fetch_all_chains.manufacturer := "";
               fetch_all_chains.category := "milk" |} in
  let mp := {| fetch_all_chains.m_barcode := "111";
               fetch_all_chains.m_name := "Milk";
               fetch_all_chains.m_manufacturer := "";
               fetch_all_chains.m_category := "milk";
               fetch_all_chains.prices :=
                 [fetch_all_chains.price_entry a] |} in
  exists pre p post,
    [a; a'] = pre ++ p :: post
    /\ fetch_all_chains.barcode p = "111"%string
    /\ fetch_all_chains.price_entry a = fetch_all_chains.price_entry p
    /\ Forall (fun q => ~ (fetch_all_chains.barcode q = "111"%string
                           /\ fetch_all_chains.chain q
                              = fetch_all_chains.chain p)) pre.
Proof.
  intros a a' mp.
  apply (proj2 (fetch_merge_first_price_per_chain [a; a'] "111"%string mp
                  eq_refl)).
  apply list_elem_of_here.
Defined.

(** X19. The same for [update_mongodb] of scrape_simple.py: per barcode
    and chain the price of the first record is kept, every chain with a
    record of the barcode is listed, and nothing else is. *)
Theorem simple_merge_first_price_per_chain
    (products : list scrape_simple.Product) (b : string)
    (mp : scrape_simple.Merged) :
  scrape_simple.merge products !! b = Some mp ->
  (forall p, p ∈ products -> scrape_simple.barcode p = b ->
     scrape_simple.chain p ∈ map Catalog.chain (scrape_simple.prices mp))
  /\ (forall e, e ∈ scrape_simple.prices mp ->
        exists pre p post,
          products = pre ++ p :: post
          /\ scrape_simple.barcode p = b
          /\ e = scrape_simple.price_entry p
          /\ Forall (fun q => ~ (scrape_simple.barcode q = b
                                 /\ scrape_simple.chain q
                                    = scrape_simple.chain p)) pre).
Proof.
  intros Hmp. split.
  - apply (guarded_complete scrape_simple.barcode scrape_simple.chain
             scrape_simple.price_entry scrape_simple.m_barcode
             scrape_simple.prices scrape_simple.merge_step);
      first [done | exact simple_step_other | exact simple_step_entry].
  - apply (guarded_provenance scrape_simple.barcode scrape_simple.chain
             scrape_simple.price_entry scrape_simple.m_barcode
             scrape_simple.prices scrape_simple.merge_step);
      first [done | exact simple_step_other | exact simple_step_entry].
Qed.

Lemma simple_merge_first_price_per_chain_witness :
  let a := {| scrape_simple.barcode := "111";
              scrape_simple.name := "Milk";
              scrape_simple.price := Py.Fin 5;
              scrape_simple.chain := "a";
              scrape_simple.chainName := "Chain A";
              scrape_simple.category := "milk" |} in
  let b := {| scrape_simple.barcode := "111";
              scrape_simple.name := "Milk 1l";
              scrape_simple.price := Py.Fin 4;
              scrape_simple.chain := "b";
              scrape_simple.chainName := "Chain B";
              scrape_simple.category := "milk" |} in
  let mp := {| scrape_simple.m_barcode := "111";
               scrape_simple.m_name := "Milk";
               scrape_simple.m_category := "milk";
               scrape_simple.prices :=
                 [scrape_simple.price_entry a;
                  scrape_simple.price_entry b] |} in
  scrape_simple.chain b ∈ map Catalog.chain (scrape_simple.prices mp).
Proof.
  intros a b mp.
  apply (proj1 (simple_merge_first_price_per_chain [a; b; a] "111"%string mp
                  eq_refl)).
  - apply list_elem_of_further, list_elem_of_here.
  - reflexivity.
Defined.

(** X20. The result [main] of fetch_all_chains.py prints: [totalProducts]
    is the length of [products]; no two products share a barcode; there
    are at most 5000 products per fetched chain; [chainsSummary] has
    exactly the fetched chain ids as keys and no count above 5000. *)
Theorem fetch_main_result_counts
    (runs : list (string * Py.M (list fetch_all_chains.Product))) :
  let r := fetch_all_chains.main runs in
  fetch_all_chains.totalProducts r = length (fetch_all_chains.products r)
  /\ NoDup (map fetch_all_chains.m_barcode (fetch_all_chains.products r))
  /\ (fetch_all_chains.totalProducts r <= 5000 * length runs)%nat
  /\ dom (fetch_all_chains.chainsSummary r) = list_to_set (map fst runs)
  /\ map_Forall (fun _ n => (n <= 5000)%nat)
                (fetch_all_chains.chainsSummary r).
Proof.
  intros r. subst r. unfold fetch_all_chains.main.
  cbn -[fetch_all_chains.merge fetch_all_chains.fetch_chain Nat.mul].
  set (fetched := map _ runs).
  set (merged := fetch_all_chains.merge _).
  split; [|split; [|split; [|split]]].
  - by rewrite length_map, length_map_to_list.
  - replace (map fetch_all_chains.m_barcode (map snd (map_to_list merged)))
      with (map fst (map_to_list merged)).
    { apply NoDup_fst_map_to_list. }
    rewrite map_map. apply map_ext_in. intros [b mp] Hin. simpl.
    apply list_elem_of_In, elem_of_map_to_list in Hin.
    symmetry. by eapply fetch_merge_key.
  - rewrite <- size_dom. subst merged. rewrite fetch_merge_dom.
    etrans; [apply size_list_to_set_le|]. rewrite length_map.
    subst fetched. clear.
    induction runs as [|[c s] runs IH];
      cbn [map concat fst snd length]; [lia|].
    rewrite length_app.
    assert (length (fetch_all_chains.fetch_chain true s 5000) <= 5000)%nat.
    { destruct s; cbn [fetch_all_chains.fetch_chain length]; [lia|].
      rewrite length_take. lia. }
    rewrite Nat.mul_succ_r. lia.
  - subst fetched. clear.
    assert (forall s : gmap string nat,
               dom (fold_left (fun s cp => <[fst cp := length (snd cp)]> s)
                      (map (fun run =>
                              (fst run,
                               fetch_all_chains.fetch_chain true (snd run)
                                 5000)) runs) s)
               = list_to_set (map fst runs) ∪ dom s) as H.
    { induction runs as [|[c x] runs IH]; intros s; simpl.
      - set_solver.
      - rewrite IH, dom_insert_L. set_solver. }
    rewrite H, dom_empty_L. apply (right_id_L ∅ (∪)).
  - subst fetched. clear.
    assert (forall s : gmap string nat,
               map_Forall (fun _ n => (n <= 5000)%nat) s ->
               map_Forall (fun _ n => (n <= 5000)%nat)
                 (fold_left (fun s cp => <[fst cp := length (snd cp)]> s)
                    (map (fun run =>
                            (fst run,
                             fetch_all_chains.fetch_chain true (snd run)
                               5000)) runs) s)) as H.
    { induction runs as [|[c x] runs IH]; intros s Hs; simpl; [done|].
      apply IH. apply map_Forall_insert_2; [|done].
      destruct x; simpl; [lia|]. rewrite length_take. lia. }
    apply H, map_Forall_empty.
Qed.

(** ** import_kaggle.py *)

Section KaggleRows.
Import import_kaggle.
Variable categorize_product : string -> string.
Variables chain_id chain_name : string.

Lemma kaggle_normalize_accepts (row : gmap string string) (p : Product) :
  normalize categorize_product chain_id chain_name row = inr (Some p) ->
  barcode p <> ""%string /\ name p <> ""%string
  /\ Py.strip (barcode p) = barcode p /\ Py.strip (name p) = name p
  /\ Py.strip (manufacturer p) = manufacturer p
  /\ (Py.is_nan (price p) = true \/ Py.fle (Py.Fin 0) (price p) = true)
  /\ chain p = chain_id /\ chainName p = chain_name
  /\ category p = categorize_product (name p).
Proof.
  unfold normalize.
  destruct (parse_price_returns
              (Py.strip (or_chain row price_keys "0"))) as [x Hx].
  rewrite Hx. unfold Py.bind, Py.ret, Py.try_except.
  destruct (Py.truthy (Py.strip (or_chain row barcode_keys ""))) eqn:Eb;
    [|done].
  destruct (Py.truthy (Py.strip (or_chain row name_keys ""))) eqn:En;
    [|done].
  destruct (Py.le0 x) eqn:El; [done|]. cbn [negb orb].
  intros [= <-]. cbn.
  apply truthy_nonempty in Eb, En.
  repeat split; try done; try apply strip_idempotent.
  destruct (Py.is_nan x) eqn:N.
  - left. by destruct x.
  - right. apply round2_nonneg.
    rewrite (le0_gt0 x N) in El. by apply negb_false_iff in El.
Qed.

Lemma kaggle_parse_Forall (Q : Product -> Prop)
    (doc : Py.M (list (gmap string string))) :
  (forall row p,
      normalize categorize_product chain_id chain_name row = inr (Some p) ->
      Q p) ->
  Forall Q (parse_price_csv categorize_product doc chain_id chain_name).
Proof.
  intros HQ. destruct doc as [e|rows]; simpl; [done|].
  by apply collect_Forall.
Qed.
End KaggleRows.

Section OrChain.
Import import_kaggle.
Implicit Types (row : gmap string string) (keys : list string).

Lemma or_chain_skips row keys (rest : list string) (last : string) :
  Forall (fun k => row !! k = None \/ row !! k = Some ""%string) keys ->
  or_chain row (keys ++ rest) last = or_chain row rest last.
Proof.
  induction 1 as [|k keys [Hk|Hk] _ IH]; simpl; [done| |];
    by rewrite Hk.
Qed.
End OrChain.

Section Results.
Import import_kaggle.
Implicit Types (results : list (string * list Product)) (c : string).

Lemma results_get_set_eq results c v :
  results_get c (results_set c v results) = Some v.
Proof.
  induction results as [|[k x] results IH]; simpl.
  - by rewrite String.eqb_refl.
  - destruct (String.eqb k c) eqn:E; simpl; by rewrite E.
Qed.

Lemma results_get_set_ne results c c' v :
  c <> c' -> results_get c (results_set c' v results) = results_get c results.
Proof.
  intros Hne. induction results as [|[k x] results IH]; simpl.
  - destruct (String.eqb_spec c' c); [by subst|done].
  - destruct (String.eqb_spec k c') as [->|Hk]; simpl.
    + by destruct (String.eqb_spec c' c); [subst|].
    + by rewrite IH.
Qed.

Variable categorize_product : string -> string.
Variable limit_per_chain : Z.

(** What a file adds to the products of chain [c]. *)
Lemma add_file_get (results : list (string * list Product))
    (file : PriceFile) c :
  let yield :=
    match chain_info file with
    | Some (chain_id, chain_name) =>
        if String.eqb chain_id c && is_price_csv (filename file)
        then parse_price_csv categorize_product (doc file)
                             chain_id chain_name
        else []
    | None => []
    end in
  results_get c (add_file categorize_product limit_per_chain results file)
  = match yield with
    | [] => results_get c results
    | _ =>
        let current := default [] (results_get c results) in
        Some (current
              ++ take (Z.to_nat (limit_per_chain
                                 - Z.of_nat (length current))) yield)
    end.
Proof.
  intros yield. subst yield. unfold add_file.
  destruct (is_price_csv (filename file));
    [|destruct (chain_info file) as [[? ?]|]; by rewrite ?andb_false_r].
  destruct (chain_info file) as [[chain_id chain_name]|]; [|done].
  rewrite andb_true_r.
  destruct (parse_price_csv categorize_product (doc file)
                            chain_id chain_name) as [|p products] eqn:E.
  { by destruct (String.eqb chain_id c). }
  set (results' := match results_get chain_id results with
                   | Some _ => results
                   | None => results_set chain_id [] results
                   end).
  assert (results_get chain_id results'
          = Some (default [] (results_get chain_id results))) as Hcur.
  { subst results'. destruct (results_get chain_id results) eqn:G;
      [done|]. apply results_get_set_eq. }
  assert (forall c', c' <> chain_id ->
                     results_get c' results' = results_get c' results)
    as Hother.
  { intros c' Hne. subst results'.
    destruct (results_get chain_id results); [done|].
    by apply results_get_set_ne. }
  clearbody results'. rewrite Hcur.
  destruct (String.eqb_spec chain_id c) as [->|Hne].
  - set (current := default [] (results_get c results)) in *.
    change (default [] (Some current)) with current.
    cbn zeta.
    destruct (Z.ltb_spec 0 (limit_per_chain - Z.of_nat (length current)))
      as [Hpos|Hle].
    + by rewrite results_get_set_eq.
    + rewrite Hcur. f_equal.
      replace (Z.to_nat _) with 0%nat by lia.
      by rewrite take_0, app_nil_r.
  - destruct (0 <? _).
    + rewrite results_get_set_ne by done. by apply Hother.
    + by apply Hother.
Qed.
End Results.

Section KaggleEntries.
Import import_kaggle.
Implicit Types (ps : list Product) (b : string).

Lemma kaggle_fold_records ps b :
  match fold_left merge_step ps ∅ !! b with
  | Some mp =>
      m_barcode mp = b
      /\ List.filter (fun p => String.eqb (barcode p) b) ps <> []
      /\ prices mp
         = map price_entry
             (List.filter (fun p => String.eqb (barcode p) b) ps)
  | None => List.filter (fun p => String.eqb (barcode p) b) ps = []
  end.
Proof.
  induction ps as [|p ps IH] using rev_ind; [done|].
  rewrite fold_left_app, List.filter_app. simpl.
  destruct (String.eqb_spec (barcode p) b) as [<-|Hne].
  - rewrite kaggle_step_same.
    destruct (fold_left merge_step ps ∅ !! barcode p) as [mp|].
    + destruct IH as (Hb & Hn & Hp). simpl. repeat split; [done| |].
      * by destruct (List.filter _ ps).
      * by rewrite Hp, map_app.
    + rewrite IH. simpl. repeat split; done.
  - rewrite kaggle_step_other by done. rewrite app_nil_r. apply IH.
Qed.
End KaggleEntries.

Section SortByPrices.
Import import_kaggle.
Implicit Types (x y : Merged) (l sorted : list Merged).

Lemma insert_by_prices_perm x sorted :
  insert_by_prices x sorted ≡ₚ x :: sorted.
Proof.
  induction sorted as [|y sorted IH]; simpl; [done|].
  destruct (_ <? _)%nat; [done|]. rewrite IH. apply Permutation_swap.
Qed.

Lemma insert_by_prices_sorted x sorted :
  StronglySorted
    (fun x y => (length (prices y) <= length (prices x))%nat) sorted ->
  StronglySorted
    (fun x y => (length (prices y) <= length (prices x))%nat)
    (insert_by_prices x sorted).
Proof.
  induction 1 as [|y sorted Hs IH Hy]; simpl.
  - repeat constructor.
  - destruct (Nat.ltb_spec (length (prices y)) (length (prices x))).
    + constructor; [by constructor|]. constructor; [lia|].
      eapply Forall_impl; [exact Hy|]. simpl. intros; lia.
    + constructor; [done|].
      rewrite insert_by_prices_perm. constructor; [done|done].
Qed.

(** Among the elements with [k] prices, a new element goes last. *)
Lemma insert_by_prices_stable x sorted (k : nat) :
  StronglySorted
    (fun x y => (length (prices y) <= length (prices x))%nat) sorted ->
  List.filter (fun y => (length (prices y) =? k)%nat)
              (insert_by_prices x sorted)
  = List.filter (fun y => (length (prices y) =? k)%nat) sorted
    ++ (if (length (prices x) =? k)%nat then [x] else []).
Proof.
  induction 1 as [|y sorted Hs IH Hy]; simpl; [done|].
  destruct (Nat.ltb_spec (length (prices y)) (length (prices x))) as [Hlt|Hge].
  - simpl. destruct (Nat.eqb_spec (length (prices x)) k) as [Hx|Hx].
    + destruct (Nat.eqb_spec (length (prices y)) k); [lia|].
      rewrite (filter_nil_of_none _ sorted); [done|].
      eapply Forall_impl; [exact Hy|]. simpl.
      intros z Hz. apply Nat.eqb_neq. lia.
    + by rewrite app_nil_r.
  - simpl. destruct (length (prices y) =? k)%nat; simpl; by rewrite IH.
Qed.

Lemma sort_by_prices_snoc l x :
  sort_by_prices (l ++ [x]) = insert_by_prices x (sort_by_prices l).
Proof. unfold sort_by_prices. by rewrite fold_left_app. Qed.

Lemma sort_by_prices_sorted l :
  StronglySorted
    (fun x y => (length (prices y) <= length (prices x))%nat)
    (sort_by_prices l).
Proof.
  induction l as [|x l IH] using rev_ind; [constructor|].
  rewrite sort_by_prices_snoc. by apply insert_by_prices_sorted.
Qed.

Lemma sort_by_prices_perm l : sort_by_prices l ≡ₚ l.
Proof.
  induction l as [|x l IH] using rev_ind; [done|].
  rewrite sort_by_prices_snoc, insert_by_prices_perm, IH.
  by rewrite Permutation_app_comm.
Qed.

Lemma sort_by_prices_stable l (k : nat) :
  List.filter (fun y => (length (prices y) =? k)%nat) (sort_by_prices l)
  = List.filter (fun y => (length (prices y) =? k)%nat) l.
Proof.
  induction l as [|x l IH] using rev_ind; [done|].
  rewrite sort_by_prices_snoc, insert_by_prices_stable
    by apply sort_by_prices_sorted.
  by rewrite IH, List.filter_app.
Qed.
End SortByPrices.

(** X21. Every product that [parse_price_csv] returns has a non-empty,
    trimmed barcode and name, a trimmed manufacturer, the id and name of
    the chain it was called for and the category of its name; its price
    is not below zero or is no number. A file that cannot be read gives
    the empty list. *)
Theorem kaggle_parsed_products_valid (categorize_product : string -> string)
    (doc : Py.M (list (gmap string string))) (chain_id chain_name : string)
    (e : Py.exn) :
  Forall (fun p =>
            import_kaggle.barcode p <> ""%string
            /\ import_kaggle.name p <> ""%string
            /\ Py.strip (import_kaggle.barcode p) = import_kaggle.barcode p
            /\ Py.strip (import_kaggle.name p) = import_kaggle.name p
            /\ Py.strip (import_kaggle.manufacturer p)
               = import_kaggle.manufacturer p
            /\ (Py.is_nan (import_kaggle.price p) = true
                \/ Py.fle (Py.Fin 0) (import_kaggle.price p) = true)
            /\ import_kaggle.chain p = chain_id
            /\ import_kaggle.chainName p = chain_name
            /\ import_kaggle.category p
               = categorize_product (import_kaggle.name p))
         (import_kaggle.parse_price_csv categorize_product doc
            chain_id chain_name)
  /\ import_kaggle.parse_price_csv categorize_product (inl e)
       chain_id chain_name = [].
Proof.
  split; [|done].
  apply kaggle_parse_Forall. apply kaggle_normalize_accepts.
Qed.

(** X22. A column chain [row.get(k1) or row.get(k2) or ... or last] of
    [parse_price_csv] yields the cell of the first column that is
    present and not empty, and [last] when there is none; a cell of
    blanks counts as not empty. *)
Theorem or_chain_first_nonempty (row : gmap string string)
    (pre post : list string) (k v last : string) :
  Forall (fun k' => row !! k' = None \/ row !! k' = Some ""%string) pre ->
  row !! k = Some v ->
  v <> ""%string ->
  import_kaggle.or_chain row (pre ++ k :: post) last = v
  /\ import_kaggle.or_chain row pre last = last.
Proof.
  intros Hpre Hk Hv. split.
  - rewrite or_chain_skips by done. simpl. rewrite Hk.
    apply truthy_nonempty in Hv. by rewrite Hv.
  - rewrite <- (app_nil_r pre). by rewrite or_chain_skips.
Qed.

Lemma or_chain_first_nonempty_witness :
  let row : gmap string string :=
    list_to_map [("ItemCode", ""); ("Barcode", "  ");
                 ("barcode", "729")]%string in
  import_kaggle.or_chain row
    (["ItemCode"; "item_code"]%string ++ "Barcode"%string
       :: ["barcode"%string]) ""%string = "  "%string
  /\ import_kaggle.or_chain row ["ItemCode"; "item_code"]%string ""%string
     = ""%string.
Proof.
  intros row.
  apply (or_chain_first_nonempty row ["ItemCode"; "item_code"]%string
           ["barcode"%string] "Barcode"%string "  "%string ""%string).
  - constructor; [right; reflexivity|].
    constructor; [left; reflexivity|]. constructor.
  - reflexivity.
  - discriminate.
Defined.

(** X23. [find_and_parse_csvs] keeps, for every chain id, the first
    [limit_per_chain] products of its price files in walk order (none
    for a limit of zero or below); a chain id is a key of the result
    exactly when one of its price files yielded a product. A price file
    is one whose lower-cased name contains [price] and whose name ends
    in [.csv], and whose path names a chain. *)
Theorem find_and_parse_csvs_caps_chain
    (categorize_product : string -> string) (limit_per_chain : Z)
    (files : list import_kaggle.PriceFile) (chain_id : string) :
  let yield (file : import_kaggle.PriceFile) :=
    match import_kaggle.chain_info file with
    | Some (id, chain_name) =>
        if String.eqb id chain_id
           && import_kaggle.is_price_csv (import_kaggle.filename file)
        then import_kaggle.parse_price_csv categorize_product
               (import_kaggle.doc file) id chain_name
        else []
    | None => []
    end in
  let found := concat (map yield files) in
  import_kaggle.results_get chain_id
    (import_kaggle.find_and_parse_csvs categorize_product limit_per_chain
       files)
  = match found with
    | [] => None
    | _ => Some (take (Z.to_nat limit_per_chain) found)
    end.
Proof.
  intros yield found. subst found.
  induction files as [|file files IH] using rev_ind; [done|].
  unfold import_kaggle.find_and_parse_csvs in *.
  rewrite fold_left_app, map_app, concat_app. cbn [fold_left map concat].
  rewrite app_nil_r.
  rewrite add_file_get. fold (yield file).
  destruct (yield file) as [|y ys] eqn:Ey.
  { by rewrite app_nil_r. }
  rewrite IH. cbn zeta.
  destruct (concat (map yield files)) as [|x xs] eqn:Ex.
  - cbn [default length app]. f_equal. f_equal. f_equal. lia.
  - change (default [] (Some ?l)) with l.
    set (found := x :: xs). set (new := y :: ys).
    assert (found ++ new <> []) as Hne by (by subst found).
    destruct (found ++ new) eqn:E; [done|]. rewrite <- E. f_equal.
    rewrite take_app. f_equal. f_equal. rewrite length_take. lia.
Qed.

Lemma NoDup_list_filter {A} (f : A -> bool) (l : list A) :
  NoDup l -> NoDup (List.filter f l).
Proof.
  induction 1 as [|x l Hx _ IH]; simpl; [constructor|].
  destruct (f x); [|done]. constructor; [|done].
  rewrite list_elem_of_In, List.filter_In, <- list_elem_of_In. by intros [? _].
Qed.

Section InsertionOrder.
Import import_kaggle.

Lemma insertion_order_elem (keys : list string) (x : string) :
  x ∈ insertion_order keys <-> x ∈ keys.
Proof.
  induction keys as [|k keys IH]; simpl; [done|].
  rewrite !elem_of_cons, <- IH, !list_elem_of_In, List.filter_In.
  destruct (String.eqb_spec x k) as [->|Hne]; simpl.
  - split; auto.
  - split; [intros [?|[? _]]; auto|]. intros [?|?]; auto.
Qed.

Lemma insertion_order_NoDup (keys : list string) :
  NoDup (insertion_order keys).
Proof.
  induction keys as [|k keys IH]; simpl; [constructor|].
  apply NoDup_cons. split.
  - rewrite list_elem_of_In, List.filter_In. intros [_ H].
    by rewrite String.eqb_refl in H.
  - by apply NoDup_list_filter.
Qed.

Lemma kaggle_merge_absent (chain_products : list (string * list Product))
    (b : string) :
  merge_products_by_barcode chain_products !! b = None
  <-> b ∉ map barcode (processing_order chain_products).
Proof.
  rewrite kaggle_merge_fold.
  pose proof (kaggle_fold_records (processing_order chain_products) b) as H.
  destruct (fold_left merge_step _ ∅ !! b) as [mp|].
  - destruct H as (_ & Hne & _). split; [done|]. intros Hn. exfalso.
    apply Hne. apply filter_nil_of_none. apply List.Forall_forall.
    intros p Hp. apply String.eqb_neq. intros <-. apply Hn.
    apply list_elem_of_fmap_2. by apply list_elem_of_In.
  - split; [|done]. intros _ [p [-> Hp]]%list_elem_of_fmap.
    apply list_elem_of_In in Hp.
    assert (In p (List.filter (fun q => String.eqb (barcode q) (barcode p))
                              (processing_order chain_products))) as Hf.
    { apply List.filter_In. split; [done|]. apply String.eqb_refl. }
    by rewrite H in Hf.
Qed.

Lemma kaggle_merge_key (chain_products : list (string * list Product))
    (b : string) (mp : Merged) :
  merge_products_by_barcode chain_products !! b = Some mp ->
  m_barcode mp = b.
Proof.
  rewrite kaggle_merge_fold. intros H.
  pose proof (kaggle_fold_records (processing_order chain_products) b) as R.
  rewrite H in R. by destruct R.
Qed.

(** [merged.values()]: the entries in insertion order. *)
Lemma kaggle_values_barcodes
    (chain_products : list (string * list Product)) (keys : list string) :
  Forall (fun b => b ∈ map barcode (processing_order chain_products))
         keys ->
  map m_barcode
      (omap (fun b => merge_products_by_barcode chain_products !! b) keys)
  = keys.
Proof.
  induction 1 as [|b keys Hb _ IH]; [done|]. simpl.
  destruct (merge_products_by_barcode chain_products !! b) as [mp|] eqn:E.
  - simpl. f_equal; [by eapply kaggle_merge_key | exact IH].
  - by apply kaggle_merge_absent in E.
Qed.
End InsertionOrder.

(** X24. [merge_products_by_barcode] of import_kaggle.py lists, under a
    barcode, the price entry of every record with that barcode, in the
    order the records are visited (chain by chain, each list in order):
    nothing is dropped, a chain can appear more than once; a barcode is
    a key exactly when a record has it, and the entry carries its key
    as barcode. *)
Theorem kaggle_merge_lists_every_record
    (chain_products : list (string * list import_kaggle.Product))
    (b : string) :
  let records :=
    List.filter (fun p => String.eqb (import_kaggle.barcode p) b)
                (import_kaggle.processing_order chain_products) in
  match import_kaggle.merge_products_by_barcode chain_products !! b with
  | Some mp =>
      import_kaggle.m_barcode mp = b
      /\ records <> []
      /\ import_kaggle.prices mp = map import_kaggle.price_entry records
  | None => records = []
  end.
Proof.
  intros records. subst records. rewrite kaggle_merge_fold.
  apply kaggle_fold_records.
Qed.

(** X25. The list [merge_products_by_barcode] returns holds every merged
    entry once (no two share a barcode), is sorted by decreasing number
    of prices, and keeps entries with the same number of prices in the
    order in which their barcodes were first met. *)
Theorem merged_products_sorted
    (chain_products : list (string * list import_kaggle.Product)) :
  let merged := import_kaggle.merge_products_by_barcode chain_products in
  let values :=
    omap (fun b => merged !! b)
         (import_kaggle.insertion_order
            (map import_kaggle.barcode
                 (import_kaggle.processing_order chain_products))) in
  let result := import_kaggle.merged_products chain_products in
  StronglySorted
    (fun x y => (length (import_kaggle.prices y)
                 <= length (import_kaggle.prices x))%nat) result
  /\ result ≡ₚ map snd (map_to_list merged)
  /\ NoDup (map import_kaggle.m_barcode result)
  /\ (forall k : nat,
        List.filter (fun y => (length (import_kaggle.prices y) =? k)%nat)
                    result
        = List.filter (fun y => (length (import_kaggle.prices y) =? k)%nat)
                      values).
Proof.
  intros merged values result.
  assert (result ≡ₚ values) as Hperm by apply sort_by_prices_perm.
  assert (map import_kaggle.m_barcode values
          = import_kaggle.insertion_order
              (map import_kaggle.barcode
                   (import_kaggle.processing_order chain_products)))
    as Hkeys.
  { apply kaggle_values_barcodes. apply Forall_forall. intros b Hb.
    exact (proj1 (insertion_order_elem _ _) Hb). }
  assert (NoDup (map import_kaggle.m_barcode values)) as Hnd.
  { rewrite Hkeys. apply insertion_order_NoDup. }
  split; [apply sort_by_prices_sorted|].
  split; [|split; [by rewrite Hperm | apply sort_by_prices_stable]].
  rewrite Hperm. apply NoDup_Permutation.
  - eapply NoDup_fmap_1. exact Hnd.
  - apply (NoDup_fmap_1 (import_kaggle.m_barcode)).
    replace (import_kaggle.m_barcode <$> map snd (map_to_list merged))
      with (map fst (map_to_list merged)).
    { apply NoDup_fst_map_to_list. }
    rewrite map_map. apply map_ext_in. intros [b mp] Hin. simpl.
    apply list_elem_of_In, elem_of_map_to_list in Hin.
    symmetry. by eapply kaggle_merge_key.
  - intros mp. subst values. rewrite list_elem_of_omap. split.
    + intros (b & _ & Hb). apply list_elem_of_fmap. exists (b, mp).
      split; [done|]. by apply elem_of_map_to_list.
    + intros ([b mp'] & -> & Hin)%list_elem_of_fmap. simpl.
      apply elem_of_map_to_list in Hin. exists b. split; [|done].
      apply insertion_order_elem.
      destruct (decide (b ∈ map import_kaggle.barcode
                          (import_kaggle.processing_order chain_products)))
        as [|Hn]; [done|].
      apply kaggle_merge_absent in Hn. fold merged in Hn. congruence.
Qed.

(** X26. [main] of import_kaggle.py reports a failure exactly when the
    data could not be had or [find_and_parse_csvs] returned no chain;
    otherwise it reports success, also when the [--chains] option names
    none of the chains found: the result then has no product, no chain
    in its summary and [totalProducts] 0. *)
Theorem kaggle_main_outcomes (data_ready : bool)
    (chain_products : list (string * list import_kaggle.Product))
    (chains : option (list string)) (c : string) (cs : list string) :
  chain_products <> [] ->
  Forall (fun kv => fst kv ∉ c :: cs) chain_products ->
  import_kaggle.main false chain_products chains = import_kaggle.Failure
  /\ import_kaggle.main data_ready [] chains = import_kaggle.Failure
  /\ import_kaggle.success (import_kaggle.main true chain_products chains)
     = true
  /\ import_kaggle.main true chain_products (Some (c :: cs))
     = import_kaggle.Imported 0 [] [].
Proof.
  intros Hne Hnone. split; [done|]. split; [by destruct data_ready|].
  split.
  - destruct chain_products; [done|]. reflexivity.
  - destruct chain_products as [|kv rest]; [done|].
    unfold import_kaggle.main.
    rewrite filter_nil_of_none; [done|].
    eapply Forall_impl; [exact Hnone|]. intros kv' Hkv.
    destruct (existsb (String.eqb (fst kv')) (c :: cs)) eqn:E; [|done].
    apply existsb_exists in E as (x & Hx & Heq%String.eqb_eq). subst x.
    by apply list_elem_of_In in Hx.
Qed.

Lemma kaggle_main_outcomes_witness :
  let p := {| import_kaggle.barcode := "111";
              import_kaggle.name := "Milk";
              import_kaggle.price := Py.Fin 5;
              import_kaggle.chain := "shufersal";
              import_kaggle.chainName := "Shufersal";
              import_kaggle.manufacturer := "";
              import_kaggle.unitQty := "";
              import_kaggle.unitMeasure := "";
              import_kaggle.category := "milk" |} in
  import_kaggle.main true [("shufersal"%string, [p])]
    (Some ["victory"%string])
  = import_kaggle.Imported 0 [] [].
Proof.
  intros p.
  apply (kaggle_main_outcomes true [("shufersal"%string, [p])] None
           "victory"%string []).
  - discriminate.
  - repeat constructor. simpl. rewrite list_elem_of_singleton. discriminate.
Defined.

(** X27. [categorize] of fetch_all_chains.py and scrape_simple.py and
    [categorize_product] of import_kaggle.py return the first category,
    in the order of the table, one of whose keywords occurs in the
    lower-cased name, and the default label when no keyword of the table
    occurs in it. *)
Theorem categorize_first_match (CATEGORIES : list (string * list string))
    (default_label name : string) :
  let occurs (kw : string) :=
    exists a b, Py.str_lower name = (a ++ kw ++ b)%string in
  (forall pre cat keywords post,
     CATEGORIES = pre ++ (cat, keywords) :: post ->
     Forall (fun entry => Forall (fun kw => ~ occurs kw) (snd entry)) pre ->
     Exists occurs keywords ->
     Catalog.categorize CATEGORIES default_label name = cat)
  /\ (Forall (fun entry => Forall (fun kw => ~ occurs kw) (snd entry))
             CATEGORIES ->
      Catalog.categorize CATEGORIES default_label name = default_label).
Proof.
  intros occurs.
  assert (forall keywords,
             Catalog.keyword_loop keywords (Py.str_lower name) = true
             <-> Exists occurs keywords) as Hkw.
  { induction keywords as [|kw keywords IH]; simpl.
    - split; [done|]. by intros ?%Exists_nil.
    - rewrite Exists_cons, <- IH.
      destruct (Py.contains kw (Py.str_lower name)) eqn:E.
      + apply contains_occurs in E. split; auto.
      + split; [auto|]. intros [H|H]; [|done].
        apply contains_occurs in H. congruence. }
  assert (forall pre rest,
             Forall (fun entry => Forall (fun kw => ~ occurs kw) (snd entry))
                    pre ->
             Catalog.category_loop default_label (pre ++ rest)
               (Py.str_lower name)
             = Catalog.category_loop default_label rest (Py.str_lower name))
    as Hskip.
  { intros pre rest. induction 1 as [|[cat kws] pre Hnone _ IH]; [done|].
    simpl. destruct (Catalog.keyword_loop kws (Py.str_lower name)) eqn:E;
      [|done].
    apply Hkw in E. apply Exists_exists in E as (kw & Hin & Hocc).
    simpl in Hnone. rewrite Forall_forall in Hnone. by destruct (Hnone kw). }
  unfold Catalog.categorize. split.
  - intros pre cat keywords post -> Hpre Hex. rewrite Hskip by done.
    simpl. apply Hkw in Hex. by rewrite Hex.
  - intros Hall. rewrite <- (app_nil_r CATEGORIES). by rewrite Hskip.
Qed.
